(** * sleep-formula: the calculation engine of [useSleepState.ts]

    A shallow embedding of the pure functions of the sleep/caffeine
    tracker (time utilities, sleep-cycle calculator, caffeine decay,
    sleep-debt aggregator, statistics and tip engine) together with the
    properties its specification states about them.

    Conventions.

    - A JavaScript [number] that only goes through [+ - * / %],
      [Math.round], [Math.floor], [Math.max] and comparisons is a value of
      [number]: [NaN], the two infinities, or an exact rational.  Binary64
      rounding, overflow and the sign of zero are not represented; the
      statements keep to what holds of the binary64 run as well: whole
      numbers stay below 2^53, and a rounding to decimals is stated up to
      the neighbouring decimal.  Module [Binary64] runs the two roundings
      to decimals of the source on binary64 numbers, where their outcome
      at a tie is at stake.
    - Where the source calls [Math.pow], [Math.sin], [Math.cos] and
      [Math.atan2] (caffeine decay, circular mean) the values are real
      numbers of the standard library.
    - A JavaScript string is a [string] of bytes; a [Date] is its time value
      in milliseconds (a [Z]) read through the local time zone, a fixed
      offset in minutes.
    - What the source reads from the environment ([new Date()], the local
      time zone, [nanoid()]) is an explicit argument here. *)

From Stdlib Require Import ZArith QArith Qround Qcanon String Ascii List Bool Lia.
From Stdlib Require Import DecimalString DecimalZ DecimalPos.
From Stdlib Require Import Reals Lra.
From Stdlib Require Floats Uint63 Lqa.
Import ListNotations.

Local Open Scope Z_scope.

(* ################################################################# *)
(** * JavaScript numbers *)

Module JsNumber.

Inductive number : Type :=
| NaN
| PosInf
| NegInf
| Num (q : Q).

(** A finite result, kept in lowest terms so that equal values are equal
    terms. *)
Definition fin (q : Q) : number := Num (Qred q).

Definition nZ (z : Z) : number := Num (inject_Z z).

(** Sign of a number that is not [NaN]. *)
Definition sgn (a : number) : Z :=
  match a with
  | NaN => 0
  | PosInf => 1
  | NegInf => -1
  | Num q => Z.sgn (Qnum q)
  end.

Definition of_sign (s : Z) : number :=
  match s with
  | Z0 => NaN
  | Zpos _ => PosInf
  | Zneg _ => NegInf
  end.

Definition nneg (a : number) : number :=
  match a with
  | NaN => NaN
  | PosInf => NegInf
  | NegInf => PosInf
  | Num q => fin (- q)
  end.

(** [a + b] *)
Definition nadd (a b : number) : number :=
  match a, b with
  | NaN, _ | _, NaN => NaN
  | PosInf, NegInf | NegInf, PosInf => NaN
  | PosInf, _ | _, PosInf => PosInf
  | NegInf, _ | _, NegInf => NegInf
  | Num x, Num y => fin (x + y)
  end.

(** [a - b] *)
Definition nsub (a b : number) : number :=
  match a, b with
  | NaN, _ | _, NaN => NaN
  | PosInf, PosInf | NegInf, NegInf => NaN
  | PosInf, _ | _, NegInf => PosInf
  | NegInf, _ | _, PosInf => NegInf
  | Num x, Num y => fin (x - y)
  end.

(** [a * b] *)
Definition nmul (a b : number) : number :=
  match a, b with
  | NaN, _ | _, NaN => NaN
  | Num x, Num y => fin (x * y)
  | _, _ => of_sign (sgn a * sgn b)
  end.

(** [a / b]; a zero divisor is the positive zero. *)
Definition ndiv (a b : number) : number :=
  match a, b with
  | NaN, _ | _, NaN => NaN
  | Num x, Num y =>
      if Qeq_bool y 0 then of_sign (sgn a) else fin (x / y)
  | Num _, _ => nZ 0
  | _, Num y => of_sign (sgn a * (if Z.sgn (Qnum y) =? -1 then -1 else 1))
  | _, _ => NaN
  end.

(** Truncation toward zero. *)
Definition Qtrunc (q : Q) : Z := Z.quot (Qnum q) (Zpos (Qden q)).

(** [a % b]: the remainder has the sign of the dividend. *)
Definition nrem (a b : number) : number :=
  match a, b with
  | Num x, Num y =>
      if Qeq_bool y 0 then NaN else fin (x - y * inject_Z (Qtrunc (x / y)))
  | Num x, PosInf | Num x, NegInf => Num x
  | _, _ => NaN
  end.

(** [Math.floor] *)
Definition nfloor (a : number) : number :=
  match a with
  | Num q => nZ (Qfloor q)
  | _ => a
  end.

(** [Math.round]: the nearest integer, a tie going up. *)
Definition nround (a : number) : number :=
  match a with
  | Num q => nZ (Qfloor (q + (1 # 2)))
  | _ => a
  end.

(** [Math.max(a, b)] *)
Definition nmax (a b : number) : number :=
  match a, b with
  | NaN, _ | _, NaN => NaN
  | PosInf, _ | _, PosInf => PosInf
  | NegInf, x | x, NegInf => x
  | Num x, Num y => if Qle_bool x y then b else a
  end.

(** [Math.min(a, b)] *)
Definition nmin (a b : number) : number :=
  match a, b with
  | NaN, _ | _, NaN => NaN
  | NegInf, _ | _, NegInf => NegInf
  | PosInf, x | x, PosInf => x
  | Num x, Num y => if Qle_bool x y then a else b
  end.

(** Comparison; [None] when an operand is [NaN]. *)
Definition ncompare (a b : number) : option comparison :=
  match a, b with
  | NaN, _ | _, NaN => None
  | PosInf, PosInf | NegInf, NegInf => Some Eq
  | PosInf, _ | _, NegInf => Some Gt
  | NegInf, _ | _, PosInf => Some Lt
  | Num x, Num y => Some (x ?= y)%Q
  end.

(** [a < b], [a <= b], [a > b], [a >= b] *)
Definition nlt (a b : number) : bool :=
  match ncompare a b with Some Lt => true | _ => false end.
Definition nle (a b : number) : bool :=
  match ncompare a b with Some Lt | Some Eq => true | _ => false end.
Definition ngt (a b : number) : bool := nlt b a.
Definition nge (a b : number) : bool := nle b a.

(** [ToNumber] of a value that may be [undefined] ([None]). *)
Definition toNumber (v : option number) : number :=
  match v with
  | Some n => n
  | None => NaN
  end.

Definition Q_eq_dec (x y : Q) : {x = y} + {x <> y}.
Proof. decide equality; [apply Pos.eq_dec | apply Z.eq_dec]. Defined.

Definition number_eq_dec (a b : number) : {a = b} + {a <> b}.
Proof. decide equality; apply Q_eq_dec. Defined.

End JsNumber.
Export JsNumber.

(* ################################################################# *)
(** * JavaScript strings *)

Module JsString.

Local Open Scope string_scope.
Local Open Scope Z_scope.

Definition chars (s : string) : list ascii := list_ascii_of_string s.
Definition unchars (l : list ascii) : string := string_of_list_ascii l.

(** [s.split(sep)] for a one-character separator: never empty, one more
    part than there are separators. *)
Fixpoint split (sep : ascii) (s : string) : list string :=
  match s with
  | EmptyString => [EmptyString]
  | String c rest =>
      if Ascii.eqb c sep then EmptyString :: split sep rest
      else match split sep rest with
           | [] => [String c EmptyString]
           | part :: parts => String c part :: parts
           end
  end.

(** [s.padStart(n, fill)] for a one-character [fill]. *)
Definition padStart (n : nat) (fill : ascii) (s : string) : string :=
  unchars (repeat fill (n - String.length s)) ++ s.

(** Decimal digits of an integer, as [String(z)] prints it. *)
Definition string_of_Z (z : Z) : string :=
  NilZero.string_of_int (Z.to_int z).

(** ** [Number(s)]: the StringToNumber grammar *)

Definition is_space (c : ascii) : bool :=
  let n := nat_of_ascii c in
  ((9 <=? n) && (n <=? 13))%nat || (n =? 32)%nat.

Fixpoint trim_start (l : list ascii) : list ascii :=
  match l with
  | c :: rest => if is_space c then trim_start rest else l
  | [] => []
  end.

Definition trim (l : list ascii) : list ascii :=
  rev (trim_start (rev (trim_start l))).

(** Value of a digit in the given radix, letters in either case. *)
Definition digit_value (radix : Z) (c : ascii) : option Z :=
  let n := Z.of_nat (nat_of_ascii c) in
  let v := if (48 <=? n) && (n <=? 57) then n - 48
           else if (97 <=? n) && (n <=? 122) then n - 87
           else if (65 <=? n) && (n <=? 90) then n - 55
           else radix in
  if v <? radix then Some v else None.

(** The longest prefix of digits, most significant first, and the rest. *)
Fixpoint span_digits (radix : Z) (l : list ascii) : list Z * list ascii :=
  match l with
  | c :: rest =>
      match digit_value radix c with
      | Some v => let (ds, tl) := span_digits radix rest in (v :: ds, tl)
      | None => ([], l)
      end
  | [] => ([], [])
  end.

Definition digits_to_Z (radix : Z) (ds : list Z) : Z :=
  fold_left (fun acc d => acc * radix + d) ds 0.

(** [0x], [0o], [0b] literals: at least one digit and nothing after. *)
Definition radix_literal (radix : Z) (l : list ascii) : number :=
  match span_digits radix l with
  | ((_ :: _) as ds, []) => nZ (digits_to_Z radix ds)
  | _ => NaN
  end.

Definition pow10 (e : Z) : Q :=
  if 0 <=? e then inject_Z (10 ^ e) else / inject_Z (10 ^ (- e)).

(** An optional exponent part and the end of the literal. *)
Definition exponent (l : list ascii) : option Z :=
  match l with
  | [] => Some 0
  | c :: rest =>
      if Ascii.eqb c "e" || Ascii.eqb c "E" then
        let (neg, body) :=
          match rest with
          | s :: tl => if Ascii.eqb s "-" then (true, tl)
                       else if Ascii.eqb s "+" then (false, tl)
                       else (false, rest)
          | [] => (false, rest)
          end in
        match span_digits 10 body with
        | ((_ :: _) as ds, []) =>
            Some (if neg : bool then - digits_to_Z 10 ds else digits_to_Z 10 ds)
        | _ => None
        end
      else None
  end.

(** Unsigned decimal literal: digits, an optional fraction, an optional
    exponent; at least one digit before the exponent. *)
Definition unsigned_decimal (l : list ascii) : option Q :=
  let (ip, after_int) := span_digits 10 l in
  let (fp, after_frac) :=
    match after_int with
    | c :: rest => if Ascii.eqb c "." then span_digits 10 rest else ([], after_int)
    | [] => ([], after_int)
    end in
  match ip, fp with
  | [], [] => None
  | _, _ =>
      match exponent after_frac with
      | Some e =>
          Some ((inject_Z (digits_to_Z 10 ip)
                 + inject_Z (digits_to_Z 10 fp) / inject_Z (10 ^ Z.of_nat (length fp)))
                * pow10 e)%Q
      | None => None
      end
  end.

Definition signed_decimal (l : list ascii) : number :=
  let (neg, body) :=
    match l with
    | c :: rest => if Ascii.eqb c "-" then (true, rest)
                   else if Ascii.eqb c "+" then (false, rest)
                   else (false, l)
    | [] => (false, l)
    end in
  if String.eqb (unchars body) "Infinity" then
    (if neg : bool then NegInf else PosInf)
  else match unsigned_decimal body with
       | Some q => if neg : bool then fin (- q) else fin q
       | None => NaN
       end.

(** [Number(s)] on a string: ASCII white space trimmed, the empty string
    is 0, a radix or a signed decimal literal is its value, anything else
    is [NaN]. *)
Definition Number (s : string) : number :=
  match trim (chars s) with
  | [] => nZ 0
  | (c :: x :: rest) as l =>
      if Ascii.eqb c "0" && (Ascii.eqb x "x" || Ascii.eqb x "X") then radix_literal 16 rest
      else if Ascii.eqb c "0" && (Ascii.eqb x "o" || Ascii.eqb x "O") then radix_literal 8 rest
      else if Ascii.eqb c "0" && (Ascii.eqb x "b" || Ascii.eqb x "B") then radix_literal 2 rest
      else signed_decimal l
  | l => signed_decimal l
  end.

(** ** [String(n)] on a number *)

(** Digits of the fraction [r / d] ([0 <= r < d]) by long division. *)
Fixpoint fraction_digits (fuel : nat) (r d : Z) : string :=
  match fuel with
  | O => EmptyString
  | S fuel' =>
      if r =? 0 then EmptyString
      else string_of_Z (r * 10 / d) ++ fraction_digits fuel' (r * 10 mod d) d
  end.

(** [String(n)].  Integers and short decimal fractions print as in
    JavaScript; a fraction is cut after 17 digits (JavaScript prints the
    shortest decimal that reads back as the same binary64 value), and
    exponent notation is not produced. *)
Definition String_of (a : number) : string :=
  match a with
  | NaN => "NaN"
  | PosInf => "Infinity"
  | NegInf => "-Infinity"
  | Num q =>
      let n := Qnum (Qred q) in
      let d := Zpos (Qden (Qred q)) in
      if d =? 1 then string_of_Z n
      else (if n <? 0 then "-" else "")
             ++ string_of_Z (Z.abs n / d) ++ "." ++ fraction_digits 17 (Z.abs n mod d) d
  end.

End JsString.
Export JsString.

(* ################################################################# *)
(** * Types of the engine *)

Record SleepRecord := {
  id : string;
  date : string;          (* YYYY-MM-DD *)
  bedtime : string;       (* HH:mm *)
  wakeTime : string;      (* HH:mm *)
  hoursSlept : number     (* calculated *)
}.

Inductive Quality := poor | fair | good | great.

Record OptimalTime := {
  time : string;          (* HH:mm *)
  cycles : Z;             (* 1-6 *)
  hours : number;         (* total hours of sleep *)
  quality : Quality
}.

Inductive Mode := bedtimeMode | wakeupMode.

Record DailyDebt := {
  day : string;
  dayLabel : string;
  dayHours : number;
  debt : number
}.

Record SleepDebtResult := {
  daily : list DailyDebt;
  totalDebt : number;
  avgHours : number
}.

(** ** Constants *)

Definition SLEEP_CYCLE_MINUTES : Z := 90.
Definition FALL_ASLEEP_MINUTES : Z := 15.
Definition CAFFEINE_HALF_LIFE_HOURS : Z := 5.

(* ################################################################# *)
(** * Pure utility functions *)

Module TimeUtil.

Local Open Scope string_scope.
Local Open Scope Z_scope.

(** The two names bound by the destructuring [const [h, m] = ...]: an
    element the array does not have is [undefined] ([None]). *)
Record TimeParts := {
  tp_hours : option number;
  tp_minutes : option number
}.

(** [parseTime]: [timeStr.split(':').map(Number)], first two elements. *)
Definition parseTime (timeStr : string) : TimeParts :=
  let parts := map Number (split ":" timeStr) in
  {| tp_hours := nth_error parts 0; tp_minutes := nth_error parts 1 |}.

(** [padTime] *)
Definition padTime (hours minutes : number) : string :=
  let h := nrem (nadd (nrem hours (nZ 24)) (nZ 24)) (nZ 24) in
  padStart 2 "0" (String_of h) ++ ":" ++ padStart 2 "0" (String_of minutes).

(** [timeToMinutes]: [hours * 60 + minutes] *)
Definition timeToMinutes (timeStr : string) : number :=
  let p := parseTime timeStr in
  nadd (nmul (toNumber (tp_hours p)) (nZ 60)) (toNumber (tp_minutes p)).

(** [calculateHoursSlept] *)
Definition calculateHoursSlept (bedtime wakeTime : string) : number :=
  let bedMinutes := timeToMinutes bedtime in
  let wakeMinutes := timeToMinutes wakeTime in
  (* overnight case *)
  let wakeMinutes :=
    if nle wakeMinutes bedMinutes then nadd wakeMinutes (nZ (24 * 60))
    else wakeMinutes in
  let diffMinutes := nsub wakeMinutes bedMinutes in
  ndiv (nround (nmul (ndiv diffMinutes (nZ 60)) (nZ 100))) (nZ 100).

(** [qualityFromCycles] *)
Definition qualityFromCycles (cycles : Z) : Quality :=
  if cycles <=? 2 then poor
  else if cycles =? 3 then fair
  else if cycles =? 4 then good
  else great.

(** [addMinutesToTime].  The total of minutes is exact here; in the source
    it is exact as long as it stays below 2^53 in size. *)
Definition addMinutesToTime (timeStr : string) (minutesToAdd : number) : string :=
  let p := parseTime timeStr in
  let totalMinutes :=
    nadd (nadd (nmul (toNumber (tp_hours p)) (nZ 60)) (toNumber (tp_minutes p)))
         minutesToAdd in
  let wrapped := nrem (nadd (nrem totalMinutes (nZ 1440)) (nZ 1440)) (nZ 1440) in
  let resultHours := nfloor (ndiv wrapped (nZ 60)) in
  let resultMinutes := nrem wrapped (nZ 60) in
  padTime resultHours resultMinutes.

(** [subtractMinutesFromTime] *)
Definition subtractMinutesFromTime (timeStr : string) (minutesToSubtract : number) : string :=
  addMinutesToTime timeStr (nneg minutesToSubtract).

End TimeUtil.
Export TimeUtil.

(** Loops of the source: [for (let i = start; cond(i); i = step(i)) body];
    [fuel] bounds the number of iterations. *)
Fixpoint for_loop {A : Type} (fuel : nat) (i : Z) (cond : Z -> bool) (step : Z -> Z)
    (body : Z -> A -> A) (acc : A) : A :=
  match fuel with
  | O => acc
  | S fuel' =>
      if cond i then for_loop fuel' (step i) cond step body (body i acc) else acc
  end.

(* ################################################################# *)
(** * Sleep-cycle calculator *)

Module SleepCycle.

Local Open Scope Z_scope.

(** One iteration of either loop of [calculateOptimalTimes]: the entry
    pushed for [cycles]. *)
Definition candidate (targetTime : string) (mode : Mode) (cycles : Z) : OptimalTime :=
  let sleepMinutes := cycles * SLEEP_CYCLE_MINUTES in
  let totalMinutes := sleepMinutes + FALL_ASLEEP_MINUTES in
  {| time := match mode with
             | bedtimeMode => subtractMinutesFromTime targetTime (nZ totalMinutes)
             | wakeupMode => addMinutesToTime targetTime (nZ totalMinutes)
             end;
     cycles := cycles;
     hours := ndiv (nround (nmul (ndiv (nZ sleepMinutes) (nZ 60)) (nZ 100))) (nZ 100);
     quality := qualityFromCycles cycles |}.

(** [calculateOptimalTimes]: the loop counts down from 6 in one mode and
    up from 1 in the other, pushing one entry per round. *)
Definition calculateOptimalTimes (targetTime : string) (mode : Mode) : list OptimalTime :=
  match mode with
  | bedtimeMode =>
      for_loop 7 6 (fun cycles => 1 <=? cycles) (fun cycles => cycles - 1)
        (fun cycles results => results ++ [candidate targetTime bedtimeMode cycles]) []
  | wakeupMode =>
      for_loop 7 1 (fun cycles => cycles <=? 6) (fun cycles => cycles + 1)
        (fun cycles results => results ++ [candidate targetTime wakeupMode cycles]) []
  end.

End SleepCycle.
Export SleepCycle.

(* ################################################################# *)
(** * JavaScript dates *)

Module JsDate.

Local Open Scope string_scope.
Local Open Scope Z_scope.

Definition msPerMinute : Z := 60 * 1000.
Definition msPerHour : Z := 60 * msPerMinute.
Definition msPerDay : Z := 24 * msPerHour.

(** Local time of the time value [t] in a zone [tz] minutes east of UTC. *)
Definition localTime (tz t : Z) : Z := t + tz * msPerMinute.

(** Number of the local calendar day, day 0 being 1970-01-01. *)
Definition dayNumber (tz t : Z) : Z := localTime tz t / msPerDay.

(** Year, month (1-12) and day of the month (1-31) of a day number in the
    proleptic Gregorian calendar. *)
Definition civil (z : Z) : Z * Z * Z :=
  let z := z + 719468 in
  let era := z / 146097 in
  let doe := z mod 146097 in
  let yoe := (doe - doe / 1460 + doe / 36524 - doe / 146096) / 365 in
  let doy := doe - (365 * yoe + yoe / 4 - yoe / 100) in
  let mp := (5 * doy + 2) / 153 in
  let d := doy - (153 * mp + 2) / 5 + 1 in
  let m := if mp <? 10 then mp + 3 else mp - 9 in
  let y := yoe + era * 400 in
  (if m <=? 2 then y + 1 else y, m, d).

(** The day number of a calendar date: the inverse of [civil]. *)
Definition daysFromCivil (y m d : Z) : Z :=
  let y := if m <=? 2 then y - 1 else y in
  let era := y / 400 in
  let yoe := y mod 400 in
  let mp := if 2 <? m then m - 3 else m + 9 in
  let doy := (153 * mp + 2) / 5 + d - 1 in
  let doe := yoe * 365 + yoe / 4 - yoe / 100 + doy in
  era * 146097 + doe - 719468.

Definition getFullYear (tz t : Z) : Z := fst (fst (civil (dayNumber tz t))).
Definition getMonth (tz t : Z) : Z := snd (fst (civil (dayNumber tz t))) - 1.
Definition getDate (tz t : Z) : Z := snd (civil (dayNumber tz t)).

(** Day of the week, Sunday being 0; 1970-01-01 was a Thursday. *)
Definition getDay (tz t : Z) : Z := (dayNumber tz t + 4) mod 7.

Definition getHours (tz t : Z) : Z := (localTime tz t mod msPerDay) / msPerHour.

(** [d.setDate(n)]: day [n] of the month of [d], counted on from the first
    of the month when [n] is not one of its days; the local time of day is
    kept. *)
Definition setDate (tz t n : Z) : Z := t + (n - getDate tz t) * msPerDay.

(** [d.setMinutes(0, 0, 0)]: the start of the local clock hour. *)
Definition startOfHour (tz t : Z) : Z := t - localTime tz t mod msPerHour.

(** [year + '-' + String(month + 1).padStart(2, '0') + '-' +
    String(day).padStart(2, '0')], the expression of [getTodayISO] and of
    the two date keys built in [calculateSleepDebt] and in the statistics. *)
Definition ymdString (tz t : Z) : string :=
  string_of_Z (getFullYear tz t) ++ "-"
    ++ padStart 2 "0" (string_of_Z (getMonth tz t + 1)) ++ "-"
    ++ padStart 2 "0" (string_of_Z (getDate tz t)).

(** [getTodayISO], the clock reading [new Date()] being [now]. *)
Definition getTodayISO (tz now : Z) : string := ymdString tz now.

Definition weekdayNames : list string :=
  ["Sun"; "Mon"; "Tue"; "Wed"; "Thu"; "Fri"; "Sat"].
Definition monthNames : list string :=
  ["Jan"; "Feb"; "Mar"; "Apr"; "May"; "Jun"; "Jul"; "Aug"; "Sep"; "Oct"; "Nov"; "Dec"].

(** [d.toDateString()], as in "Mon Nov 02 2026". *)
Definition toDateString (tz t : Z) : string :=
  let y := getFullYear tz t in
  nth (Z.to_nat (getDay tz t)) weekdayNames "" ++ " "
    ++ nth (Z.to_nat (getMonth tz t)) monthNames "" ++ " "
    ++ padStart 2 "0" (string_of_Z (getDate tz t)) ++ " "
    ++ (if y <? 0 then "-" else "") ++ padStart 4 "0" (string_of_Z (Z.abs y)).

End JsDate.
Export JsDate.

(* ################################################################# *)
(** * Sleep-debt aggregator *)

Module SleepDebt.

Local Open Scope string_scope.
Local Open Scope Z_scope.

Definition DAY_LABELS : list string :=
  ["일"; "월"; "화"; "수"; "목"; "금"; "토"].

(** [Math.round(x * 100) / 100] *)
Definition round2 (x : number) : number :=
  ndiv (nround (nmul x (nZ 100))) (nZ 100).

(** The entry pushed by round [i] of the loop of [calculateSleepDebt];
    [today] is the clock reading [new Date()]. *)
Definition dayEntry (tz today : Z) (records : list SleepRecord)
    (recommendedHours : number) (i : Z) : DailyDebt :=
  let date_i := setDate tz today (getDate tz today - i) in
  let dateStr := ymdString tz date_i in
  let dayLabel := nth (Z.to_nat (getDay tz date_i)) DAY_LABELS "" in
  (* Find record for this day *)
  let record := find (fun r => String.eqb r.(date) dateStr) records in
  let hours := match record with
               | Some r => r.(hoursSlept)
               | None => nZ 0
               end in
  let debt := nmax (nZ 0) (nsub recommendedHours hours) in
  {| day := dateStr; dayLabel := dayLabel; dayHours := hours; debt := debt |}.

(** [calculateSleepDebt].  The two roundings to two decimals are exact
    here, a tie going up; the source rounds the binary64 product by 100,
    which near a tie can fall on the other side ([Binary64.avgHours]). *)
Definition calculateSleepDebt (tz today : Z) (records : list SleepRecord)
    (recommendedHours : number) : SleepDebtResult :=
  let last7Days :=
    for_loop 8 6 (fun i => 0 <=? i) (fun i => i - 1)
      (fun i last7Days => (last7Days ++ [dayEntry tz today records recommendedHours i])%list)
      [] in
  let totalDebt := fold_left (fun sum d => nadd sum d.(debt)) last7Days (nZ 0) in
  let daysWithRecords := filter (fun d => ngt d.(dayHours) (nZ 0)) last7Days in
  let avgHours :=
    if (0 <? length daysWithRecords)%nat
    then round2 (ndiv (fold_left (fun sum d => nadd sum d.(dayHours)) daysWithRecords (nZ 0))
                      (nZ (Z.of_nat (length daysWithRecords))))
    else nZ 0 in
  {| daily := last7Days; totalDebt := round2 totalDebt; avgHours := avgHours |}.

End SleepDebt.
Export SleepDebt.

(* ################################################################# *)
(** * The record store of [useSleepState] *)

Module Store.

Local Open Scope string_scope.
Local Open Scope Z_scope.

(** What the caller of [addSleepRecord] passes:
    [Omit<SleepRecord, 'id' | 'hoursSlept'>]. *)
Record SleepRecordInput := {
  in_date : string;
  in_bedtime : string;
  in_wakeTime : string
}.

(** The record [addSleepRecord] builds; [newId] is the value of [nanoid()]. *)
Definition newSleepRecord (newId : string) (record : SleepRecordInput) : SleepRecord :=
  let hoursSlept := calculateHoursSlept record.(in_bedtime) record.(in_wakeTime) in
  {| id := newId;
     date := record.(in_date);
     bedtime := record.(in_bedtime);
     wakeTime := record.(in_wakeTime);
     hoursSlept := hoursSlept |}.

(** [addSleepRecord]: [setSleepRecords((prev) => [...prev, newRecord])] *)
Definition addSleepRecord (newId : string) (record : SleepRecordInput)
    (prev : list SleepRecord) : list SleepRecord :=
  (prev ++ [newSleepRecord newId record])%list.

(** [removeSleepRecord] *)
Definition removeSleepRecord (rid : string) (prev : list SleepRecord) : list SleepRecord :=
  filter (fun r => negb (String.eqb r.(id) rid)) prev.

(** [setRecommendedHours]: [Math.max(1, Math.min(24, hours))] *)
Definition setRecommendedHours (hours : number) : number :=
  nmax (nZ 1) (nmin (nZ 24) hours).

End Store.
Export Store.

(* ################################################################# *)
(** * Caffeine decay model *)

Module Caffeine.

Local Open Scope R_scope.

Inductive CaffeineType := coffee | espresso | tea | energy | other.

Record CaffeineEntry := {
  ce_id : string;
  timestamp : Z;          (* Date.now() *)
  amountMg : R;
  ce_type : CaffeineType;
  label : string
}.

Record TimelinePoint := {
  hour : R;
  level : R
}.

(** [Math.round] on a real number. *)
Definition Rround (x : R) : Z := Zfloor (x + 1 / 2).

(** One round of the loop of [calculateCaffeineLevel]. *)
Definition addRemaining (atMs : Z) (total : R) (entry : CaffeineEntry) : R :=
  let elapsedMs := (atMs - entry.(timestamp))%Z in
  if (elapsedMs <? 0)%Z then total (* future entries ignored *)
  else
    let elapsedHours := IZR elapsedMs / (1000 * 60 * 60) in
    let remaining :=
      entry.(amountMg) * Rpower (1 / 2) (elapsedHours / IZR CAFFEINE_HALF_LIFE_HOURS) in
    total + remaining.

(** [calculateCaffeineLevel]; the caller passes the query instant (the
    default argument of the source is the clock reading).  The running
    total is a sum of real numbers here; the source adds binary64 numbers
    in list order, which near a tie of the rounding can give the other
    tenth ([Binary64.calculateCaffeineLevel]). *)
Definition calculateCaffeineLevel (entries : list CaffeineEntry) (atTime : Z) : R :=
  let atMs := atTime in
  let total := fold_left (addRemaining atMs) entries 0 in
  IZR (Rround (total * 10)) / 10.

(** One round of the loop of [calculateCaffeineTimeline]. *)
Definition timelinePoint (entries : list CaffeineEntry) (startTime i : Z) : TimelinePoint :=
  let pointTime := (startTime + i * 30 * 60 * 1000)%Z in
  let level := calculateCaffeineLevel entries pointTime in
  {| hour := IZR (Rround (IZR i * (1 / 2) * 100)) / 100;
     level := IZR (Rround (level * 10)) / 10 |}.

(** [calculateCaffeineTimeline]; [Math.min(...)] of a list that is not
    empty is the least of its elements. *)
Definition calculateCaffeineTimeline (tz : Z) (entries : list CaffeineEntry)
    : list TimelinePoint :=
  match map timestamp entries with
  | [] => []
  | ts :: tss =>
      (* Find earliest entry timestamp *)
      let earliestTs := fold_left Z.min tss ts in
      (* Set to the start of that hour *)
      let startTime := startOfHour tz earliestTs in
      let totalPoints := 49%Z in
      for_loop 50 0 (fun i => (i <? totalPoints)%Z) (fun i => (i + 1)%Z)
        (fun i timeline => timeline ++ [timelinePoint entries startTime i]) []
  end.

End Caffeine.
Export Caffeine.

(* ################################################################# *)
(** * Circular mean of clock times *)

Module CircularMean.

Local Open Scope string_scope.
Local Open Scope R_scope.

(** A real number or [NaN] ([None]). *)
Definition onum := option R.

Definition omap (f : R -> R) (a : onum) : onum :=
  match a with Some x => Some (f x) | None => None end.
Definition olift2 (f : R -> R -> R) (a b : onum) : onum :=
  match a, b with Some x, Some y => Some (f x y) | _, _ => None end.

(** The angle of a time in minutes; an infinite angle has no sine or
    cosine and is [NaN] from here on. *)
Definition toReal (n : number) : onum :=
  match n with
  | Num q => Some (Q2R q)
  | _ => None
  end.

(** [Math.atan2(y, x)] *)
Definition atan2 (y x : R) : R :=
  if Rlt_dec 0 x then atan (y / x)
  else if Rlt_dec x 0 then
         (if Rle_dec 0 y then atan (y / x) + PI else atan (y / x) - PI)
  else if Rlt_dec 0 y then PI / 2
  else if Rlt_dec y 0 then - PI / 2
  else 0.

Definition ofZ (z : option Z) : number :=
  match z with Some v => nZ v | None => NaN end.

(** [averageTimeStr].  Sine, cosine and [atan2] are exact here; the
    source's binary64 values can give the neighbouring minute when the
    mean is half a minute, and another time when the vectors cancel. *)
Definition averageTimeStr (times : list string) : string :=
  if (length times =? 0)%nat then "00:00"
  else
    (* circular mean to handle midnight crossover *)
    let radians :=
      map (fun t => let mins := timeToMinutes t in
                    omap (fun mins => mins / 1440 * 2 * PI) (toReal mins)) times in
    let sinSum := fold_left (fun sum r => olift2 Rplus sum (omap sin r)) radians (Some 0) in
    let cosSum := fold_left (fun sum r => olift2 Rplus sum (omap cos r)) radians (Some 0) in
    let n := INR (length times) in
    let avgRad := olift2 atan2 (omap (fun s => s / n) sinSum) (omap (fun c => c / n) cosSum) in
    let avgRad := omap (fun a => if Rlt_dec a 0 then a + 2 * PI else a) avgRad in
    let avgMinutes := option_map (fun a => Rround (a / (2 * PI) * 1440)) avgRad in
    let h := option_map (fun am => (am / 60)%Z) avgMinutes in
    let m := option_map (fun am => Z.rem am 60) avgMinutes in
    padTime (ofZ h) (ofZ m).

End CircularMean.
Export CircularMean.

(* ################################################################# *)
(** * Statistics and tips *)

Module StatsTypes.

Record SleepTip := {
  icon : string;          (* remixicon class *)
  title : string;
  description : string
}.

Record SleepStats := {
  totalRecords : Z;
  avgHoursThisWeek : number;
  totalDebtHours : number;
  longestSleep : number;
  shortestSleep : number;
  avgBedtime : string;
  avgWakeTime : string;
  currentCaffeineMg : R
}.

End StatsTypes.
Export StatsTypes.

(** The [stats] memo of [useSleepState]; [now] is the clock reading. *)
Module StatsMemo.

Local Open Scope string_scope.
Local Open Scope Z_scope.

Definition weekRecords (tz now : Z) (sleepRecords : list SleepRecord) : list SleepRecord :=
  let today := getTodayISO tz now in
  (* Records from the last 7 days *)
  let sevenDaysAgo := setDate tz now (getDate tz now - 7) in
  let sevenDaysAgoISO := ymdString tz sevenDaysAgo in
  filter (fun r => String.leb sevenDaysAgoISO r.(date) && String.leb r.(date) today)
         sleepRecords.

Definition avgHoursThisWeek (tz now : Z) (sleepRecords : list SleepRecord) : number :=
  let weekRecords := weekRecords tz now sleepRecords in
  if (0 <? length weekRecords)%nat
  then round2 (ndiv (fold_left (fun sum r => nadd sum r.(hoursSlept)) weekRecords (nZ 0))
                    (nZ (Z.of_nat (length weekRecords))))
  else nZ 0.

(** [Math.max(...xs)] and [Math.min(...xs)] *)
Definition maxOf (xs : list number) : number := fold_left nmax xs NegInf.
Definition minOf (xs : list number) : number := fold_left nmin xs PosInf.

Definition longestSleep (sleepRecords : list SleepRecord) : number :=
  let allHours := map hoursSlept sleepRecords in
  if (0 <? length allHours)%nat then maxOf allHours else nZ 0.

Definition shortestSleep (sleepRecords : list SleepRecord) : number :=
  let allHours := map hoursSlept sleepRecords in
  if (0 <? length allHours)%nat then minOf allHours else nZ 0.

Definition stats (tz now : Z) (sleepRecords : list SleepRecord)
    (caffeineEntries : list CaffeineEntry) (recommendedHours : number) : SleepStats :=
  let debtResult := calculateSleepDebt tz now sleepRecords recommendedHours in
  {| totalRecords := Z.of_nat (length sleepRecords);
     StatsTypes.avgHoursThisWeek := avgHoursThisWeek tz now sleepRecords;
     totalDebtHours := debtResult.(totalDebt);
     StatsTypes.longestSleep := longestSleep sleepRecords;
     StatsTypes.shortestSleep := shortestSleep sleepRecords;
     avgBedtime :=
       if (0 <? length sleepRecords)%nat
       then averageTimeStr (map bedtime sleepRecords) else "00:00";
     avgWakeTime :=
       if (0 <? length sleepRecords)%nat
       then averageTimeStr (map wakeTime sleepRecords) else "00:00";
     currentCaffeineMg := calculateCaffeineLevel caffeineEntries now |}.

End StatsMemo.

Module Tips.

Local Open Scope string_scope.
Local Open Scope Z_scope.

(** [x.toFixed(1)]: one digit after the point, a tie going away from
    zero. *)
Definition toFixed1 (a : number) : string :=
  match a with
  | NaN => "NaN"
  | PosInf => "Infinity"
  | NegInf => "-Infinity"
  | Num q =>
      let n := Qfloor (Qabs.Qabs q * inject_Z 10 + (1 # 2))%Q in
      (if Qnum q <? 0 then "-" else "")
        ++ string_of_Z (n / 10) ++ "." ++ string_of_Z (n mod 10)
  end.

(** ** The twelve tips, in the order the source pushes them *)

Definition highCaffeineTip (stats : SleepStats) : SleepTip :=
  {| icon := "ri-cup-line";
     title := "카페인 주의";
     description :=
       "현재 체내 카페인이 "
       ++ string_of_Z (Rround stats.(currentCaffeineMg))
       ++ "mg으로 높습니다. 취침 6시간 전부터는 카페인 섭취를 피하세요." |}.

Definition moderateCaffeineTip (stats : SleepStats) : SleepTip :=
  {| icon := "ri-cup-line";
     title := "카페인 잔여량 확인";
     description :=
       "체내 카페인이 약 "
       ++ string_of_Z (Rround stats.(currentCaffeineMg))
       ++ "mg 남아있습니다. 취침 전까지 충분히 분해될 수 있도록 추가 섭취를 자제하세요." |}.

Definition severeDebtTip (stats : SleepStats) : SleepTip :=
  {| icon := "ri-error-warning-line";
     title := "심각한 수면 부족";
     description :=
       "이번 주 수면 부채가 "
       ++ String_of (nround stats.(totalDebtHours))
       ++ "시간입니다. 주말에 한번에 몰아자는 것보다 매일 30분씩 일찍 잠드는 것이 효과적입니다." |}.

Definition moderateDebtTip (stats : SleepStats) : SleepTip :=
  {| icon := "ri-alarm-warning-line";
     title := "수면 부족 누적";
     description :=
       "이번 주 수면 부채가 "
       ++ String_of (nround stats.(totalDebtHours))
       ++ "시간입니다. 오늘 30분 일찍 잠자리에 들어보세요." |}.

Definition shortSleepTip (stats : SleepStats) : SleepTip :=
  {| icon := "ri-moon-foggy-line";
     title := "수면 시간 부족";
     description :=
       "이번 주 평균 수면 시간이 "
       ++ toFixed1 stats.(avgHoursThisWeek)
       ++ "시간입니다. 성인 기준 최소 7시간의 수면이 권장됩니다." |}.

Definition regularBedtimeTip : SleepTip :=
  {| icon := "ri-time-line";
     title := "규칙적 취침 시간";
     description :=
       "매일 같은 시간에 잠드는 습관이 수면의 질을 크게 향상시킵니다. 주말에도 30분 이내의 차이를 유지하세요." |}.

Definition lateCaffeineTip : SleepTip :=
  {| icon := "ri-forbid-line";
     title := "늦은 카페인 섭취";
     description :=
       "오후 4시 이후의 카페인 섭취는 수면의 질을 떨어뜨릴 수 있습니다. 디카페인이나 허브티로 대체해 보세요." |}.

Definition blueLightTip : SleepTip :=
  {| icon := "ri-smartphone-line";
     title := "블루라이트 차단";
     description :=
       "취침 1시간 전부터 스마트폰, 태블릿 등 전자기기 사용을 줄이세요. 블루라이트가 멜라토닌 분비를 억제합니다." |}.

Definition roomTemperatureTip : SleepTip :=
  {| icon := "ri-temp-cold-line";
     title := "적절한 실내 온도";
     description :=
       "수면에 이상적인 실내 온도는 18-20도입니다. 너무 덥거나 추운 환경은 깊은 수면을 방해합니다." |}.

Definition variabilityTip (stats : SleepStats) : SleepTip :=
  {| icon := "ri-bar-chart-line";
     title := "수면 편차 큼";
     description :=
       "가장 긴 수면("
       ++ toFixed1 stats.(longestSleep)
       ++ "시간)과 짧은 수면("
       ++ toFixed1 stats.(shortestSleep)
       ++ "시간)의 차이가 큽니다. 일정한 수면 패턴이 건강에 좋습니다." |}.

Definition exerciseTip : SleepTip :=
  {| icon := "ri-run-line";
     title := "규칙적 운동";
     description :=
       "규칙적인 운동은 수면의 질을 높여줍니다. 다만 취침 2-3시간 전에는 격한 운동을 피하세요." |}.

Definition mealTip : SleepTip :=
  {| icon := "ri-restaurant-line";
     title := "취침 전 식사 주의";
     description :=
       "취침 2-3시간 전에는 과식을 피하세요. 가벼운 간식은 괜찮지만, 무거운 식사는 수면을 방해합니다." |}.

(** The filter of [generateSleepTips] for late caffeine: same local day as
    [now] and after 4 PM. *)
Definition isEveningEntry (tz now : Z) (entry : CaffeineEntry) : bool :=
  let entryDate := entry.(timestamp) in
  let entryHour := getHours tz entryDate in
  String.eqb (toDateString tz entryDate) (toDateString tz now) && (16 <=? entryHour).

(** [generateSleepTips]; [now] is the clock reading [new Date()]. *)
Definition generateSleepTips (tz now : Z) (stats : SleepStats)
    (caffeineEntries : list CaffeineEntry) : list SleepTip :=
  let tips : list SleepTip := [] in
  (* High caffeine warning *)
  let tips :=
    if Rlt_dec 200 stats.(currentCaffeineMg) then (tips ++ [highCaffeineTip stats])%list
    else if Rlt_dec 100 stats.(currentCaffeineMg) then (tips ++ [moderateCaffeineTip stats])%list
    else tips in
  (* Sleep debt warning *)
  let tips :=
    if ngt stats.(totalDebtHours) (nZ 10) then (tips ++ [severeDebtTip stats])%list
    else if ngt stats.(totalDebtHours) (nZ 5) then (tips ++ [moderateDebtTip stats])%list
    else tips in
  (* Short sleep warning *)
  let tips :=
    if ngt stats.(avgHoursThisWeek) (nZ 0) && nlt stats.(avgHoursThisWeek) (nZ 6)
    then (tips ++ [shortSleepTip stats])%list else tips in
  (* Variable bedtime *)
  let tips :=
    if 3 <=? stats.(totalRecords) then (tips ++ [regularBedtimeTip])%list else tips in
  (* Late caffeine intake *)
  let eveningEntries := filter (isEveningEntry tz now) caffeineEntries in
  let tips :=
    if (0 <? length eveningEntries)%nat then (tips ++ [lateCaffeineTip])%list else tips in
  (* General sleep hygiene tips *)
  let tips := (tips ++ [blueLightTip])%list in
  let tips := (tips ++ [roomTemperatureTip])%list in
  let tips :=
    if ngt (nsub stats.(longestSleep) stats.(shortestSleep)) (nZ 3)
       && ngt stats.(shortestSleep) (nZ 0)
    then (tips ++ [variabilityTip stats])%list else tips in
  let tips := (tips ++ [exerciseTip])%list in
  let tips := (tips ++ [mealTip])%list in
  (* Return 6-8 tips *)
  firstn 8 tips.

End Tips.
Export Tips.

(* ################################################################# *)
(** * The engine as its callers see it *)

Module Engine.

(** What a call reads besides its arguments: the clock and the local time
    zone of the device. *)
Record Env := {
  env_now : Z;
  env_tz : Z
}.

(** A call of an exported function with its explicit arguments.  The
    second argument of [calculateCaffeineLevel] is optional in the source
    and defaults to [new Date()]. *)
Inductive Call :=
| CallOptimalTimes (targetTime : string) (mode : Mode)
| CallCaffeineLevel (entries : list CaffeineEntry) (atTime : option Z)
| CallCaffeineTimeline (entries : list CaffeineEntry)
| CallSleepDebt (records : list SleepRecord) (recommendedHours : number)
| CallSleepTips (stats : SleepStats) (caffeineEntries : list CaffeineEntry).

Inductive Output :=
| OutOptimalTimes (r : list OptimalTime)
| OutCaffeineLevel (r : R)
| OutCaffeineTimeline (r : list TimelinePoint)
| OutSleepDebt (r : SleepDebtResult)
| OutSleepTips (r : list SleepTip).

Definition run (env : Env) (c : Call) : Output :=
  match c with
  | CallOptimalTimes targetTime mode =>
      OutOptimalTimes (calculateOptimalTimes targetTime mode)
  | CallCaffeineLevel entries (Some atTime) =>
      OutCaffeineLevel (calculateCaffeineLevel entries atTime)
  | CallCaffeineLevel entries None =>
      OutCaffeineLevel (calculateCaffeineLevel entries env.(env_now))
  | CallCaffeineTimeline entries =>
      OutCaffeineTimeline (calculateCaffeineTimeline env.(env_tz) entries)
  | CallSleepDebt records recommendedHours =>
      OutSleepDebt (calculateSleepDebt env.(env_tz) env.(env_now) records recommendedHours)
  | CallSleepTips stats caffeineEntries =>
      OutSleepTips (generateSleepTips env.(env_tz) env.(env_now) stats caffeineEntries)
  end.

End Engine.
Export Engine.

(* ################################################################# *)
(** * The caffeine entries of [useSleepState] *)

Module CaffeineStore.

(** What the caller of [addCaffeineEntry] passes:
    [Omit<CaffeineEntry, 'id' | 'timestamp'>]. *)
Record CaffeineInput := {
  in_amountMg : R;
  in_type : CaffeineType;
  in_label : string
}.

(** [addCaffeineEntry]; [newId] is the value of [nanoid()] and [now] that
    of [Date.now()]. *)
Definition addCaffeineEntry (newId : string) (now : Z) (entry : CaffeineInput)
    (prev : list CaffeineEntry) : list CaffeineEntry :=
  prev ++ [ {| ce_id := newId;
               timestamp := now;
               amountMg := entry.(in_amountMg);
               ce_type := entry.(in_type);
               label := entry.(in_label) |} ].

(** [removeCaffeineEntry] *)
Definition removeCaffeineEntry (rid : string) (prev : list CaffeineEntry)
    : list CaffeineEntry :=
  filter (fun e => negb (String.eqb e.(ce_id) rid)) prev.

(** [clearCaffeineEntries] *)
Definition clearCaffeineEntries (prev : list CaffeineEntry) : list CaffeineEntry := [].

End CaffeineStore.
Export CaffeineStore.

(* ################################################################# *)
(** * Callers in the components *)

Module Components.

Local Open Scope Z_scope.

(** [handleRecommendedChange] of the sleep-debt view: the new value is set
    only between 6 and 10; [recommendedHours] is the current setting and
    the result the setting after the call. *)
Definition handleRecommendedChange (recommendedHours delta : number) : number :=
  let next := nadd recommendedHours delta in
  if nge next (nZ 6) && nle next (nZ 10) then setRecommendedHours next
  else recommendedHours.

(** The table [qualityOrder] of the sleep calculator. *)
Definition qualityOrder (q : Quality) : Z :=
  match q with
  | great => 4
  | good => 3
  | fair => 2
  | poor => 1
  end.

(** One call of the [forEach] callback of [bestQualityIndex] on the state
    ([bestIdx], [bestScore]). *)
Definition bestStep (st : Z * Z) (ri : OptimalTime * Z) : Z * Z :=
  let '(bestIdx, bestScore) := st in
  let '(r, i) := ri in
  let score := qualityOrder r.(quality) in
  if bestScore <? score then (i, score) else (bestIdx, bestScore).

(** The elements of an array with their indices. *)
Fixpoint indexed {A : Type} (i : Z) (l : list A) : list (A * Z) :=
  match l with
  | [] => []
  | x :: rest => (x, i) :: indexed (i + 1) rest
  end.

(** [bestQualityIndex] *)
Definition bestQualityIndex (results : list OptimalTime) : Z :=
  if (length results =? 0)%nat then -1
  else fst (fold_left bestStep (indexed 0 results) (0, 0)).

(** The analytics unlock of [App].  [stored] is what
    [localStorage.getItem] gives for the unlock key, [None] when the key is
    absent or the read throws. *)
Definition initialAnalyticsUnlocked (tz now : Z) (stored : option string) : bool :=
  match stored with
  | Some s => String.eqb s (getTodayISO tz now)
  | None => false
  end.

(** What [onDismiss] of [handleUnlockAnalytics] leaves under the unlock
    key; [writable] is false when [localStorage.setItem] throws. *)
Definition storeUnlock (tz now : Z) (writable : bool) (stored : option string)
    : option string :=
  if writable then Some (getTodayISO tz now) else stored.

End Components.
Export Components.

(* ################################################################# *)
(** * The roundings to decimals on binary64 numbers *)

(** The source rounds to decimals by [Math.round(x * 10) / 10] and
    [Math.round(x * 100) / 100].  When [x] is within the rounding error of
    a tie, the result depends on the binary64 value of the product.  Here
    the operations of those lines run on binary64 numbers, the kernel's
    floating-point numbers: [+ - * /] are the IEEE 754 operations that
    JavaScript uses, and a decimal literal is the nearest binary64 number,
    as in JavaScript. *)

Module Binary64.

Import Floats.
Local Open Scope float_scope.

(** A whole number below 2^63 in size as a binary64 number (exact below
    2^53). *)
Definition of_Z (z : Z) : float :=
  if (z <? 0)%Z then - of_uint63 (Uint63.of_Z (- z)) else of_uint63 (Uint63.of_Z z).

(** [Math.round]: the integer nearest to [x], a tie going toward
    +Infinity; [x] itself when it is an integer, an infinity or [NaN];
    -0 for a negative [x] that rounds to zero.  A finite [x] is
    [(-1)^s * m * 2^e]; with [e < 0] its rounding is the floor of
    [(2 * (-1)^s * m + 2^(-e)) / 2^(1 - e)]. *)
Definition Math_round (x : float) : float :=
  match Prim2SF x with
  | S754_finite s m e =>
      if (0 <=? e)%Z then x
      else
        let n := (((if s then - Z.pos m else Z.pos m) * 2 + 2 ^ (- e)) / 2 ^ (1 - e))%Z in
        if (n =? 0)%Z then (if s then -0 else 0) else of_Z n
  | _ => x
  end.

(** [Math.pow(base, exponent)].  The language fixes the result 1 for an
    exponent of +0 or -0; for the other finite exponents the result is an
    approximation left to the implementation, and there is none here. *)
Definition Math_pow (base exponent : float) : option float :=
  if exponent =? 0 then Some 1 else None.

Definition CAFFEINE_HALF_LIFE_HOURS : float := 5.

(** The fields of a [CaffeineEntry] that [calculateCaffeineLevel] reads. *)
Record CaffeineEntry := {
  timestamp : float;
  amountMg : float
}.

(** [calculateCaffeineLevel] on binary64 numbers; [atMs] is
    [atTime.getTime()].  The result is [None] when an entry needs a power
    that the language does not fix. *)
Definition calculateCaffeineLevel (entries : list CaffeineEntry) (atMs : float)
    : option float :=
  let total :=
    fold_left
      (fun total entry =>
         match total with
         | None => None
         | Some total =>
             let elapsedMs := atMs - entry.(timestamp) in
             if elapsedMs <? 0 then Some total (* future entries ignored *)
             else
               let elapsedHours := elapsedMs / (1000 * 60 * 60) in
               match Math_pow 0.5 (elapsedHours / CAFFEINE_HALF_LIFE_HOURS) with
               | Some power => Some (total + entry.(amountMg) * power)
               | None => None
               end
         end)
      entries (Some 0) in
  option_map (fun total => Math_round (total * 10) / 10) total.

(** The average of [calculateSleepDebt] on binary64 numbers, from the
    hours of the seven days:
    [daysWithRecords = last7Days.filter((d) => d.hours > 0)], then
    [Math.round((sum / daysWithRecords.length) * 100) / 100], or 0 without
    such a day. *)
Definition avgHours (hours : list float) : float :=
  let daysWithRecords := filter (fun h => 0 <? h) hours in
  if (0 <? length daysWithRecords)%nat
  then Math_round (fold_left add daysWithRecords 0
                   / of_Z (Z.of_nat (length daysWithRecords)) * 100) / 100
  else 0.

(** An entry of [mg] milligrams taken at time value 0. *)
Definition intake (mg : float) : CaffeineEntry := {| timestamp := 0; amountMg := mg |}.

End Binary64.

(* ################################################################# *)
(** * Vocabulary of the specification *)

Module SpecWords.

Local Open Scope string_scope.
Local Open Scope Z_scope.

(** The loop leaves by its condition within [fuel] rounds. *)
Fixpoint exits (fuel : nat) (i : Z) (cond : Z -> bool) (step : Z -> Z) : bool :=
  match fuel with
  | O => false
  | S fuel' => if cond i then exits fuel' (step i) cond step else true
  end.

(** The integers [0 .. n-1]. *)
Definition zrange (n : nat) : list Z := map Z.of_nat (seq 0 n).

(** An integer written with at least two digits. *)
Definition pad2 (v : Z) : string := padStart 2 "0" (string_of_Z v).

(** The clock time [h:m] written as HH:mm. *)
Definition hhmm (h m : Z) : string := pad2 h ++ ":" ++ pad2 m.

(** Minute of the day, [0 <= t < 1440], written as HH:mm. *)
Definition clock (t : Z) : string := hhmm (t / 60) (t mod 60).

(** A valid HH:mm string: two digits below 24, a colon, two digits below
    60. *)
Definition isHHmm (s : string) : bool :=
  existsb (fun h => existsb (fun m => String.eqb s (hhmm h m)) (zrange 60)) (zrange 24).

Definition TimeParts_eq_dec (a b : TimeParts) : {a = b} + {a <> b}.
Proof. repeat decide equality; apply Q_eq_dec. Defined.

(** The string HH:mm of [h] and [m] parses to [h] and [m]. *)
Definition parses_to (h m : Z) : bool :=
  if TimeParts_eq_dec (parseTime (hhmm h m))
       {| tp_hours := Some (nZ h); tp_minutes := Some (nZ m) |}
  then true else false.

(** Exactly two numeric components separated by a colon. *)
Definition twoNumericComponents (s : string) : bool :=
  match map Number (split ":" s) with
  | [h; m] => match h, m with
              | NaN, _ | _, NaN => false
              | _, _ => true
              end
  | _ => false
  end.

(** The key [YYYY-MM-DD] of the calendar day with number [z]. *)
Definition dateOfDay (z : Z) : string :=
  let '(y, m, d) := civil z in
  string_of_Z y ++ "-" ++ pad2 m ++ "-" ++ pad2 d.

(** Sum of a sequence of numbers. *)
Definition nsum (xs : list number) : number := fold_left nadd xs (nZ 0).

(** Hours of the day with key [key]: those of the first record with that
    exact date string, 0 when there is none. *)
Definition hoursOn (records : list SleepRecord) (key : string) : number :=
  match find (fun r => String.eqb r.(date) key) records with
  | Some r => r.(hoursSlept)
  | None => nZ 0
  end.

(** Mean of the hours over only the days with hours > 0, and 0 when there
    is no such day. *)
Definition meanPositiveHours (days : list DailyDebt) : number :=
  match filter (fun h => ngt h (nZ 0)) (map dayHours days) with
  | [] => nZ 0
  | positive => ndiv (nsum positive) (nZ (Z.of_nat (length positive)))
  end.

(** Number of colons of a string. *)
Fixpoint colons (s : string) : nat :=
  match s with
  | EmptyString => O
  | String c rest => if Ascii.eqb c ":" then S (colons rest) else colons rest
  end.

(** The outcome of a call: a value, or an error of the taxonomy of the
    specification. *)
Inductive EngineError := InvalidFormat | OutOfRange.

Inductive Outcome (A : Type) :=
| Returns (a : A)
| Throws (e : EngineError).
Arguments Returns {A} a.
Arguments Throws {A} e.

(** [parseTime] has no [throw] statement, and [split], [map] and [Number]
    do not throw on a string: every call returns. *)
Definition parseTime_outcome (s : string) : Outcome TimeParts := Returns (parseTime s).

(** The candidate the specification lists for [cycles] cycles when the
    target is [h:m]: the clock time [offset] minutes away, the cycle count,
    1.5 hours of sleep per cycle, and the grade. *)
Definition expectedCandidate (h m offset cycles : Z) (grade : Quality) : OptimalTime :=
  {| time := clock ((h * 60 + m + offset) mod 1440);
     cycles := cycles;
     hours := fin (cycles * 3 # 2);
     quality := grade |}.

(** An input of [addSleepRecord] with valid clock times. *)
Definition validInput (r : SleepRecordInput) : bool :=
  isHHmm r.(in_bedtime) && isHHmm r.(in_wakeTime).

(** The record lists the store goes through: empty at first, then changed
    by [addSleepRecord] on valid clock times and by [removeSleepRecord]. *)
Inductive Reachable : list SleepRecord -> Prop :=
| reach_empty : Reachable []
| reach_add newId input prev :
    validInput input = true -> Reachable prev ->
    Reachable (addSleepRecord newId input prev)
| reach_remove rid prev :
    Reachable prev -> Reachable (removeSleepRecord rid prev).

(** The days of the debt report that enter its average. *)
Definition daysWithRecords (res : SleepDebtResult) : list DailyDebt :=
  filter (fun d => ngt d.(dayHours) (nZ 0)) res.(daily).

(** The trailing seven calendar days, today included, as date keys. *)
Definition trailingWeek (tz now : Z) : list string :=
  map (fun i => dateOfDay (dayNumber tz now - i)) [6; 5; 4; 3; 2; 1; 0].

(** The weekly average as the specification words it: the mean of
    [hoursSlept] over the records dated within the trailing seven days. *)
Definition meanOfTrailingWeek (tz now : Z) (sleepRecords : list SleepRecord) : number :=
  match filter (fun r => existsb (String.eqb r.(date)) (trailingWeek tz now)) sleepRecords with
  | [] => nZ 0
  | inWindow => ndiv (nsum (map hoursSlept inWindow)) (nZ (Z.of_nat (length inWindow)))
  end.

(** What one entry contributes at the query instant: nothing when it was
    taken strictly after it, else its amount halved every 5 hours. *)
Definition contribution (atMs : Z) (e : CaffeineEntry) : R :=
  if (atMs <? e.(timestamp))%Z then 0%R
  else (e.(amountMg) * Rpower (1 / 2) (IZR (atMs - e.(timestamp)) / 3600000 / 5))%R.

Definition Rsum (xs : list R) : R := fold_right Rplus 0%R xs.

(** Rounding to one decimal place. *)
Definition round1 (x : R) : R := (IZR (Rround (x * 10)) / 10)%R.

(** A dose of caffeine taken at [t]. *)
Definition dose (mg : R) (t : Z) : CaffeineEntry :=
  {| ce_id := "c"; timestamp := t; amountMg := mg; ce_type := coffee; label := "dose" |}.

(** ** The rule cascade of the tip engine *)

Definition when (c : bool) (t : SleepTip) : list SleepTip := if c then [t] else [].

(** An entry of today with local hour 16 or later. *)
Definition lateCaffeineToday (tz now : Z) (entries : list CaffeineEntry) : bool :=
  existsb (isEveningEntry tz now) entries.

(** Rule 1: high caffeine, else moderate caffeine. *)
Definition caffeineRule (stats : SleepStats) : list SleepTip :=
  if Rlt_dec 200 stats.(currentCaffeineMg) then [highCaffeineTip stats]
  else if Rlt_dec 100 stats.(currentCaffeineMg) then [moderateCaffeineTip stats]
  else [].

(** Rule 2: severe debt, else moderate debt. *)
Definition debtRule (stats : SleepStats) : list SleepTip :=
  if ngt stats.(totalDebtHours) (nZ 10) then [severeDebtTip stats]
  else if ngt stats.(totalDebtHours) (nZ 5) then [moderateDebtTip stats]
  else [].

(** The rules 1 to 8 in their order, each adding its tip when its
    condition holds. *)
Definition cascade (tz now : Z) (stats : SleepStats) (entries : list CaffeineEntry)
    : list SleepTip :=
  (caffeineRule stats
   ++ debtRule stats
   ++ when (ngt stats.(avgHoursThisWeek) (nZ 0) && nlt stats.(avgHoursThisWeek) (nZ 6))
           (shortSleepTip stats)
   ++ when (3 <=? stats.(totalRecords)) regularBedtimeTip
   ++ when (lateCaffeineToday tz now entries) lateCaffeineTip
   ++ [blueLightTip; roomTemperatureTip]
   ++ when (ngt (nsub stats.(longestSleep) stats.(shortestSleep)) (nZ 3)
            && ngt stats.(shortestSleep) (nZ 0))
           (variabilityTip stats)
   ++ [exerciseTip; mealTip])%list.

(** The titles of the twelve tips in generation order. *)
Definition titlesInOrder : list string :=
  [ "카페인 주의"; "카페인 잔여량 확인"; "심각한 수면 부족"; "수면 부족 누적";
    "수면 시간 부족"; "규칙적 취침 시간"; "늦은 카페인 섭취"; "블루라이트 차단";
    "적절한 실내 온도"; "수면 편차 큼"; "규칙적 운동"; "취침 전 식사 주의" ].

Definition highCaffeineTitle : string := "카페인 주의".
Definition moderateCaffeineTitle : string := "카페인 잔여량 확인".

(** [xs] is [ys] with some elements left out, the order kept. *)
Fixpoint is_subseq (xs ys : list string) : bool :=
  match xs, ys with
  | [], _ => true
  | _ :: _, [] => false
  | x :: xs', y :: ys' =>
      if String.eqb x y then is_subseq xs' ys' else is_subseq xs ys'
  end.

(** ** What a call reads of its environment *)

(** Two environments agree on what the call [c] reads besides its
    arguments: nothing for [calculateOptimalTimes] and for
    [calculateCaffeineLevel] with a query instant; the clock for
    [calculateCaffeineLevel] without one; the time zone for
    [calculateCaffeineTimeline]; the local calendar day of the clock for
    [calculateSleepDebt]; that day and the time zone for
    [generateSleepTips]. *)
Definition sameReading (c : Call) (e1 e2 : Env) : Prop :=
  match c with
  | CallOptimalTimes _ _ => True
  | CallCaffeineLevel _ (Some _) => True
  | CallCaffeineLevel _ None => e1.(env_now) = e2.(env_now)
  | CallCaffeineTimeline _ => e1.(env_tz) = e2.(env_tz)
  | CallSleepDebt _ _ =>
      dayNumber e1.(env_tz) e1.(env_now) = dayNumber e2.(env_tz) e2.(env_now)
  | CallSleepTips _ _ =>
      e1.(env_tz) = e2.(env_tz) /\
      dayNumber e1.(env_tz) e1.(env_now) = dayNumber e2.(env_tz) e2.(env_now)
  end.

(** ** Sample data *)

(** Monday 2 November 2026, 19:15 UTC. *)
Definition monday : Z := 1793646900000.

(** The sample Monday, later that Monday, and the Tuesday after it, in
    UTC. *)
Definition mondayEnv : Env := {| env_now := monday; env_tz := 0 |}.
Definition mondayNightEnv : Env := {| env_now := 1793660000000; env_tz := 0 |}.
Definition tuesdayEnv : Env := {| env_now := 1793733300000; env_tz := 0 |}.

(** A night from 23:00 to 07:00 filed under the date [d] with [h] hours. *)
Definition night (d : string) (h : number) : SleepRecord :=
  {| id := "n"; date := d; bedtime := "23:00"; wakeTime := "07:00"; hoursSlept := h |}.

End SpecWords.
Export SpecWords.

(* ################################################################# *)
(** * Ranges and roundings *)

Module SpecRanges.

Local Open Scope Z_scope.

(** [Number.MAX_SAFE_INTEGER]: up to here binary64 holds every whole
    number, and sums and differences of whole numbers are exact. *)
Definition MAX_SAFE_INTEGER : Z := 2 ^ 53 - 1.

(** A number of minutes that [addMinutesToTime] adds to a minute of the
    day without leaving the whole numbers that binary64 holds. *)
Definition safeMinutes (d : Z) : Prop := Z.abs d + 1440 <= MAX_SAFE_INTEGER.

(** The largest time value of a [Date], in milliseconds either side of
    1970. *)
Definition MAX_TIME_VALUE : Z := 8640000000000000.

(** The hours of a week. *)
Definition HOURS_PER_WEEK : Q := 168.

(** [y] is [x] to two decimals: for [x] of at most a week of hours in
    size, [y] is a whole number of hundredths less than a hundredth away
    from [x], so [x] itself when [x] has no more than two decimals; a
    value that is not finite is kept. *)
Definition toTwoDecimals (x y : number) : Prop :=
  match x with
  | Num q =>
      (- HOURS_PER_WEEK <= q <= HOURS_PER_WEEK)%Q ->
      exists k : Z, y = fin (inject_Z k / 100)
                    /\ (inject_Z k - 1 < 100 * q)%Q /\ (100 * q < inject_Z k + 1)%Q
  | _ => y = x
  end.

(** [y] is [x] to one decimal: a whole number of tenths less than a tenth
    away from [x]. *)
Definition toOneDecimal (x y : R) : Prop :=
  exists k : Z, (y = IZR k / 10 /\ IZR k - 1 < x * 10 < IZR k + 1)%R.

(** The most caffeine, in milligrams, for which the level is stated. *)
Definition MAX_INTAKE_MG : R := 1000000.

(** The entry was taken by the instant [atTime]. *)
Definition taken (atTime : Z) (e : CaffeineEntry) : bool := timestamp e <=? atTime.

End SpecRanges.
Export SpecRanges.

(* ################################################################# *)
(** * Proof automation *)

(** Case analysis on the conditions of the eight rules of the tip
    cascade. *)
Ltac split_rules tz now stats entries :=
  destruct (Rlt_dec 200 (currentCaffeineMg stats));
  destruct (Rlt_dec 100 (currentCaffeineMg stats));
  destruct (ngt (totalDebtHours stats) (nZ 10));
  destruct (ngt (totalDebtHours stats) (nZ 5));
  destruct (ngt (avgHoursThisWeek stats) (nZ 0) && nlt (avgHoursThisWeek stats) (nZ 6));
  destruct (3 <=? totalRecords stats);
  destruct (lateCaffeineToday tz now entries);
  destruct (ngt (nsub (longestSleep stats) (shortestSleep stats)) (nZ 3)
            && ngt (shortestSleep stats) (nZ 0)).

(** Membership in an explicit list. *)
Ltac among := cbn [In]; repeat (first [left; reflexivity | right]).

(* ################################################################# *)
(** * Arithmetic of numbers that are integers *)

Section IntegerNumbers.

Lemma Qred_inject_Z (z : Z) : Qred (inject_Z z) = inject_Z z.
Proof.
  apply Qred_identity. simpl. apply Z.gcd_1_r.
Qed.

Lemma fin_eq (p q : Q) : (p == q)%Q -> fin p = fin q.
Proof.
  intros H. unfold fin. f_equal. now apply Qred_complete.
Qed.

Lemma fin_inject_Z (q : Q) (z : Z) : (q == inject_Z z)%Q -> fin q = nZ z.
Proof.
  intros H. unfold fin, nZ. f_equal.
  rewrite (Qred_complete _ _ H). apply Qred_inject_Z.
Qed.

Lemma nadd_nZ (a b : Z) : nadd (nZ a) (nZ b) = nZ (a + b).
Proof.
  simpl. apply fin_inject_Z. now rewrite inject_Z_plus.
Qed.

Lemma nsub_nZ (a b : Z) : nsub (nZ a) (nZ b) = nZ (a - b).
Proof.
  simpl. apply fin_inject_Z. unfold Z.sub.
  now rewrite inject_Z_plus, inject_Z_opp.
Qed.

Lemma nmul_nZ (a b : Z) : nmul (nZ a) (nZ b) = nZ (a * b).
Proof.
  simpl. apply fin_inject_Z. now rewrite inject_Z_mult.
Qed.

Lemma nneg_nZ (a : Z) : nneg (nZ a) = nZ (- a).
Proof.
  simpl. apply fin_inject_Z. now rewrite inject_Z_opp.
Qed.

Lemma Qeq_bool_inject_Z_pos (b : Z) : 0 < b -> Qeq_bool (inject_Z b) 0 = false.
Proof.
  intros Hb. apply not_true_is_false. intros H.
  apply Qeq_bool_eq in H. unfold Qeq in H. simpl in H. lia.
Qed.

Lemma Qtrunc_div_inject_Z (a b : Z) :
  0 < b -> Qtrunc (inject_Z a / inject_Z b) = Z.quot a b.
Proof.
  intros Hb. destruct b as [|p|p]; try lia.
  unfold Qtrunc, Qdiv, Qinv, Qmult, inject_Z. simpl.
  now rewrite Z.mul_1_r.
Qed.

Lemma nrem_nZ (a b : Z) : 0 < b -> nrem (nZ a) (nZ b) = nZ (Z.rem a b).
Proof.
  intros Hb. unfold nrem, nZ.
  rewrite Qeq_bool_inject_Z_pos by assumption.
  apply fin_inject_Z. rewrite Qtrunc_div_inject_Z by assumption.
  rewrite <- inject_Z_mult. unfold Qminus. rewrite <- inject_Z_opp, <- inject_Z_plus.
  rewrite (Z.quot_rem' a b) at 1.
  apply inject_Z_injective. lia.
Qed.

Lemma ndiv_nZ_pos (x : Q) (b : Z) :
  0 < b -> ndiv (Num x) (nZ b) = fin (x / inject_Z b).
Proof.
  intros Hb. unfold ndiv, nZ. now rewrite Qeq_bool_inject_Z_pos.
Qed.

Lemma nfloor_ndiv_nZ (a b : Z) :
  0 < b -> nfloor (ndiv (nZ a) (nZ b)) = nZ (a / b).
Proof.
  intros Hb. unfold nZ at 1. rewrite ndiv_nZ_pos by assumption.
  unfold fin, nfloor. f_equal. f_equal.
  rewrite (Qfloor_comp _ _ (Qred_correct _)). symmetry. apply Zdiv_Qdiv.
Qed.

(** [((t % n) + n) % n] is the remainder of the floored division. *)
Lemma rem_wrap (t n : Z) : 0 < n -> Z.rem (Z.rem t n + n) n = t mod n.
Proof.
  intros Hn.
  assert (Hr : - n < Z.rem t n < n).
  { pose proof (Z.rem_bound_abs t n ltac:(lia)). lia. }
  rewrite Z.rem_mod_nonneg by lia.
  rewrite (Z.quot_rem' t n) at 2.
  replace (Z.rem t n + n) with (Z.rem t n + 1 * n) by lia.
  rewrite Z.mod_add by lia.
  rewrite Z.add_comm, Z.mul_comm, Z.mod_add by lia. reflexivity.
Qed.

Lemma String_of_nZ (z : Z) : String_of (nZ z) = string_of_Z z.
Proof.
  unfold String_of, nZ. rewrite Qred_inject_Z. reflexivity.
Qed.

End IntegerNumbers.

(* ################################################################# *)
(** * Loops *)

Section Loops.

(** A loop that leaves by its condition gives the same result with any
    larger bound on its rounds. *)
Lemma for_loop_enough_fuel {A : Type} (fuel extra : nat) (i : Z) (cond : Z -> bool)
    (step : Z -> Z) (body : Z -> A -> A) (acc : A) :
  exits fuel i cond step = true ->
  for_loop (fuel + extra) i cond step body acc = for_loop fuel i cond step body acc.
Proof.
  revert i acc. induction fuel as [|fuel IH]; intros i acc H; simpl in *.
  - discriminate.
  - destruct (cond i); [now apply IH | reflexivity].
Qed.

(** The three loops of the engine leave by their conditions. *)
Lemma engine_loops_exit :
  exits 7 6 (fun cycles => 1 <=? cycles) (fun cycles => cycles - 1) = true /\
  exits 7 1 (fun cycles => cycles <=? 6) (fun cycles => cycles + 1) = true /\
  exits 8 6 (fun i => 0 <=? i) (fun i => i - 1) = true /\
  exits 50 0 (fun i => i <? 49) (fun i => i + 1) = true.
Proof. repeat split; reflexivity. Qed.

End Loops.

(* ################################################################# *)
(** * Time utilities *)

Section TimeUtilities.

Local Open Scope string_scope.

Lemma In_zrange (n : nat) (z : Z) : 0 <= z < Z.of_nat n -> In z (zrange n).
Proof.
  intros H. unfold zrange. apply in_map_iff.
  exists (Z.to_nat z). split; [lia|]. apply in_seq. lia.
Qed.

Lemma zrange_In (n : nat) (z : Z) : In z (zrange n) -> 0 <= z < Z.of_nat n.
Proof.
  unfold zrange. intros H. apply in_map_iff in H as (k & <- & Hk).
  apply in_seq in Hk. lia.
Qed.

Lemma isHHmm_spec (s : string) :
  isHHmm s = true <-> exists h m, 0 <= h < 24 /\ 0 <= m < 60 /\ s = hhmm h m.
Proof.
  unfold isHHmm. split.
  - intros H. apply existsb_exists in H as (h & Hh & H).
    apply existsb_exists in H as (m & Hm & H).
    apply String.eqb_eq in H. apply zrange_In in Hh, Hm.
    exists h, m. repeat split; try lia. exact H.
  - intros (h & m & Hh & Hm & ->).
    apply existsb_exists. exists h. split; [apply In_zrange; lia|].
    apply existsb_exists. exists m. split; [apply In_zrange; lia|].
    apply String.eqb_refl.
Qed.

Lemma parses_to_all :
  forallb (fun h => forallb (parses_to h) (zrange 60)) (zrange 24) = true.
Proof. vm_compute. reflexivity. Qed.

(** A valid HH:mm string splits into its hour and its minute. *)
Lemma parseTime_hhmm (h m : Z) :
  0 <= h < 24 -> 0 <= m < 60 ->
  parseTime (hhmm h m) = {| tp_hours := Some (nZ h); tp_minutes := Some (nZ m) |}.
Proof.
  intros Hh Hm. pose proof parses_to_all as H.
  rewrite forallb_forall in H. specialize (H h (In_zrange 24 h Hh)).
  rewrite forallb_forall in H. specialize (H m (In_zrange 60 m Hm)).
  unfold parses_to in H. destruct TimeParts_eq_dec; [assumption | discriminate].
Qed.

Lemma timeToMinutes_hhmm (h m : Z) :
  0 <= h < 24 -> 0 <= m < 60 -> timeToMinutes (hhmm h m) = nZ (h * 60 + m).
Proof.
  intros Hh Hm. unfold timeToMinutes. rewrite parseTime_hhmm by assumption.
  simpl toNumber. now rewrite nmul_nZ, nadd_nZ.
Qed.

Lemma padTime_nZ (h m : Z) : 0 <= h < 24 -> padTime (nZ h) (nZ m) = hhmm h m.
Proof.
  intros Hh. unfold padTime, hhmm, pad2.
  rewrite nrem_nZ, nadd_nZ, nrem_nZ by lia.
  rewrite rem_wrap by lia. rewrite Z.mod_small by lia.
  now rewrite !String_of_nZ.
Qed.

(** Adding whole minutes to a valid clock time wraps around midnight in
    both directions. *)
Lemma addMinutesToTime_hhmm (h m d : Z) :
  0 <= h < 24 -> 0 <= m < 60 ->
  addMinutesToTime (hhmm h m) (nZ d) = clock ((h * 60 + m + d) mod 1440).
Proof.
  intros Hh Hm. unfold addMinutesToTime. rewrite parseTime_hhmm by assumption.
  simpl toNumber. rewrite nmul_nZ, !nadd_nZ.
  rewrite (nrem_nZ _ 1440), nadd_nZ, (nrem_nZ _ 1440) by lia.
  rewrite rem_wrap by lia.
  set (w := (h * 60 + m + d) mod 1440).
  assert (Hw : 0 <= w < 1440) by (apply Z.mod_pos_bound; lia).
  rewrite nfloor_ndiv_nZ, nrem_nZ by lia.
  rewrite Z.rem_mod_nonneg by lia.
  apply padTime_nZ.
  split; [apply Z.div_pos; lia | apply Z.div_lt_upper_bound; lia].
Qed.

Lemma subtractMinutesFromTime_hhmm (h m d : Z) :
  0 <= h < 24 -> 0 <= m < 60 ->
  subtractMinutesFromTime (hhmm h m) (nZ d) = clock ((h * 60 + m - d) mod 1440).
Proof.
  intros Hh Hm. unfold subtractMinutesFromTime.
  rewrite nneg_nZ, addMinutesToTime_hhmm by assumption.
  f_equal.
Qed.

End TimeUtilities.

(* ################################################################# *)
(** * Binary64 roundings *)

Section Binary64Rounding.

Import Floats.
Local Open Scope float_scope.
Local Set Warnings "-inexact-float".

(** [Math.round] on binary64 numbers: ties go toward +Infinity, also below
    zero; the largest number below one half rounds to 0; a negative number
    that rounds to zero gives -0; an integer is kept. *)
Example Math_round_samples :
  map Binary64.Math_round
      [2.5; -2.5; -3.7; 0.49999999999999994; -0.2; 339.5; 339.49999999999994; 1e300]
  = [3; -2; -4; 0; -0; 340; 339; 1e300].
Proof. vm_compute. reflexivity. Qed.

(** Without entries the level is 0, and an entry read later than its
    intake needs a power that the language does not fix. *)
Example calculateCaffeineLevel_samples :
  Binary64.calculateCaffeineLevel [] 0 = Some 0 /\
  Binary64.calculateCaffeineLevel [Binary64.intake 100] 18000000 = None /\
  Binary64.calculateCaffeineLevel [Binary64.intake 100] (-1) = Some 0.
Proof. repeat split; vm_compute; reflexivity. Qed.

End Binary64Rounding.

(* ################################################################# *)
(** * parseTime *)

Section ParseTime.

Local Open Scope string_scope.

Lemma split_length (s : string) : length (split ":" s) = S (colons s).
Proof.
  induction s as [|c rest IH]; simpl; [reflexivity|].
  destruct (Ascii.eqb c ":"); simpl.
  - now rewrite IH.
  - destruct (split ":" rest); simpl in *; congruence.
Qed.

Lemma parseTime_hours_defined (s : string) :
  exists n, tp_hours (parseTime s) = Some n.
Proof.
  unfold parseTime. simpl. pose proof (split_length s) as H.
  destruct (split ":" s) as [|part parts]; [discriminate|].
  simpl. eauto.
Qed.

Lemma parseTime_minutes_undefined (s : string) :
  colons s = O -> tp_minutes (parseTime s) = None.
Proof.
  intros Hc. unfold parseTime. simpl. pose proof (split_length s) as H.
  rewrite Hc in H.
  destruct (split ":" s) as [|part [|part' parts]]; simpl in *; try discriminate.
  reflexivity.
Qed.

Lemma parseTime_minutes_defined (s : string) :
  colons s <> O -> exists n, tp_minutes (parseTime s) = Some n.
Proof.
  intros Hc. unfold parseTime. simpl. pose proof (split_length s) as H.
  destruct (split ":" s) as [|part [|part' parts]]; simpl in *; try lia.
  eauto.
Qed.

Lemma nadd_NaN_r (a : number) : nadd a NaN = NaN.
Proof. now destruct a. Qed.

(** The first part of a split is the text before the first colon. *)
Lemma split_first (a t : string) :
  colons a = O -> split ":" (a ++ String ":" t) = a :: split ":" t.
Proof.
  induction a as [|c a IH]; simpl; intros Hc; [reflexivity|].
  destruct (Ascii.eqb c ":"); [discriminate|].
  now rewrite (IH Hc).
Qed.

Lemma split_no_colon (a : string) : colons a = O -> split ":" a = [a].
Proof.
  induction a as [|c a IH]; simpl; intros Hc; [reflexivity|].
  destruct (Ascii.eqb c ":"); [discriminate|].
  now rewrite (IH Hc).
Qed.

(** C2, as stated, fails: on "abc", which has no two numeric components,
    [parseTime] returns a pair holding [NaN] and [undefined] and raises
    nothing. *)
Lemma C2_parseTime_fails_fast_counterexample :
  twoNumericComponents "abc" = false /\
  parseTime_outcome "abc" = Returns {| tp_hours := Some NaN; tp_minutes := None |} /\
  parseTime_outcome "abc" <> Throws InvalidFormat.
Proof.
  split; [reflexivity|]. split; [reflexivity|]. discriminate.
Qed.

(** C2, amended: [parseTime] never fails.  For every string it returns a
    pair.  Without a colon the pair is [Number] of the string and
    [undefined], and the minute count [timeToMinutes] computes from it is
    [NaN], which is what reaches the callers.  With colons the pair is
    [Number] of the text before the first colon and [Number] of the text
    between the first and the second, [NaN] where that text is not
    numeric; what follows a second colon is ignored. *)
Theorem C2_parseTime_total (s : string) :
  (exists p, parseTime_outcome s = Returns p) /\
  (colons s = O ->
     parseTime s = {| tp_hours := Some (Number s); tp_minutes := None |} /\
     timeToMinutes s = NaN) /\
  (forall a b, s = a ++ ":" ++ b -> colons a = O -> colons b = O ->
     parseTime s = {| tp_hours := Some (Number a); tp_minutes := Some (Number b) |}) /\
  (forall a b rest, s = a ++ ":" ++ b ++ ":" ++ rest -> colons a = O -> colons b = O ->
     parseTime s = {| tp_hours := Some (Number a); tp_minutes := Some (Number b) |}).
Proof.
  split; [now exists (parseTime s)|]. split; [|split].
  - intros Hc.
    assert (Hp : parseTime s = {| tp_hours := Some (Number s); tp_minutes := None |}).
    { unfold parseTime. now rewrite (split_no_colon s Hc). }
    split; [exact Hp|]. unfold timeToMinutes. rewrite Hp. apply nadd_NaN_r.
  - intros a b -> Ha Hb. unfold parseTime.
    change (a ++ ":" ++ b) with (a ++ String ":" b).
    now rewrite (split_first a b Ha), (split_no_colon b Hb).
  - intros a b rest -> Ha Hb. unfold parseTime.
    change (a ++ ":" ++ b ++ ":" ++ rest) with (a ++ String ":" (b ++ String ":" rest)).
    now rewrite (split_first a _ Ha), (split_first b rest Hb).
Qed.

End ParseTime.

(* ################################################################# *)
(** * calculateOptimalTimes *)

Section OptimalTimes.

Local Open Scope string_scope.

Lemma calculateOptimalTimes_bedtime (t : string) :
  calculateOptimalTimes t bedtimeMode = map (candidate t bedtimeMode) [6; 5; 4; 3; 2; 1].
Proof. reflexivity. Qed.

Lemma calculateOptimalTimes_wakeup (t : string) :
  calculateOptimalTimes t wakeupMode = map (candidate t wakeupMode) [1; 2; 3; 4; 5; 6].
Proof. reflexivity. Qed.

Lemma qualityFromCycles_grade (c : Z) :
  (c <= 2 -> qualityFromCycles c = poor) /\
  (c = 3 -> qualityFromCycles c = fair) /\
  (c = 4 -> qualityFromCycles c = good) /\
  (5 <= c -> qualityFromCycles c = great).
Proof.
  unfold qualityFromCycles.
  destruct (Z.leb_spec c 2), (Z.eqb_spec c 3), (Z.eqb_spec c 4);
    repeat split; intros; try reflexivity; lia.
Qed.

Lemma candidate_bedtime (h m c : Z) :
  0 <= h < 24 -> 0 <= m < 60 ->
  candidate (hhmm h m) bedtimeMode c =
    {| time := clock ((h * 60 + m - (c * 90 + 15)) mod 1440);
       cycles := c;
       hours := round2 (ndiv (nZ (c * 90)) (nZ 60));
       quality := qualityFromCycles c |}.
Proof.
  intros Hh Hm. unfold candidate.
  now rewrite subtractMinutesFromTime_hhmm.
Qed.

Lemma candidate_wakeup (h m c : Z) :
  0 <= h < 24 -> 0 <= m < 60 ->
  candidate (hhmm h m) wakeupMode c =
    {| time := clock ((h * 60 + m + (c * 90 + 15)) mod 1440);
       cycles := c;
       hours := round2 (ndiv (nZ (c * 90)) (nZ 60));
       quality := qualityFromCycles c |}.
Proof.
  intros Hh Hm. unfold candidate.
  now rewrite addMinutesToTime_hhmm.
Qed.

(** C6: for a valid HH:mm target the calculator returns six candidates:
    toward bedtime one per cycle count 6 down to 1, each [cycles * 90 + 15]
    minutes before the target modulo 24 hours; toward wake-up one per cycle
    count 1 up to 6, each as many minutes after it; graded poor up to 2
    cycles, fair for 3, good for 4, great from 5.  For 07:00 toward bedtime
    the first is 21:45 (6 cycles, great) and the last 05:15 (1 cycle,
    poor). *)
Theorem C6_optimal_times (h m : Z) :
  0 <= h < 24 -> 0 <= m < 60 ->
  calculateOptimalTimes (hhmm h m) bedtimeMode =
    [ expectedCandidate h m (- (6 * 90 + 15)) 6 great;
      expectedCandidate h m (- (5 * 90 + 15)) 5 great;
      expectedCandidate h m (- (4 * 90 + 15)) 4 good;
      expectedCandidate h m (- (3 * 90 + 15)) 3 fair;
      expectedCandidate h m (- (2 * 90 + 15)) 2 poor;
      expectedCandidate h m (- (1 * 90 + 15)) 1 poor ] /\
  calculateOptimalTimes (hhmm h m) wakeupMode =
    [ expectedCandidate h m (1 * 90 + 15) 1 poor;
      expectedCandidate h m (2 * 90 + 15) 2 poor;
      expectedCandidate h m (3 * 90 + 15) 3 fair;
      expectedCandidate h m (4 * 90 + 15) 4 good;
      expectedCandidate h m (5 * 90 + 15) 5 great;
      expectedCandidate h m (6 * 90 + 15) 6 great ] /\
  (forall mode, length (calculateOptimalTimes (hhmm h m) mode) = 6%nat) /\
  (forall mode o, In o (calculateOptimalTimes (hhmm h m) mode) ->
     quality o = qualityFromCycles (cycles o) /\
     (cycles o <= 2 -> quality o = poor) /\ (cycles o = 3 -> quality o = fair) /\
     (cycles o = 4 -> quality o = good) /\ (5 <= cycles o -> quality o = great)) /\
  (hd_error (calculateOptimalTimes "07:00" bedtimeMode) =
     Some {| time := "21:45"; cycles := 6; hours := nZ 9; quality := great |} /\
   last (calculateOptimalTimes "07:00" bedtimeMode)
        {| time := ""; cycles := 0; hours := NaN; quality := poor |} =
     {| time := "05:15"; cycles := 1; hours := Num (3 # 2); quality := poor |}).
Proof.
  intros Hh Hm.
  assert (Hbed : calculateOptimalTimes (hhmm h m) bedtimeMode =
    [ expectedCandidate h m (- (6 * 90 + 15)) 6 great;
      expectedCandidate h m (- (5 * 90 + 15)) 5 great;
      expectedCandidate h m (- (4 * 90 + 15)) 4 good;
      expectedCandidate h m (- (3 * 90 + 15)) 3 fair;
      expectedCandidate h m (- (2 * 90 + 15)) 2 poor;
      expectedCandidate h m (- (1 * 90 + 15)) 1 poor ]).
  { rewrite calculateOptimalTimes_bedtime. unfold map.
    rewrite !candidate_bedtime by assumption. reflexivity. }
  assert (Hwake : calculateOptimalTimes (hhmm h m) wakeupMode =
    [ expectedCandidate h m (1 * 90 + 15) 1 poor;
      expectedCandidate h m (2 * 90 + 15) 2 poor;
      expectedCandidate h m (3 * 90 + 15) 3 fair;
      expectedCandidate h m (4 * 90 + 15) 4 good;
      expectedCandidate h m (5 * 90 + 15) 5 great;
      expectedCandidate h m (6 * 90 + 15) 6 great ]).
  { rewrite calculateOptimalTimes_wakeup. unfold map.
    rewrite !candidate_wakeup by assumption. reflexivity. }
  split; [exact Hbed|]. split; [exact Hwake|]. split; [|split].
  - intros []; [rewrite Hbed | rewrite Hwake]; reflexivity.
  - intros mode o Hin.
    assert (Hq : quality o = qualityFromCycles (cycles o)).
    { destruct mode;
        [rewrite calculateOptimalTimes_bedtime in Hin
        | rewrite calculateOptimalTimes_wakeup in Hin];
        apply in_map_iff in Hin as (c & <- & _); reflexivity. }
    split; [exact Hq|]. rewrite Hq. apply qualityFromCycles_grade.
  - split; vm_compute; reflexivity.
Qed.

(** C6 at 07:00: the six bedtimes. *)
Lemma C6_optimal_times_witness :
  map time (calculateOptimalTimes "07:00" bedtimeMode) =
    ["21:45"; "23:15"; "00:45"; "02:15"; "03:45"; "05:15"].
Proof.
  destruct (C6_optimal_times 7 0) as (H & _); [lia | lia |].
  change (hhmm 7 0) with "07:00" in H. rewrite H. reflexivity.
Defined.

End OptimalTimes.

(* ################################################################# *)
(** * calculateHoursSlept *)

Section HoursSlept.

Local Open Scope string_scope.
Local Open Scope Z_scope.

Lemma nle_nZ (a b : Z) : nle (nZ a) (nZ b) = (a <=? b).
Proof.
  unfold nle, nZ, ncompare, Qcompare, inject_Z. simpl.
  rewrite !Z.mul_1_r. unfold Z.leb. now destruct (a ?= b).
Qed.

Lemma nlt_nZ (a b : Z) : nlt (nZ a) (nZ b) = (a <? b).
Proof.
  unfold nlt, nZ, ncompare, Qcompare, inject_Z. simpl.
  rewrite !Z.mul_1_r. unfold Z.ltb. now destruct (a ?= b).
Qed.

(** Rounding a ratio of integers to two decimals is an integer division. *)
Lemma round2_ratio (d b : Z) :
  0 < b ->
  round2 (ndiv (nZ d) (nZ b)) = fin (inject_Z ((200 * d + b) / (2 * b)) / inject_Z 100).
Proof.
  intros Hb. unfold round2. unfold nZ at 1. rewrite ndiv_nZ_pos by assumption.
  unfold fin at 1. unfold nmul, nZ at 1. unfold fin at 1. unfold nround, nZ at 1.
  rewrite ndiv_nZ_pos by lia.
  f_equal. f_equal. f_equal.
  rewrite Zdiv_Qdiv. apply Qfloor_comp.
  rewrite !Qred_correct.
  rewrite inject_Z_plus, !inject_Z_mult.
  assert (Hb' : ~ (inject_Z b == 0)%Q).
  { intros H. unfold Qeq in H. simpl in H. lia. }
  field. exact Hb'.
Qed.

Lemma ngt_fin_pos (q : Q) : (0 < q)%Q -> ngt (fin q) (nZ 0) = true.
Proof.
  intros H. unfold ngt, nlt, fin, nZ, ncompare.
  assert (Hc : (inject_Z 0 ?= Qred q)%Q = Lt).
  { apply Qlt_alt. now rewrite Qred_correct. }
  now rewrite Hc.
Qed.

(** Hours slept between two valid clock times lie in (0, 24], and a wake
    time equal to the bedtime is a full day. *)
Lemma calculateHoursSlept_hhmm (bh bm wh wm : Z) :
  0 <= bh < 24 -> 0 <= bm < 60 -> 0 <= wh < 24 -> 0 <= wm < 60 ->
  exists k : Z,
    calculateHoursSlept (hhmm bh bm) (hhmm wh wm) = fin (inject_Z k / inject_Z 100) /\
    2 <= k <= 2400 /\
    (bh * 60 + bm = wh * 60 + wm -> k = 2400).
Proof.
  intros Hbh Hbm Hwh Hwm.
  set (b := bh * 60 + bm). set (w := wh * 60 + wm).
  set (d := (if w <=? b then w + 24 * 60 else w) - b).
  exists ((200 * d + 60) / (2 * 60)).
  assert (Hd : 1 <= d <= 1440).
  { unfold d. destruct (Z.leb_spec w b); lia. }
  split; [|split].
  - unfold calculateHoursSlept.
    rewrite !timeToMinutes_hhmm by assumption. fold b w.
    rewrite nle_nZ.
    replace (nsub (if w <=? b then nadd (nZ w) (nZ (24 * 60)) else nZ w) (nZ b))
      with (nZ d).
    + apply (round2_ratio d 60). lia.
    + unfold d. destruct (w <=? b); now rewrite ?nadd_nZ, nsub_nZ.
  - split.
    + apply Z.div_le_lower_bound; lia.
    + enough ((200 * d + 60) / (2 * 60) < 2401) by lia.
      apply Z.div_lt_upper_bound; lia.
  - intros Heq. unfold d. fold b w in Heq. rewrite <- Heq, Z.leb_refl.
    replace (b + 24 * 60 - b) with 1440 by lia. reflexivity.
Qed.

End HoursSlept.

(* ################################################################# *)
(** * Calendar dates *)

Section Calendar.

Local Open Scope string_scope.
Local Open Scope Z_scope.

Lemma year_of_era_bounds (doe : Z) :
  0 <= doe < 146097 ->
  let yoe := (doe - doe / 1460 + doe / 36524 - doe / 146096) / 365 in
  let doy := doe - (365 * yoe + yoe / 4 - yoe / 100) in
  0 <= yoe < 400 /\ 0 <= doy <= 365.
Proof.
  intros H yoe doy. subst yoe doy.
  Z.div_mod_to_equations. lia.
Qed.

(** [civil] yields a month and a day of the month, and [daysFromCivil]
    leads back to the day number. *)
Lemma civil_inverse (z : Z) :
  let '(y, m, d) := civil z in
  1 <= m <= 12 /\ 1 <= d <= 31 /\ daysFromCivil y m d = z.
Proof.
  unfold civil. cbv zeta.
  set (z' := z + 719468).
  set (era := z' / 146097). set (doe := z' mod 146097).
  assert (Hdoe : 0 <= doe < 146097) by (apply Z.mod_pos_bound; lia).
  assert (Hz : z' = 146097 * era + doe) by (apply Z.div_mod; lia).
  destruct (year_of_era_bounds doe Hdoe) as [Hyoe Hdoy].
  set (yoe := (doe - doe / 1460 + doe / 36524 - doe / 146096) / 365) in *.
  set (doy := doe - (365 * yoe + yoe / 4 - yoe / 100)) in *.
  set (mp := (5 * doy + 2) / 153).
  assert (Hmp : 0 <= mp <= 11).
  { unfold mp. split; [apply Z.div_pos; lia|].
    enough ((5 * doy + 2) / 153 < 12) by lia.
    apply Z.div_lt_upper_bound; lia. }
  assert (Hd : 1 <= doy - (153 * mp + 2) / 5 + 1 <= 31).
  { unfold mp. clearbody doy. clear -Hdoy. Z.div_mod_to_equations. lia. }
  assert (Hera : (yoe + era * 400) / 400 = era /\ (yoe + era * 400) mod 400 = yoe).
  { rewrite Z.div_add, Z.mod_add, Z.div_small, Z.mod_small by lia. lia. }
  destruct Hera as [He Hm].
  unfold daysFromCivil.
  destruct (Z.ltb_spec mp 10) as [Hlt | Hge].
  - replace (mp + 3 <=? 2) with false by (symmetry; apply Z.leb_gt; lia).
    replace (2 <? mp + 3) with true by (symmetry; apply Z.ltb_lt; lia).
    rewrite He, Hm. replace (mp + 3 - 3) with mp by lia.
    repeat split; try lia; unfold doy, z' in *; lia.
  - replace (mp - 9 <=? 2) with true by (symmetry; apply Z.leb_le; lia).
    replace (2 <? mp - 9) with false by (symmetry; apply Z.ltb_ge; lia).
    replace (yoe + era * 400 + 1 - 1) with (yoe + era * 400) by lia.
    rewrite He, Hm. replace (mp - 9 + 9) with mp by lia.
    repeat split; try lia; unfold doy, z' in *; lia.
Qed.

Lemma civil_inj (z1 z2 : Z) : civil z1 = civil z2 -> z1 = z2.
Proof.
  intros H. pose proof (civil_inverse z1) as H1. pose proof (civil_inverse z2) as H2.
  rewrite H in H1. destruct (civil z2) as [[y m] d].
  destruct H1 as (_ & _ & <-). destruct H2 as (_ & _ & <-). reflexivity.
Qed.

(** ** Day numbers under [setDate] *)

Lemma dayNumber_setDate (tz t n : Z) :
  dayNumber tz (setDate tz t n) = dayNumber tz t + (n - getDate tz t).
Proof.
  unfold dayNumber, setDate, localTime.
  replace (t + (n - getDate tz t) * msPerDay + tz * msPerMinute)
    with (t + tz * msPerMinute + (n - getDate tz t) * msPerDay) by lia.
  apply Z.div_add. unfold msPerDay, msPerHour, msPerMinute. lia.
Qed.

(** The day [i] days before the day of [t]. *)
Lemma dayNumber_days_before (tz t i : Z) :
  dayNumber tz (setDate tz t (getDate tz t - i)) = dayNumber tz t - i.
Proof. rewrite dayNumber_setDate. lia. Qed.

End Calendar.

(* ################################################################# *)
(** * Date keys *)

Section DateKeys.

Local Open Scope string_scope.
Local Open Scope Z_scope.

Lemma string_of_Z_inj (a b : Z) : string_of_Z a = string_of_Z b -> a = b.
Proof.
  intros H. apply DecimalZ.to_int_inj.
  assert (Hisi : forall z : Z,
             NilZero.int_of_string (string_of_Z z) = Some (Z.to_int z)).
  { intros z. apply NilZero.isi; destruct z; simpl; try discriminate;
      intros [= E]; now apply Unsigned.to_uint_nonnil in E. }
  pose proof (Hisi a) as Ha. rewrite H, Hisi in Ha. now injection Ha.
Qed.

Lemma length_append (s1 s2 : string) :
  String.length (s1 ++ s2) = (String.length s1 + String.length s2)%nat.
Proof. induction s1; simpl; congruence. Qed.

(** Two concatenations with suffixes of the same length agree part by
    part. *)
Lemma append_inj_suffix (a b s1 s2 : string) :
  String.length s1 = String.length s2 -> a ++ s1 = b ++ s2 -> a = b /\ s1 = s2.
Proof.
  revert b. induction a as [|c a IH]; intros [|c' b] Hlen H; simpl in H.
  - now split.
  - subst s1. simpl in Hlen. rewrite length_append in Hlen. lia.
  - subst s2. simpl in Hlen. rewrite length_append in Hlen. lia.
  - injection H as -> H. destruct (IH b Hlen H) as [-> ->]. now split.
Qed.

Lemma pad2_length_all :
  forallb (fun v => (String.length (pad2 v) =? 2)%nat) (zrange 32) = true.
Proof. vm_compute. reflexivity. Qed.

Lemma pad2_inj_all :
  forallb (fun a => forallb (fun b => implb (String.eqb (pad2 a) (pad2 b)) (a =? b))
                            (zrange 32)) (zrange 32) = true.
Proof. vm_compute. reflexivity. Qed.

Lemma pad2_length (v : Z) : 0 <= v < 32 -> String.length (pad2 v) = 2%nat.
Proof.
  intros Hv. pose proof pad2_length_all as H. rewrite forallb_forall in H.
  apply Nat.eqb_eq, H, In_zrange. lia.
Qed.

Lemma pad2_inj (a b : Z) : 0 <= a < 32 -> 0 <= b < 32 -> pad2 a = pad2 b -> a = b.
Proof.
  intros Ha Hb E. pose proof pad2_inj_all as H.
  rewrite forallb_forall in H. specialize (H a (In_zrange 32 a ltac:(lia))).
  rewrite forallb_forall in H. specialize (H b (In_zrange 32 b ltac:(lia))).
  rewrite E, String.eqb_refl in H. simpl in H. now apply Z.eqb_eq.
Qed.

(** Distinct days have distinct keys. *)
Lemma dateOfDay_inj (z1 z2 : Z) : dateOfDay z1 = dateOfDay z2 -> z1 = z2.
Proof.
  intros H. apply civil_inj. unfold dateOfDay in H.
  pose proof (civil_inverse z1) as H1. pose proof (civil_inverse z2) as H2.
  destruct (civil z1) as [[y1 m1] d1], (civil z2) as [[y2 m2] d2].
  destruct H1 as (Hm1 & Hd1 & _), H2 as (Hm2 & Hd2 & _).
  assert (Hlen : forall m d, 0 <= m < 32 -> 0 <= d < 32 ->
             String.length ("-" ++ pad2 m ++ "-" ++ pad2 d) = 6%nat).
  { intros m d Hm Hd. simpl. rewrite length_append. simpl.
    rewrite !pad2_length by assumption. reflexivity. }
  apply append_inj_suffix in H; [|rewrite !Hlen by lia; reflexivity].
  destruct H as [Hy H]. apply string_of_Z_inj in Hy.
  simpl in H. injection H as H.
  apply append_inj_suffix in H;
    [|simpl; rewrite !pad2_length by lia; reflexivity].
  destruct H as [Hm H]. injection H as H.
  apply pad2_inj in Hm, H; try lia. congruence.
Qed.

Lemma ymdString_dateOfDay (tz t : Z) : ymdString tz t = dateOfDay (dayNumber tz t).
Proof.
  unfold ymdString, dateOfDay, pad2, getFullYear, getMonth, getDate.
  destruct (civil (dayNumber tz t)) as [[y m] d]. simpl.
  now replace (m - 1 + 1) with m by lia.
Qed.

(** The key built in round [i] of the loop of [calculateSleepDebt] is the
    key of the day [i] days before today. *)
Lemma dateStr_days_before (tz today i : Z) :
  ymdString tz (setDate tz today (getDate tz today - i)) =
  dateOfDay (dayNumber tz today - i).
Proof. now rewrite ymdString_dateOfDay, dayNumber_days_before. Qed.

End DateKeys.

(* ################################################################# *)
(** * calculateSleepDebt *)

Section SleepDebtProperties.

Local Open Scope string_scope.
Local Open Scope Z_scope.

Lemma calculateSleepDebt_daily tz today records rec :
  daily (calculateSleepDebt tz today records rec) =
  map (dayEntry tz today records rec) [6; 5; 4; 3; 2; 1; 0].
Proof. reflexivity. Qed.

Lemma dayEntry_day tz today records rec i :
  day (dayEntry tz today records rec i) = dateOfDay (dayNumber tz today - i).
Proof. unfold dayEntry. simpl. apply dateStr_days_before. Qed.

Lemma dayEntry_hours tz today records rec i :
  dayHours (dayEntry tz today records rec i) =
  hoursOn records (day (dayEntry tz today records rec i)).
Proof. reflexivity. Qed.

Lemma dayEntry_debt tz today records rec i :
  debt (dayEntry tz today records rec i) =
  nmax (nZ 0) (nsub rec (dayHours (dayEntry tz today records rec i))).
Proof. reflexivity. Qed.

Lemma hoursOn_no_record records key :
  (forall r, In r records -> date r <> key) -> hoursOn records key = nZ 0.
Proof.
  intros H. unfold hoursOn.
  destruct (find _ records) as [r|] eqn:Hf; [|reflexivity].
  apply find_some in Hf as [Hin Heq]. apply String.eqb_eq in Heq.
  now apply H in Hin.
Qed.

Lemma fold_left_map_nadd {A : Type} (f : A -> number) (l : list A) (a : number) :
  fold_left (fun sum d => nadd sum (f d)) l a = fold_left nadd (map f l) a.
Proof. revert a. induction l as [|x l IH]; intros a; simpl; [reflexivity | apply IH]. Qed.

Lemma filter_map_comm {A B : Type} (f : A -> B) (p : B -> bool) (l : list A) :
  map f (filter (fun x => p (f x)) l) = filter p (map f l).
Proof.
  induction l as [|x l IH]; simpl; [reflexivity|].
  destruct (p (f x)); simpl; now rewrite IH.
Qed.

Lemma round2_zero : round2 (nZ 0) = nZ 0.
Proof. reflexivity. Qed.

Lemma calculateSleepDebt_totalDebt tz today records rec :
  let res := calculateSleepDebt tz today records rec in
  totalDebt res = round2 (nsum (map debt (daily res))).
Proof.
  intros res. unfold res, calculateSleepDebt. cbn [totalDebt daily].
  unfold nsum. now rewrite fold_left_map_nadd.
Qed.

Lemma calculateSleepDebt_avgHours tz today records rec :
  let res := calculateSleepDebt tz today records rec in
  avgHours res = round2 (meanPositiveHours (daily res)).
Proof.
  intros res. unfold res, calculateSleepDebt. cbn [avgHours daily].
  set (days := for_loop _ _ _ _ _ _).
  unfold meanPositiveHours.
  rewrite <- (filter_map_comm dayHours (fun h => ngt h (nZ 0))).
  set (withRecords := filter _ days).
  rewrite fold_left_map_nadd. unfold nsum.
  destruct withRecords as [|d rest]; [reflexivity|].
  cbn [map length Nat.ltb Nat.leb]. now rewrite length_map.
Qed.

(** Rounding to two decimals gives a whole number of hundredths half a
    hundredth away at most. *)
Lemma round2_toTwoDecimals (x : number) : toTwoDecimals x (round2 x).
Proof.
  destruct x as [| | |q]; try reflexivity.
  intros _. unfold round2. unfold nmul, nZ at 1. unfold fin at 1.
  unfold nround, nZ at 1. rewrite ndiv_nZ_pos by lia.
  set (k := Qfloor (Qred (q * inject_Z 100) + (1 # 2))).
  exists k. split; [reflexivity|].
  pose proof (Qfloor_le (Qred (q * inject_Z 100) + (1 # 2))) as Hlo.
  pose proof (Qlt_floor (Qred (q * inject_Z 100) + (1 # 2))) as Hhi.
  fold k in Hlo, Hhi. rewrite Qred_correct in Hlo, Hhi.
  rewrite inject_Z_plus in Hhi.
  change (inject_Z 100) with 100%Q in Hlo, Hhi.
  change (inject_Z 1) with 1%Q in Hhi.
  split; Lqa.lra.
Qed.

End SleepDebtProperties.

Section SleepDebtTie.

Import Floats.
Local Open Scope string_scope.
Local Open Scope Z_scope.
Local Set Warnings "-inexact-float".


End SleepDebtTie.

Section SleepDebtClaim.

Local Open Scope string_scope.
Local Open Scope Z_scope.

Lemma dateOfDay_eqb_other (z i : Z) :
  i <> 0 -> String.eqb (dateOfDay z) (dateOfDay (z - i)) = false.
Proof.
  intros Hi. apply String.eqb_neq. intros H. apply dateOfDay_inj in H. lia.
Qed.


End SleepDebtClaim.

(* ################################################################# *)
(** * Records of the store *)

Section StoreInvariant.

Local Open Scope string_scope.
Local Open Scope Z_scope.

Lemma fin_div_100 (k : Z) :
  2 <= k <= 2400 ->
  exists q, fin (inject_Z k / inject_Z 100) = Num q /\ (0 < q)%Q /\ (q <= 24)%Q.
Proof.
  intros Hk. exists (Qred (inject_Z k / inject_Z 100)).
  split; [reflexivity|]. rewrite Qred_correct.
  unfold Qdiv, Qinv, Qmult, Qlt, Qle, inject_Z. simpl. lia.
Qed.

Lemma calculateHoursSlept_valid (bed wake : string) :
  isHHmm bed = true -> isHHmm wake = true ->
  (exists q, calculateHoursSlept bed wake = Num q /\ (0 < q)%Q /\ (q <= 24)%Q) /\
  (bed = wake -> calculateHoursSlept bed wake = nZ 24).
Proof.
  intros Hb Hw.
  apply isHHmm_spec in Hb as (bh & bm & Hbh & Hbm & ->).
  apply isHHmm_spec in Hw as (wh & wm & Hwh & Hwm & ->).
  destruct (calculateHoursSlept_hhmm bh bm wh wm Hbh Hbm Hwh Hwm)
    as (k & Heq & Hk & Hsame).
  split.
  - rewrite Heq. now apply fin_div_100.
  - intros E.
    assert (Hmin : nZ (bh * 60 + bm) = nZ (wh * 60 + wm)).
    { rewrite <- !timeToMinutes_hhmm by assumption. now rewrite E. }
    injection Hmin as Hmin. rewrite Heq, (Hsame Hmin). reflexivity.
Qed.

Lemma hours_positive (bed wake : string) :
  isHHmm bed = true -> isHHmm wake = true ->
  ngt (calculateHoursSlept bed wake) (nZ 0) = true.
Proof.
  intros Hb Hw.
  destruct (calculateHoursSlept_valid bed wake Hb Hw) as [(q & Hq & Hpos & _) _].
  rewrite Hq. unfold ngt, nlt, nZ, ncompare.
  assert (Hc : (inject_Z 0 ?= q)%Q = Lt) by (apply Qlt_alt; exact Hpos).
  now rewrite Hc.
Qed.

(** Every record of a reachable store has positive hours. *)
Lemma Reachable_hours_positive (records : list SleepRecord) :
  Reachable records -> forall r, In r records -> ngt (hoursSlept r) (nZ 0) = true.
Proof.
  induction 1 as [| newId input prev Hvalid _ IH | rid prev _ IH]; intros r Hin.
  - destruct Hin.
  - unfold addSleepRecord in Hin. apply in_app_or in Hin as [Hin | [<- | []]].
    + now apply IH.
    + unfold validInput in Hvalid. apply andb_prop in Hvalid as [Hb Hw].
      now apply hours_positive.
  - unfold removeSleepRecord in Hin. apply filter_In in Hin as [Hin _].
    now apply IH.
Qed.

(** C10: between two valid HH:mm clock times the hours slept are more than
    0 and at most 24, and 24 when the wake time is the bedtime; so a record
    made by [addSleepRecord] has positive hours, every record of the store
    has, and a day of the debt window for which the store has a record is
    among the days the average is taken over. *)
Theorem C10_hours_slept_positive (bed wake : string) (tz today : Z)
    (records : list SleepRecord) (rec : number) :
  isHHmm bed = true -> isHHmm wake = true -> Reachable records ->
  (exists q, calculateHoursSlept bed wake = Num q /\ (0 < q)%Q /\ (q <= 24)%Q) /\
  (bed = wake -> calculateHoursSlept bed wake = nZ 24) /\
  (forall newId d,
     ngt (hoursSlept (newSleepRecord newId
            {| in_date := d; in_bedtime := bed; in_wakeTime := wake |})) (nZ 0) = true) /\
  (forall r, In r records -> ngt (hoursSlept r) (nZ 0) = true) /\
  (forall d, In d (daily (calculateSleepDebt tz today records rec)) ->
     (exists r, In r records /\ date r = day d) ->
     In d (daysWithRecords (calculateSleepDebt tz today records rec))).
Proof.
  intros Hb Hw Hreach.
  destruct (calculateHoursSlept_valid bed wake Hb Hw) as [Hrange Hsame].
  split; [exact Hrange|]. split; [exact Hsame|].
  split; [intros newId d; now apply hours_positive|].
  split; [now apply Reachable_hours_positive|].
  intros d Hd (r & Hr & Hdate).
  unfold daysWithRecords. apply filter_In. split; [exact Hd|].
  rewrite calculateSleepDebt_daily in Hd. apply in_map_iff in Hd as (i & <- & _).
  rewrite dayEntry_hours. unfold hoursOn.
  destruct (find _ records) as [r'|] eqn:Hfind.
  - apply find_some in Hfind as [Hin _]. now apply Reachable_hours_positive with records.
  - apply (find_none _ _ Hfind) in Hr. rewrite <- Hdate, String.eqb_refl in Hr.
    discriminate.
Qed.

(** C10 for a night from 23:00 to 07:00 recorded on the sample Monday. *)
Lemma C10_hours_slept_positive_witness :
  let input := {| in_date := "2026-11-02"; in_bedtime := "23:00"; in_wakeTime := "07:00" |} in
  calculateHoursSlept "23:00" "23:00" = nZ 24 /\
  forall r, In r (addSleepRecord "a" input []) -> ngt (hoursSlept r) (nZ 0) = true.
Proof.
  intros input.
  assert (Hb : isHHmm "23:00" = true) by (vm_compute; reflexivity).
  assert (Hw : isHHmm "07:00" = true) by (vm_compute; reflexivity).
  assert (Hr : Reachable (addSleepRecord "a" input [])).
  { apply reach_add; [vm_compute; reflexivity | apply reach_empty]. }
  split.
  - exact (proj1 (proj2 (C10_hours_slept_positive "23:00" "23:00" 0 monday
                           (addSleepRecord "a" input []) (nZ 8) Hb Hb Hr)) eq_refl).
  - exact (proj1 (proj2 (proj2 (proj2
             (C10_hours_slept_positive "23:00" "07:00" 0 monday
                (addSleepRecord "a" input []) (nZ 8) Hb Hw Hr))))).
Defined.

End StoreInvariant.

(* ################################################################# *)
(** * The weekly average of the statistics *)

Section WeeklyAverage.

Local Open Scope string_scope.
Local Open Scope Z_scope.

(** C3 on the code: a record dated seven days before today is inside the
    filter [date >= sevenDaysAgoISO && date <= today], which therefore
    spans eight calendar days.  On Monday 2 November 2026, with 4 hours
    filed under 26 October and 8 hours under 2 November, the trailing seven
    days (27 October to 2 November) hold only the second record and their
    mean is 8; the code keeps both records and returns 6.  Records before
    the eight days and after today are left out, and a record of zero hours
    inside the window counts: 0 and 8 hours average to 4. *)
Theorem C3_week_window_evaluation :
  let records := [night "2026-10-26" (nZ 4); night "2026-11-02" (nZ 8)] in
  trailingWeek 0 monday =
    ["2026-10-27"; "2026-10-28"; "2026-10-29"; "2026-10-30"; "2026-10-31";
     "2026-11-01"; "2026-11-02"] /\
  meanOfTrailingWeek 0 monday records = nZ 8 /\
  StatsMemo.weekRecords 0 monday records = records /\
  StatsMemo.avgHoursThisWeek 0 monday records = nZ 6 /\
  StatsMemo.weekRecords 0 monday
    [night "2026-10-25" (nZ 9); night "2026-11-03" (nZ 9)] = [] /\
  StatsMemo.avgHoursThisWeek 0 monday
    [night "2026-11-01" (nZ 0); night "2026-11-02" (nZ 8)] = nZ 4.
Proof.
  intros records. repeat split; vm_compute; reflexivity.
Qed.

End WeeklyAverage.

(* ################################################################# *)
(** * Caffeine decay *)

Section CaffeineDecay.

Local Open Scope R_scope.

Lemma Rround_IZR (k : Z) : Rround (IZR k) = k.
Proof. unfold Rround. apply Zfloor_eq. lra. Qed.

Lemma Rround_nonneg (x : R) : 0 <= x -> (0 <= Rround x)%Z.
Proof. intros H. unfold Rround. apply Zfloor_lub. simpl. lra. Qed.

Lemma round1_nonneg (x : R) : 0 <= x -> 0 <= round1 x.
Proof.
  intros H. unfold round1.
  assert (Hk : (0 <= Rround (x * 10))%Z) by (apply Rround_nonneg; lra).
  apply IZR_le in Hk. lra.
Qed.

(** Rounding to one decimal twice is rounding once. *)
Lemma round1_idempotent (x : R) : round1 (round1 x) = round1 x.
Proof.
  unfold round1.
  replace (IZR (Rround (x * 10)) / 10 * 10) with (IZR (Rround (x * 10))) by lra.
  now rewrite Rround_IZR.
Qed.

Lemma Rpower_half_pos (y : R) : 0 < Rpower (1 / 2) y.
Proof. unfold Rpower. apply exp_pos. Qed.

Lemma addRemaining_contribution (atMs : Z) (total : R) (e : CaffeineEntry) :
  addRemaining atMs total e = total + contribution atMs e.
Proof.
  unfold addRemaining, contribution.
  destruct (Z.ltb_spec (atMs - timestamp e) 0) as [Hneg | Hpos];
    destruct (Z.ltb_spec atMs (timestamp e)) as [Hlt | Hge]; try lia.
  - lra.
  - f_equal. f_equal. f_equal. unfold CAFFEINE_HALF_LIFE_HOURS. lra.
Qed.

Lemma fold_addRemaining (atMs : Z) (entries : list CaffeineEntry) (total : R) :
  fold_left (addRemaining atMs) entries total
  = total + Rsum (map (contribution atMs) entries).
Proof.
  revert total. induction entries as [|e entries IH]; intros total; simpl.
  - lra.
  - rewrite IH, addRemaining_contribution. lra.
Qed.

(** The level is the sum of the contributions, rounded to one decimal. *)
Lemma calculateCaffeineLevel_sum (entries : list CaffeineEntry) (atTime : Z) :
  calculateCaffeineLevel entries atTime = round1 (Rsum (map (contribution atTime) entries)).
Proof.
  unfold calculateCaffeineLevel. rewrite fold_addRemaining.
  unfold round1. now rewrite Rplus_0_l.
Qed.

Lemma contribution_future (atMs : Z) (e : CaffeineEntry) :
  (atMs < timestamp e)%Z -> contribution atMs e = 0.
Proof.
  intros H. unfold contribution. now apply Z.ltb_lt in H as ->.
Qed.

Lemma contribution_nonneg (atMs : Z) (e : CaffeineEntry) :
  0 <= amountMg e -> 0 <= contribution atMs e.
Proof.
  intros H. unfold contribution. destruct (atMs <? timestamp e)%Z; [lra|].
  apply Rmult_le_pos; [exact H | left; apply Rpower_half_pos].
Qed.

Lemma contribution_past (atMs : Z) (e : CaffeineEntry) :
  (timestamp e <= atMs)%Z ->
  contribution atMs e
  = amountMg e * Rpower (1 / 2) (IZR (atMs - timestamp e) / 3600000 / 5).
Proof.
  intros H. unfold contribution. now apply Z.ltb_ge in H as ->.
Qed.

Lemma calculateCaffeineLevel_single (e : CaffeineEntry) (atTime : Z) :
  calculateCaffeineLevel [e] atTime = round1 (contribution atTime e).
Proof.
  rewrite calculateCaffeineLevel_sum. simpl. now rewrite Rplus_0_r.
Qed.

Lemma Rsum_nonneg (xs : list R) : Forall (fun x => 0 <= x) xs -> 0 <= Rsum xs.
Proof.
  induction 1 as [|x xs Hx _ IH]; simpl; lra.
Qed.

(** Rounding to one decimal gives a whole number of tenths half a tenth
    away at most. *)
Lemma round1_toOneDecimal (x : R) : toOneDecimal x (round1 x).
Proof.
  unfold toOneDecimal, round1, Rround.
  exists (Zfloor (x * 10 + 1 / 2)). split; [reflexivity|].
  pose proof (Zfloor_bound (x * 10 + 1 / 2)). lra.
Qed.

End CaffeineDecay.

Section CaffeineTie.

Import Floats.
Local Open Scope R_scope.
Local Set Warnings "-inexact-float".


End CaffeineTie.

Section CaffeineClaim.

Local Open Scope R_scope.



End CaffeineClaim.

(* ################################################################# *)
(** * Caffeine timeline *)

Section CaffeineTimeline.

Local Open Scope Z_scope.

Lemma timeline_unrolled tz entries ts tss :
  map timestamp entries = ts :: tss ->
  calculateCaffeineTimeline tz entries
  = map (timelinePoint entries (startOfHour tz (fold_left Z.min tss ts))) (zrange 49).
Proof.
  intros H. unfold calculateCaffeineTimeline. rewrite H. reflexivity.
Qed.

(** The fold of [Z.min] picks a least element. *)
Lemma fold_min_least (tss : list Z) (ts : Z) :
  In (fold_left Z.min tss ts) (ts :: tss) /\
  forall x, In x (ts :: tss) -> fold_left Z.min tss ts <= x.
Proof.
  revert ts. induction tss as [|t tss IH]; intros ts; simpl.
  - split; [now left|]. intros x [<- | []]. lia.
  - destruct (IH (Z.min ts t)) as [Hin Hle]. split.
    + destruct Hin as [Hin | Hin]; [|now right; right].
      rewrite <- Hin. destruct (Z.min_spec ts t) as [[_ ->] | [_ ->]]; auto.
    + intros x Hx.
      assert (Hm : fold_left Z.min tss (Z.min ts t) <= Z.min ts t)
        by (apply Hle; now left).
      destruct Hx as [<- | [<- | Hx]]; try lia.
      apply Hle. now right.
Qed.

(** [setMinutes(0, 0, 0)] goes back to the start of the local clock hour. *)
Lemma startOfHour_spec (tz t : Z) :
  localTime tz (startOfHour tz t) mod msPerHour = 0 /\
  startOfHour tz t <= t < startOfHour tz t + msPerHour.
Proof.
  unfold startOfHour, localTime.
  assert (HH : 0 < msPerHour) by (unfold msPerHour, msPerMinute; lia).
  pose proof (Z.mod_pos_bound (t + tz * msPerMinute) msPerHour HH) as Hb.
  split; [|lia].
  replace (t - (t + tz * msPerMinute) mod msPerHour + tz * msPerMinute)
    with (t + tz * msPerMinute - (t + tz * msPerMinute) mod msPerHour) by lia.
  rewrite Zminus_mod, Z.mod_mod, Z.sub_diag by lia. apply Z.mod_0_l. lia.
Qed.

Lemma timelinePoint_hour entries start i :
  hour (timelinePoint entries start i) = (IZR i / 2)%R.
Proof.
  unfold timelinePoint. cbn [hour].
  replace (IZR i * (1 / 2) * 100)%R with (IZR (50 * i)) by (rewrite mult_IZR; lra).
  rewrite Rround_IZR, mult_IZR. lra.
Qed.

Lemma timelinePoint_level entries start i :
  level (timelinePoint entries start i)
  = calculateCaffeineLevel entries (start + i * 30 * 60 * 1000).
Proof.
  unfold timelinePoint. cbn [level]. fold (round1 (calculateCaffeineLevel entries
    (start + i * 30 * 60 * 1000))).
  rewrite calculateCaffeineLevel_sum. apply round1_idempotent.
Qed.

Lemma zrange_nth (n : nat) (i : nat) : (i < n)%nat -> nth i (zrange n) 0 = Z.of_nat i.
Proof.
  intros H. unfold zrange.
  change 0 with (Z.of_nat 0). rewrite map_nth, seq_nth by assumption. reflexivity.
Qed.



End CaffeineTimeline.

(* ################################################################# *)
(** * Circular mean *)

Section CircularMeanOfTwo.

Local Open Scope string_scope.
Local Open Scope R_scope.

Lemma Q2R_inject_Z (z : Z) : Q2R (inject_Z z) = IZR z.
Proof. unfold Q2R, inject_Z. simpl. lra. Qed.

(** The angle of 00:30 is a 48th of the circle, that of 23:30 its
    opposite. *)
Lemma angle_0030 : 30 / 1440 * 2 * PI = PI / 24.
Proof. lra. Qed.

Lemma angle_2330 : 1410 / 1440 * 2 * PI = 2 * PI - PI / 24.
Proof. lra. Qed.

Lemma sin_opposite (a : R) : sin (2 * PI - a) = - sin a.
Proof. rewrite sin_minus, sin_2PI, cos_2PI. lra. Qed.

Lemma cos_opposite (a : R) : cos (2 * PI - a) = cos a.
Proof. rewrite cos_minus, sin_2PI, cos_2PI. lra. Qed.

Lemma cos_48th_pos : 0 < cos (PI / 24).
Proof. pose proof PI_RGT_0. apply cos_gt_0; lra. Qed.

Lemma atan2_zero_pos (x : R) : 0 < x -> atan2 0 x = 0.
Proof.
  intros Hx. unfold atan2. destruct (Rlt_dec 0 x) as [_ | Hn]; [|contradiction].
  replace (0 / x) with 0 by (field; lra). apply atan_0.
Qed.

Lemma Rround_zero : Rround 0 = 0%Z.
Proof. apply (Rround_IZR 0). Qed.

(** C8: the circular mean of 23:30 and 00:30 is 00:00, where the
    arithmetic mean of their minutes is 12:00.  The sines of the two
    angles cancel, the cosines add up to a positive number, so [atan2]
    gives the angle 0, which is minute 0 of the day. *)
Theorem C8_circular_mean_midnight :
  averageTimeStr ["23:30"; "00:30"] = "00:00" /\
  clock ((23 * 60 + 30 + (0 * 60 + 30)) / 2) = "12:00".
Proof.
  split; [|vm_compute; reflexivity].
  assert (H1 : timeToMinutes "23:30" = nZ 1410) by (vm_compute; reflexivity).
  assert (H2 : timeToMinutes "00:30" = nZ 30) by (vm_compute; reflexivity).
  unfold averageTimeStr.
  cbn [length Nat.eqb map fold_left]. rewrite H1, H2.
  unfold toReal, nZ. rewrite !Q2R_inject_Z.
  cbn [omap olift2 option_map].
  rewrite angle_0030, angle_2330, sin_opposite, cos_opposite.
  replace (0 + - sin (PI / 24) + sin (PI / 24)) with 0 by lra.
  replace ((0 + cos (PI / 24) + cos (PI / 24)) / INR 2) with (cos (PI / 24))
    by (simpl; lra).
  replace (0 / INR 2) with 0 by (simpl; lra).
  rewrite (atan2_zero_pos _ cos_48th_pos).
  destruct (Rlt_dec 0 0) as [Habs | _]; [lra|].
  replace (0 / (2 * PI) * 1440) with 0 by (pose proof PI_RGT_0; field; lra).
  rewrite Rround_zero. vm_compute. reflexivity.
Qed.

(** A mean that rounds to minute 1440, one rounding step below the full
    circle, prints as 00:00 as well: [padTime] wraps the hour 24. *)
Remark full_circle_prints_midnight :
  padTime (nZ (1440 / 60)) (nZ (Z.rem 1440 60)) = "00:00".
Proof. vm_compute. reflexivity. Qed.

End CircularMeanOfTwo.

(* ################################################################# *)
(** * Tip engine *)

Section TipEngine.

Local Open Scope string_scope.
Local Open Scope Z_scope.

Lemma filter_nonempty_existsb {A : Type} (p : A -> bool) (l : list A) :
  (0 <? length (filter p l))%nat = existsb p l.
Proof.
  induction l as [|x l IH]; simpl; [reflexivity|].
  destruct (p x); simpl; [reflexivity | exact IH].
Qed.

(** The source pushes tip after tip; the result is the cascade cut after
    eight tips. *)
Lemma generateSleepTips_cascade tz now stats entries :
  generateSleepTips tz now stats entries = firstn 8 (cascade tz now stats entries).
Proof.
  unfold generateSleepTips, cascade, caffeineRule, debtRule, when, lateCaffeineToday.
  rewrite filter_nonempty_existsb.
  destruct (Rlt_dec 200 (currentCaffeineMg stats));
    destruct (Rlt_dec 100 (currentCaffeineMg stats));
    destruct (ngt (totalDebtHours stats) (nZ 10));
    destruct (ngt (totalDebtHours stats) (nZ 5));
    destruct (ngt (avgHoursThisWeek stats) (nZ 0) && nlt (avgHoursThisWeek stats) (nZ 6));
    destruct (3 <=? totalRecords stats);
    destruct (existsb (isEveningEntry tz now) entries);
    destruct (ngt (nsub (longestSleep stats) (shortestSleep stats)) (nZ 3)
              && ngt (shortestSleep stats) (nZ 0));
    reflexivity.
Qed.

Lemma cascade_titles_in_order tz now stats entries :
  is_subseq (map title (cascade tz now stats entries)) titlesInOrder = true.
Proof.
  unfold cascade, caffeineRule, debtRule, when.
  destruct (Rlt_dec 200 (currentCaffeineMg stats));
    destruct (Rlt_dec 100 (currentCaffeineMg stats));
    destruct (ngt (totalDebtHours stats) (nZ 10));
    destruct (ngt (totalDebtHours stats) (nZ 5));
    destruct (ngt (avgHoursThisWeek stats) (nZ 0) && nlt (avgHoursThisWeek stats) (nZ 6));
    destruct (3 <=? totalRecords stats);
    destruct (lateCaffeineToday tz now entries);
    destruct (ngt (nsub (longestSleep stats) (shortestSleep stats)) (nZ 3)
              && ngt (shortestSleep stats) (nZ 0));
    reflexivity.
Qed.

Lemma tips_titles_in_order tz now stats entries :
  is_subseq (map title (generateSleepTips tz now stats entries)) titlesInOrder = true.
Proof.
  rewrite generateSleepTips_cascade.
  unfold cascade, caffeineRule, debtRule, when.
  split_rules tz now stats entries; reflexivity.
Qed.

(** The high-caffeine warning is among the tips exactly above 200 mg. *)
Lemma high_caffeine_tip_iff tz now stats entries :
  In highCaffeineTitle (map title (generateSleepTips tz now stats entries))
  <-> (200 < currentCaffeineMg stats)%R.
Proof.
  rewrite generateSleepTips_cascade.
  unfold cascade, caffeineRule, debtRule, when, highCaffeineTitle.
  split.
  - split_rules tz now stats entries; try (intros _; assumption);
      cbn [app firstn map title highCaffeineTip moderateCaffeineTip severeDebtTip
           moderateDebtTip shortSleepTip regularBedtimeTip lateCaffeineTip blueLightTip
           roomTemperatureTip variabilityTip exerciseTip mealTip In];
      intros H; exfalso; repeat (destruct H as [H | H]; [discriminate H|]); exact H.
  - intros H. destruct (Rlt_dec 200 (currentCaffeineMg stats)); [|contradiction].
    now left.
Qed.

(** The moderate-caffeine warning is among the tips exactly above 100 mg
    and up to 200 mg. *)
Lemma moderate_caffeine_tip_iff tz now stats entries :
  In moderateCaffeineTitle (map title (generateSleepTips tz now stats entries))
  <-> (~ 200 < currentCaffeineMg stats /\ 100 < currentCaffeineMg stats)%R.
Proof.
  rewrite generateSleepTips_cascade.
  unfold cascade, caffeineRule, debtRule, when, moderateCaffeineTitle.
  split.
  - split_rules tz now stats entries; try (intros _; split; assumption);
      cbn [app firstn map title highCaffeineTip moderateCaffeineTip severeDebtTip
           moderateDebtTip shortSleepTip regularBedtimeTip lateCaffeineTip blueLightTip
           roomTemperatureTip variabilityTip exerciseTip mealTip In];
      intros H; exfalso; repeat (destruct H as [H | H]; [discriminate H|]); exact H.
  - intros [Hn H]. destruct (Rlt_dec 200 (currentCaffeineMg stats)); [contradiction|].
    destruct (Rlt_dec 100 (currentCaffeineMg stats)); [|contradiction].
    now left.
Qed.

(** C9: the tips are the rule cascade in its fixed order, cut after the
    first eight: never more than eight, the titles in generation order,
    and of the high-caffeine (above 200 mg) and moderate-caffeine (above
    100 mg) warnings at most one. *)
Theorem C9_tip_cascade (tz now : Z) (stats : SleepStats) (entries : list CaffeineEntry) :
  let tips := generateSleepTips tz now stats entries in
  tips = firstn 8 (cascade tz now stats entries) /\
  (length tips <= 8)%nat /\
  is_subseq (map title tips) titlesInOrder = true /\
  (In highCaffeineTitle (map title tips) <-> (200 < currentCaffeineMg stats)%R) /\
  (In moderateCaffeineTitle (map title tips)
   <-> (~ 200 < currentCaffeineMg stats /\ 100 < currentCaffeineMg stats)%R) /\
  ~ (In highCaffeineTitle (map title tips) /\ In moderateCaffeineTitle (map title tips)).
Proof.
  intros tips. unfold tips.
  split; [apply generateSleepTips_cascade|].
  split; [rewrite generateSleepTips_cascade; apply firstn_le_length|].
  split; [apply tips_titles_in_order|].
  split; [apply high_caffeine_tip_iff|].
  split; [apply moderate_caffeine_tip_iff|].
  intros [Hhigh Hmod].
  apply high_caffeine_tip_iff in Hhigh. apply moderate_caffeine_tip_iff in Hmod.
  tauto.
Qed.

End TipEngine.

(* ################################################################# *)
(** * Determinism of the engine *)

Section Determinism.

Local Open Scope string_scope.
Local Open Scope Z_scope.

Lemma getDay_setDate tz t n :
  getDay tz (setDate tz t n) = (dayNumber tz t + (n - getDate tz t) + 4) mod 7.
Proof. unfold getDay. now rewrite dayNumber_setDate. Qed.

(** An entry of the debt report depends on the clock only through the
    number of the local calendar day. *)
Lemma dayEntry_same_day tz1 t1 tz2 t2 records rec i :
  dayNumber tz1 t1 = dayNumber tz2 t2 ->
  dayEntry tz1 t1 records rec i = dayEntry tz2 t2 records rec i.
Proof.
  intros H. unfold dayEntry.
  rewrite !dateStr_days_before, !getDay_setDate, H.
  replace (dayNumber tz2 t2 + (getDate tz1 t1 - i - getDate tz1 t1) + 4)
    with (dayNumber tz2 t2 + (getDate tz2 t2 - i - getDate tz2 t2) + 4) by lia.
  reflexivity.
Qed.

Lemma calculateSleepDebt_same_day tz1 t1 tz2 t2 records rec :
  dayNumber tz1 t1 = dayNumber tz2 t2 ->
  calculateSleepDebt tz1 t1 records rec = calculateSleepDebt tz2 t2 records rec.
Proof.
  intros H. unfold calculateSleepDebt. cbn [for_loop Z.leb Z.compare Z.sub Z.add Z.opp
    Z.pos_sub Pos.pred_double Pos.compare Pos.compare_cont app].
  now rewrite !(dayEntry_same_day tz1 t1 tz2 t2 records rec _ H).
Qed.

Lemma toDateString_same_day tz1 t1 tz2 t2 :
  dayNumber tz1 t1 = dayNumber tz2 t2 -> toDateString tz1 t1 = toDateString tz2 t2.
Proof.
  intros H. unfold toDateString, getDay, getMonth, getDate, getFullYear. now rewrite H.
Qed.

Lemma existsb_pointwise {A : Type} (f g : A -> bool) (l : list A) :
  (forall a, f a = g a) -> existsb f l = existsb g l.
Proof.
  intros H. induction l as [|a l IH]; simpl; [reflexivity|]. now rewrite H, IH.
Qed.

Lemma generateSleepTips_same_day tz t1 t2 stats entries :
  dayNumber tz t1 = dayNumber tz t2 ->
  generateSleepTips tz t1 stats entries = generateSleepTips tz t2 stats entries.
Proof.
  intros H. rewrite !generateSleepTips_cascade. f_equal.
  assert (E : existsb (isEveningEntry tz t1) entries
              = existsb (isEveningEntry tz t2) entries).
  { apply existsb_pointwise. intros e. unfold isEveningEntry.
    now rewrite (toDateString_same_day tz t1 tz t2 H). }
  unfold cascade, lateCaffeineToday. now rewrite E.
Qed.

(** C4, as stated, fails: the same call of [calculateSleepDebt], without
    records and with 8 recommended hours, returns another report on
    Tuesday than on Monday. *)
Lemma C4_determinism_counterexample :
  run mondayEnv (CallSleepDebt [] (nZ 8)) <> run tuesdayEnv (CallSleepDebt [] (nZ 8)).
Proof.
  intros H.
  apply (f_equal (fun o => match o with
                           | OutSleepDebt r => map day (daily r)
                           | _ => []
                           end)) in H.
  vm_compute in H. discriminate H.
Qed.

(** C4, amended: a call is determined by its explicit arguments together
    with what it reads of the environment.  [calculateOptimalTimes], and
    [calculateCaffeineLevel] given its query instant, read nothing;
    [calculateCaffeineLevel] without it reads the clock,
    [calculateCaffeineTimeline] the time zone, [calculateSleepDebt] the
    local calendar day, [generateSleepTips] that day and the time zone. *)
Theorem C4_determinism (c : Call) (e1 e2 : Env) :
  sameReading c e1 e2 -> run e1 c = run e2 c.
Proof.
  destruct c as [targetTime mode | entries [atTime|] | entries | records rec | stats entries];
    cbn [run sameReading]; intros H.
  - reflexivity.
  - reflexivity.
  - now rewrite H.
  - now rewrite H.
  - apply (f_equal OutSleepDebt). now apply calculateSleepDebt_same_day.
  - destruct H as [Htz Hday]. apply (f_equal OutSleepTips). rewrite Htz in *.
    now apply generateSleepTips_same_day.
Qed.

(** C4 on a call that reads nothing, in two environments, and on the debt
    report at two instants of the same Monday. *)
Lemma C4_determinism_witness :
  run mondayEnv (CallOptimalTimes "07:00" bedtimeMode)
    = run tuesdayEnv (CallOptimalTimes "07:00" bedtimeMode) /\
  run mondayEnv (CallSleepDebt [night "2026-11-02" (nZ 5)] (nZ 8))
    = run mondayNightEnv (CallSleepDebt [night "2026-11-02" (nZ 5)] (nZ 8)).
Proof.
  split.
  - apply (C4_determinism (CallOptimalTimes "07:00" bedtimeMode)). exact I.
  - apply (C4_determinism (CallSleepDebt [night "2026-11-02" (nZ 5)] (nZ 8))).
    vm_compute. reflexivity.
Defined.

End Determinism.

(* ################################################################# *)
(** * Further properties: clock arithmetic *)

Section ClockArithmetic.

Local Open Scope string_scope.
Local Open Scope Z_scope.

Lemma clock_hhmm (h m : Z) : 0 <= h < 24 -> 0 <= m < 60 -> clock (h * 60 + m) = hhmm h m.
Proof.
  intros Hh Hm. unfold clock.
  rewrite Z.add_comm, Z.div_add, Z.mod_add, Z.div_small, Z.mod_small by lia.
  reflexivity.
Qed.

Lemma clock_parts (w : Z) :
  0 <= w < 1440 -> 0 <= w / 60 < 24 /\ 0 <= w mod 60 < 60 /\ w / 60 * 60 + w mod 60 = w.
Proof.
  intros Hw. split; [|split].
  - split; [apply Z.div_pos; lia | apply Z.div_lt_upper_bound; lia].
  - apply Z.mod_pos_bound. lia.
  - pose proof (Z.div_mod w 60). lia.
Qed.

Lemma isHHmm_clock (w : Z) : 0 <= w < 1440 -> isHHmm (clock w) = true.
Proof.
  intros Hw. destruct (clock_parts w Hw) as (Hh & Hm & _).
  apply isHHmm_spec. exists (w / 60), (w mod 60). now repeat split.
Qed.

Lemma addMinutesToTime_clock (w d : Z) :
  0 <= w < 1440 -> addMinutesToTime (clock w) (nZ d) = clock ((w + d) mod 1440).
Proof.
  intros Hw. destruct (clock_parts w Hw) as (Hh & Hm & Hsum).
  unfold clock at 1. rewrite addMinutesToTime_hhmm by assumption. now rewrite Hsum.
Qed.

Lemma subtractMinutesFromTime_clock (w d : Z) :
  0 <= w < 1440 -> subtractMinutesFromTime (clock w) (nZ d) = clock ((w - d) mod 1440).
Proof.
  intros Hw. unfold subtractMinutesFromTime. rewrite nneg_nZ.
  now rewrite addMinutesToTime_clock.
Qed.

(** A valid HH:mm string is the clock of its minute of the day. *)
Lemma isHHmm_minute (t : string) :
  isHHmm t = true -> exists w, 0 <= w < 1440 /\ t = clock w.
Proof.
  intros H. apply isHHmm_spec in H as (h & m & Hh & Hm & ->).
  exists (h * 60 + m). split; [lia|]. symmetry. now apply clock_hhmm.
Qed.

Lemma add_subtract_round_trip (t : string) (d : Z) :
  isHHmm t = true ->
  addMinutesToTime (subtractMinutesFromTime t (nZ d)) (nZ d) = t /\
  subtractMinutesFromTime (addMinutesToTime t (nZ d)) (nZ d) = t.
Proof.
  intros H. apply isHHmm_minute in H as (w & Hw & ->).
  assert (Hm : forall x, 0 <= x mod 1440 < 1440) by (intros; apply Z.mod_pos_bound; lia).
  split.
  - rewrite subtractMinutesFromTime_clock, addMinutesToTime_clock by auto.
    rewrite Zplus_mod_idemp_l. replace (w - d + d) with w by lia.
    now rewrite Z.mod_small.
  - rewrite addMinutesToTime_clock, subtractMinutesFromTime_clock by auto.
    rewrite Zminus_mod_idemp_l. replace (w + d - d) with w by lia.
    now rewrite Z.mod_small.
Qed.

(** X1: taking minutes off a valid clock time and adding them back, or
    the other way round, gives the time again, across midnight too, for
    every whole number of minutes that keeps the sums within the whole
    numbers binary64 holds (below 2^53). *)
Theorem X1_add_subtract_round_trip (t : string) (d : Z) :
  isHHmm t = true ->
  safeMinutes d ->
  addMinutesToTime (subtractMinutesFromTime t (nZ d)) (nZ d) = t /\
  subtractMinutesFromTime (addMinutesToTime t (nZ d)) (nZ d) = t.
Proof. intros Ht _. now apply add_subtract_round_trip. Qed.

(** X1 on 00:10 and 25 minutes: back over midnight. *)
Lemma X1_add_subtract_round_trip_witness :
  addMinutesToTime (subtractMinutesFromTime "00:10" (nZ 25)) (nZ 25) = "00:10".
Proof.
  refine (proj1 (X1_add_subtract_round_trip "00:10" 25 _ _)).
  - vm_compute. reflexivity.
  - unfold safeMinutes, MAX_SAFE_INTEGER. simpl. lia.
Defined.

(** X2: adding any whole number of minutes, negative or beyond a day, to
    a valid clock time gives a valid clock time. *)
Theorem X2_add_minutes_valid (t : string) (d : Z) :
  isHHmm t = true ->
  isHHmm (addMinutesToTime t (nZ d)) = true /\
  isHHmm (subtractMinutesFromTime t (nZ d)) = true.
Proof.
  intros H. apply isHHmm_minute in H as (w & Hw & ->).
  rewrite addMinutesToTime_clock, subtractMinutesFromTime_clock by assumption.
  split; apply isHHmm_clock; apply Z.mod_pos_bound; lia.
Qed.

(** X2 on 23:50 and three days and twenty minutes. *)
Lemma X2_add_minutes_valid_witness :
  isHHmm (addMinutesToTime "23:50" (nZ 4340)) = true.
Proof.
  refine (proj1 (X2_add_minutes_valid "23:50" 4340 _)). vm_compute. reflexivity.
Defined.

(** X3: adding minutes in two steps is adding their sum, and adding whole
    days changes nothing, for whole numbers of minutes that keep every sum
    within the whole numbers binary64 holds (below 2^53). *)
Theorem X3_add_minutes_compose (t : string) (a b k : Z) :
  isHHmm t = true ->
  safeMinutes a -> safeMinutes b -> safeMinutes (a + b) -> safeMinutes (1440 * k) ->
  addMinutesToTime (addMinutesToTime t (nZ a)) (nZ b) = addMinutesToTime t (nZ (a + b)) /\
  addMinutesToTime t (nZ (1440 * k)) = t.
Proof.
  intros H _ _ _ _. apply isHHmm_minute in H as (w & Hw & ->).
  split.
  - rewrite !addMinutesToTime_clock by (try apply Z.mod_pos_bound; lia).
    rewrite Zplus_mod_idemp_l. f_equal. f_equal. lia.
  - rewrite addMinutesToTime_clock by assumption.
    replace (w + 1440 * k) with (w + k * 1440) by lia.
    rewrite Z.mod_add, Z.mod_small by lia. reflexivity.
Qed.

(** X3 on 22:30: 45 and 60 minutes, and two whole days. *)
Lemma X3_add_minutes_compose_witness :
  addMinutesToTime (addMinutesToTime "22:30" (nZ 45)) (nZ 60)
    = addMinutesToTime "22:30" (nZ 105) /\
  addMinutesToTime "22:30" (nZ 2880) = "22:30".
Proof.
  apply (X3_add_minutes_compose "22:30" 45 60 2);
    [vm_compute; reflexivity | unfold safeMinutes, MAX_SAFE_INTEGER; simpl; lia ..].
Defined.

End ClockArithmetic.

(* ################################################################# *)
(** * Further properties: hours slept and sleep cycles *)

Section HoursAndCycles.

Local Open Scope string_scope.
Local Open Scope Z_scope.

Lemma timeToMinutes_clock (w : Z) : 0 <= w < 1440 -> timeToMinutes (clock w) = nZ w.
Proof.
  intros Hw. destruct (clock_parts w Hw) as (Hh & Hm & Hsum).
  unfold clock. rewrite timeToMinutes_hhmm by assumption. now rewrite Hsum.
Qed.

(** Hours slept from minute [b] to minute [w] of the day. *)
Lemma calculateHoursSlept_clock (b w : Z) :
  0 <= b < 1440 -> 0 <= w < 1440 ->
  calculateHoursSlept (clock b) (clock w)
  = fin (inject_Z ((200 * ((if w <=? b then w + 1440 else w) - b) + 60) / 120)
         / inject_Z 100).
Proof.
  intros Hb Hw. unfold calculateHoursSlept.
  rewrite !timeToMinutes_clock by assumption. rewrite nle_nZ.
  replace (nsub (if w <=? b then nadd (nZ w) (nZ (24 * 60)) else nZ w) (nZ b))
    with (nZ ((if w <=? b then w + 1440 else w) - b)).
  - apply (round2_ratio _ 60). lia.
  - destruct (w <=? b); now rewrite ?nadd_nZ, nsub_nZ.
Qed.

Lemma nadd_fin_hundredths (k1 k2 n : Z) :
  k1 + k2 = 100 * n ->
  nadd (fin (inject_Z k1 / inject_Z 100)) (fin (inject_Z k2 / inject_Z 100)) = nZ n.
Proof.
  intros H. unfold fin at 1 2. unfold nadd. apply fin_inject_Z.
  rewrite !Qred_correct.
  unfold Qeq, Qplus, Qdiv, Qmult, Qinv, inject_Z. simpl. lia.
Qed.

(** X4: between two different valid clock times, the hours from the first
    to the second and the hours from the second back to the first add up
    to 24 exactly, the rounding to two decimals notwithstanding. *)
Theorem X4_hours_slept_complement (bed wake : string) :
  isHHmm bed = true -> isHHmm wake = true -> bed <> wake ->
  nadd (calculateHoursSlept bed wake) (calculateHoursSlept wake bed) = nZ 24.
Proof.
  intros Hb Hw Hne.
  apply isHHmm_minute in Hb as (b & Hb & ->).
  apply isHHmm_minute in Hw as (w & Hw & ->).
  assert (Hbw : b <> w) by (intros ->; now apply Hne).
  rewrite !calculateHoursSlept_clock by assumption.
  apply nadd_fin_hundredths.
  destruct (Z.leb_spec w b), (Z.leb_spec b w); try lia;
    Z.div_mod_to_equations; lia.
Qed.

(** X4 on 23:10 and 06:45. *)
Lemma X4_hours_slept_complement_witness :
  nadd (calculateHoursSlept "23:10" "06:45") (calculateHoursSlept "06:45" "23:10") = nZ 24.
Proof.
  apply X4_hours_slept_complement;
    [vm_compute; reflexivity | vm_compute; reflexivity | discriminate].
Defined.

Lemma candidate_time_bedtime (t : string) (c : Z) :
  time (candidate t bedtimeMode c) = subtractMinutesFromTime t (nZ (c * 90 + 15)).
Proof. reflexivity. Qed.

Lemma candidate_time_wakeup (t : string) (c : Z) :
  time (candidate t wakeupMode c) = addMinutesToTime t (nZ (c * 90 + 15)).
Proof. reflexivity. Qed.

Lemma cycle_counts_same (c : Z) : In c [6; 5; 4; 3; 2; 1] <-> In c [1; 2; 3; 4; 5; 6].
Proof. simpl. intuition. Qed.

(** X5: the two modes undo each other.  A bedtime proposed for a wake-up
    time, entered as bedtime, gets that wake-up time back as the proposal
    with the same number of cycles, and the other way round. *)
Theorem X5_modes_inverse (t : string) :
  isHHmm t = true ->
  (forall o, In o (calculateOptimalTimes t bedtimeMode) ->
     exists o', In o' (calculateOptimalTimes (time o) wakeupMode) /\
                cycles o' = cycles o /\ time o' = t) /\
  (forall o, In o (calculateOptimalTimes t wakeupMode) ->
     exists o', In o' (calculateOptimalTimes (time o) bedtimeMode) /\
                cycles o' = cycles o /\ time o' = t).
Proof.
  intros Ht. split; intros o Hin.
  - rewrite calculateOptimalTimes_bedtime in Hin.
    apply in_map_iff in Hin as (c & <- & Hc).
    exists (candidate (time (candidate t bedtimeMode c)) wakeupMode c).
    split; [|split; [reflexivity|]].
    + rewrite calculateOptimalTimes_wakeup. apply in_map.
      now apply cycle_counts_same.
    + rewrite candidate_time_wakeup, candidate_time_bedtime.
      exact (proj1 (add_subtract_round_trip t (c * 90 + 15) Ht)).
  - rewrite calculateOptimalTimes_wakeup in Hin.
    apply in_map_iff in Hin as (c & <- & Hc).
    exists (candidate (time (candidate t wakeupMode c)) bedtimeMode c).
    split; [|split; [reflexivity|]].
    + rewrite calculateOptimalTimes_bedtime. apply in_map.
      now apply cycle_counts_same.
    + rewrite candidate_time_bedtime, candidate_time_wakeup.
      exact (proj2 (add_subtract_round_trip t (c * 90 + 15) Ht)).
Qed.

(** X5 on the wake-up time 07:00 and its six-cycle bedtime 21:45. *)
Lemma X5_modes_inverse_witness :
  exists o', In o' (calculateOptimalTimes "21:45" wakeupMode) /\
             cycles o' = 6 /\ time o' = "07:00".
Proof.
  assert (H : isHHmm "07:00" = true) by (vm_compute; reflexivity).
  exact (proj1 (X5_modes_inverse "07:00" H) (candidate "07:00" bedtimeMode 6)
               (or_introl eq_refl)).
Defined.

(** ** The highlighted candidate *)

Lemma qualityOrder_positive (q : Quality) : 1 <= qualityOrder q.
Proof. destruct q; simpl; lia. Qed.

(** The state of the [forEach] of [bestQualityIndex] after the elements
    [l], which have the indices from [k] on: it is unchanged when no
    element beats the score so far, and otherwise holds the first element
    of the highest score. *)
Lemma fold_bestStep (l : list OptimalTime) (k bi bs : Z) :
  let st := fold_left bestStep (indexed k l) (bi, bs) in
  (st = (bi, bs) /\ forall r, In r l -> qualityOrder (quality r) <= bs) \/
  (bs < snd st /\ k <= fst st < k + Z.of_nat (length l) /\
   exists r, nth_error l (Z.to_nat (fst st - k)) = Some r /\
     qualityOrder (quality r) = snd st /\
     (forall r', In r' l -> qualityOrder (quality r') <= snd st) /\
     (forall j r', (j < Z.to_nat (fst st - k))%nat -> nth_error l j = Some r' ->
        qualityOrder (quality r') < snd st)).
Proof.
  revert k bi bs. induction l as [|x l IH]; intros k bi bs; cbn [indexed fold_left];
    cbv zeta.
  - left. split; [reflexivity|]. intros r [].
  - change (bestStep (bi, bs) (x, k))
      with (if bs <? qualityOrder (quality x) then (k, qualityOrder (quality x))
            else (bi, bs)).
    destruct (Z.ltb_spec bs (qualityOrder (quality x))) as [Hlt | Hge].
    + right. pose proof (IH (k + 1) k (qualityOrder (quality x))) as H. cbv zeta in H.
      set (st := fold_left bestStep (indexed (k + 1) l) (k, qualityOrder (quality x))) in *.
      destruct H as [[Hst Hall] | Himp].
      * rewrite Hst. cbn [fst snd length]. split; [exact Hlt|]. split; [lia|].
        exists x. replace (Z.to_nat (k - k)) with O by lia.
        split; [reflexivity|]. split; [reflexivity|]. split.
        -- intros r' [<- | Hin]; [lia | now apply Hall].
        -- intros j r' Hj. lia.
      * destruct Himp as (Hs & Hi & r & Hnth & Hr & Hall & Hbefore).
        cbn [length]. split; [lia|]. split; [lia|].
        exists r. replace (Z.to_nat (fst st - k)) with (S (Z.to_nat (fst st - (k + 1)))) by lia.
        split; [exact Hnth|]. split; [exact Hr|]. split.
        -- intros r' [<- | Hin]; [lia | now apply Hall].
        -- intros [|j] r' Hj Hn; cbn [nth_error] in Hn.
           ++ injection Hn as <-. lia.
           ++ apply (Hbefore j r'); [lia | exact Hn].
    + pose proof (IH (k + 1) bi bs) as H. cbv zeta in H.
      set (st := fold_left bestStep (indexed (k + 1) l) (bi, bs)) in *.
      destruct H as [[Hst Hall] | Himp].
      * left. split; [exact Hst|]. intros r [<- | Hin]; [lia | now apply Hall].
      * right. destruct Himp as (Hs & Hi & r & Hnth & Hr & Hall & Hbefore).
        cbn [length]. split; [exact Hs|]. split; [lia|].
        exists r. replace (Z.to_nat (fst st - k)) with (S (Z.to_nat (fst st - (k + 1)))) by lia.
        split; [exact Hnth|]. split; [exact Hr|]. split.
        -- intros r' [<- | Hin]; [lia | now apply Hall].
        -- intros [|j] r' Hj Hn; cbn [nth_error] in Hn.
           ++ injection Hn as <-. lia.
           ++ apply (Hbefore j r'); [lia | exact Hn].
Qed.

(** X6: on a list of candidates that is not empty, [bestQualityIndex] is
    the index of the first candidate of the highest quality: no candidate
    has a higher one and every earlier candidate has a lower one.  On the
    empty list it is -1. *)
Theorem X6_best_index_first_maximum (results : list OptimalTime) :
  results <> [] ->
  bestQualityIndex [] = -1 /\
  let i := bestQualityIndex results in
  0 <= i < Z.of_nat (length results) /\
  exists r, nth_error results (Z.to_nat i) = Some r /\
    (forall r', In r' results -> qualityOrder (quality r') <= qualityOrder (quality r)) /\
    (forall j r', (j < Z.to_nat i)%nat -> nth_error results j = Some r' ->
       qualityOrder (quality r') < qualityOrder (quality r)).
Proof.
  intros Hne. split; [reflexivity|].
  unfold bestQualityIndex.
  destruct results as [|x l]; [contradiction|].
  cbn [length Nat.eqb].
  pose proof (fold_bestStep (x :: l) 0 0 0) as H. cbv zeta in H.
  set (st := fold_left bestStep (indexed 0 (x :: l)) (0, 0)) in *.
  destruct H as [[_ Hall] | Himp].
  - pose proof (Hall x (or_introl eq_refl)). pose proof (qualityOrder_positive (quality x)). lia.
  - destruct Himp as (_ & Hi & r & Hnth & Hr & Hall & Hbefore).
    rewrite Z.sub_0_r in Hnth, Hbefore.
    split; [cbn [length] in *; lia|].
    exists r. split; [exact Hnth|]. rewrite Hr. split; assumption.
Qed.

(** X6 on the six wake times proposed for 23:00. *)
Lemma X6_best_index_first_maximum_witness :
  0 <= bestQualityIndex (calculateOptimalTimes "23:00" wakeupMode) < 6.
Proof.
  refine (proj1 (proj2 (X6_best_index_first_maximum
                          (calculateOptimalTimes "23:00" wakeupMode) _))).
  rewrite calculateOptimalTimes_wakeup. discriminate.
Defined.

(** X7: whatever the target time, the calculator highlights the first
    entry toward bedtime, the bedtime six cycles before waking, and the
    fifth entry toward wake-up, the wake time after five cycles. *)
Theorem X7_highlighted_candidate (t : string) :
  bestQualityIndex (calculateOptimalTimes t bedtimeMode) = 0 /\
  nth_error (map cycles (calculateOptimalTimes t bedtimeMode)) 0 = Some 6 /\
  bestQualityIndex (calculateOptimalTimes t wakeupMode) = 4 /\
  nth_error (map cycles (calculateOptimalTimes t wakeupMode)) 4 = Some 5.
Proof.
  rewrite calculateOptimalTimes_bedtime, calculateOptimalTimes_wakeup.
  repeat split; reflexivity.
Qed.

End HoursAndCycles.

(* ################################################################# *)
(** * Further properties: the debt report *)

Section DebtReport.

Local Open Scope string_scope.
Local Open Scope Z_scope.

(** An entry of the report in terms of the hours filed under its key. *)
Lemma dayEntry_hoursOn tz today records rec i :
  dayEntry tz today records rec i =
  {| day := dateOfDay (dayNumber tz today - i);
     dayLabel := dayLabel (dayEntry tz today [] rec i);
     dayHours := hoursOn records (dateOfDay (dayNumber tz today - i));
     debt := nmax (nZ 0) (nsub rec (hoursOn records (dateOfDay (dayNumber tz today - i)))) |}.
Proof.
  unfold dayEntry, hoursOn. cbn [dayLabel]. now rewrite dateStr_days_before.
Qed.

Lemma dayEntry_debt_hoursOn tz today records rec i :
  debt (dayEntry tz today records rec i) =
  nmax (nZ 0) (nsub rec (hoursOn records (dateOfDay (dayNumber tz today - i)))).
Proof. now rewrite dayEntry_hoursOn. Qed.

(** The report is built from the seven entries. *)
Lemma calculateSleepDebt_ext tz1 t1 records1 rec1 tz2 t2 records2 rec2 :
  (forall i, In i [6; 5; 4; 3; 2; 1; 0] ->
     dayEntry tz1 t1 records1 rec1 i = dayEntry tz2 t2 records2 rec2 i) ->
  calculateSleepDebt tz1 t1 records1 rec1 = calculateSleepDebt tz2 t2 records2 rec2.
Proof.
  intros H. unfold calculateSleepDebt. cbn [for_loop Z.leb Z.compare Z.sub Z.add Z.opp
    Z.pos_sub Pos.pred_double Pos.compare Pos.compare_cont app].
  rewrite (H 6), (H 5), (H 4), (H 3), (H 2), (H 1), (H 0) by (simpl; tauto).
  reflexivity.
Qed.

(** The report reads the records only through the hours filed under the
    seven keys of the window. *)
Lemma calculateSleepDebt_hoursOn tz today records1 records2 rec :
  (forall key, In key (trailingWeek tz today) -> hoursOn records1 key = hoursOn records2 key) ->
  calculateSleepDebt tz today records1 rec = calculateSleepDebt tz today records2 rec.
Proof.
  intros H. apply calculateSleepDebt_ext. intros i Hi.
  rewrite (dayEntry_hoursOn tz today records1), (dayEntry_hoursOn tz today records2).
  rewrite (H (dateOfDay (dayNumber tz today - i))); [reflexivity|].
  unfold trailingWeek. now apply (in_map (fun i => dateOfDay (dayNumber tz today - i))).
Qed.

Lemma find_app {A : Type} (f : A -> bool) (l1 l2 : list A) :
  find f (l1 ++ l2)%list = match find f l1 with
                           | Some x => Some x
                           | None => find f l2
                           end.
Proof.
  induction l1 as [|x l1 IH]; simpl; [reflexivity|]. now destruct (f x).
Qed.

Lemma window_keys tz today records rec :
  map day (daily (calculateSleepDebt tz today records rec)) = trailingWeek tz today.
Proof.
  rewrite calculateSleepDebt_daily, map_map. unfold trailingWeek.
  apply map_ext. intros i. apply dayEntry_day.
Qed.

Lemma NoDup_map_injective {A B : Type} (f : A -> B) (l : list A) :
  (forall x y, f x = f y -> x = y) -> NoDup l -> NoDup (map f l).
Proof.
  intros Hf. induction 1 as [|x l Hx Hl IH]; simpl; constructor; [|exact IH].
  rewrite in_map_iff. intros (y & Hy & Hin). apply Hf in Hy. now subst y.
Qed.

(** X8: the seven days of the report have seven different date keys. *)
Theorem X8_window_keys_distinct (tz today : Z) (records : list SleepRecord) (rec : number) :
  NoDup (map day (daily (calculateSleepDebt tz today records rec))).
Proof.
  rewrite window_keys. unfold trailingWeek.
  apply NoDup_map_injective.
  - intros i j H. apply dateOfDay_inj in H. lia.
  - repeat (constructor; [simpl; intuition lia|]). constructor.
Qed.

(** X9: the first record of a date wins.  A record added to the store for
    a date that already has one does not change the report. *)
Theorem X9_first_record_wins (tz today : Z) (records : list SleepRecord) (rec : number)
    (newId : string) (input : SleepRecordInput) :
  (exists r, In r records /\ date r = in_date input) ->
  calculateSleepDebt tz today (addSleepRecord newId input records) rec
  = calculateSleepDebt tz today records rec.
Proof.
  intros (r0 & Hin & Hdate). apply calculateSleepDebt_hoursOn. intros key _.
  unfold hoursOn, addSleepRecord. rewrite find_app.
  destruct (find (fun r => String.eqb (date r) key) records) as [r|] eqn:Hf; [reflexivity|].
  cbn [find newSleepRecord date].
  destruct (String.eqb_spec (in_date input) key) as [<- | Hne]; [|reflexivity].
  apply (find_none _ _ Hf) in Hin. rewrite Hdate, String.eqb_refl in Hin. discriminate.
Qed.

(** X9 on a second night filed under the sample Monday. *)
Lemma X9_first_record_wins_witness :
  calculateSleepDebt 0 monday
    (addSleepRecord "b" {| in_date := "2026-11-02"; in_bedtime := "01:00";
                           in_wakeTime := "04:00" |}
                    [night "2026-11-02" (nZ 8)]) (nZ 8)
  = calculateSleepDebt 0 monday [night "2026-11-02" (nZ 8)] (nZ 8).
Proof.
  apply X9_first_record_wins.
  exists (night "2026-11-02" (nZ 8)). split; [now left | reflexivity].
Defined.

(** X10: a record dated outside the seven days of the window, wherever it
    stands in the list, does not change the report. *)
Theorem X10_outside_window_ignored (tz today : Z) (before after : list SleepRecord)
    (r : SleepRecord) (rec : number) :
  ~ In (date r) (trailingWeek tz today) ->
  calculateSleepDebt tz today (before ++ r :: after) rec
  = calculateSleepDebt tz today (before ++ after) rec.
Proof.
  intros Hout. apply calculateSleepDebt_hoursOn. intros key Hkey.
  unfold hoursOn. rewrite !find_app. cbn [find].
  destruct (String.eqb_spec (date r) key) as [E | _]; [|reflexivity].
  rewrite E in Hout. contradiction.
Qed.

(** X10 on a night filed eight days before the sample Monday. *)
Lemma X10_outside_window_ignored_witness :
  calculateSleepDebt 0 monday
    ([night "2026-11-01" (nZ 7)] ++ night "2026-10-25" (nZ 3) :: [night "2026-11-02" (nZ 6)])
    (nZ 8)
  = calculateSleepDebt 0 monday
      ([night "2026-11-01" (nZ 7)] ++ [night "2026-11-02" (nZ 6)]) (nZ 8).
Proof.
  apply X10_outside_window_ignored.
  vm_compute. intros H. repeat (destruct H as [H | H]; [discriminate H|]). exact H.
Defined.

(** A finite list of hours gives finite hours under every key. *)
Lemma hoursOn_finite records key :
  (forall r, In r records -> exists h, hoursSlept r = Num h) ->
  exists h, hoursOn records key = Num h.
Proof.
  intros H. unfold hoursOn.
  destruct (find _ records) as [r|] eqn:Hf.
  - apply find_some in Hf as [Hin _]. now apply H.
  - now exists (inject_Z 0).
Qed.

Lemma nmax_zero_nonneg (y : Q) :
  exists q, nmax (nZ 0) (Num y) = Num q /\ (0 <= q)%Q.
Proof.
  unfold nmax, nZ. destruct (Qle_bool (inject_Z 0) y) eqn:E.
  - exists y. split; [reflexivity|]. now apply Qle_bool_iff in E.
  - exists (inject_Z 0). split; [reflexivity | apply Qle_refl].
Qed.

Lemma fold_nadd_nonneg (l : list number) (a : Q) :
  (0 <= a)%Q ->
  (forall x, In x l -> exists q, x = Num q /\ (0 <= q)%Q) ->
  exists q, fold_left nadd l (Num a) = Num q /\ (0 <= q)%Q.
Proof.
  revert a. induction l as [|x l IH]; intros a Ha H; simpl.
  - now exists a.
  - destruct (H x (or_introl eq_refl)) as (q & -> & Hq).
    cbn [nadd]. unfold fin. apply IH.
    + rewrite Qred_correct. rewrite <- (Qplus_0_r 0). now apply Qplus_le_compat.
    + intros y Hy. apply H. now right.
Qed.

Lemma round2_nonneg (q : Q) :
  (0 <= q)%Q -> exists t, round2 (Num q) = Num t /\ (0 <= t)%Q.
Proof.
  intros Hq. unfold round2. unfold nmul, nZ at 1. unfold fin at 1.
  unfold nround, nZ at 1. rewrite ndiv_nZ_pos by lia. unfold fin.
  eexists. split; [reflexivity|]. rewrite Qred_correct.
  set (z := Qfloor _).
  assert (Hz : 0 <= z).
  { unfold z. change 0 with (Qfloor 0). apply Qfloor_resp_le.
    rewrite Qred_correct.
    assert (H100 : (0 <= q * inject_Z 100)%Q).
    { apply Qmult_le_0_compat; [assumption | discriminate]. }
    rewrite <- (Qplus_0_r 0). apply Qplus_le_compat; [assumption | discriminate]. }
  unfold Qdiv, Qinv, Qmult, Qle, inject_Z. simpl. lia.
Qed.



Lemma fold_nadd_zeros (l : list number) :
  (forall x, In x l -> x = nZ 0) -> fold_left nadd l (nZ 0) = nZ 0.
Proof.
  induction l as [|x l IH]; intros H; simpl; [reflexivity|].
  rewrite (H x (or_introl eq_refl)). change (nadd (nZ 0) (nZ 0)) with (nZ 0).
  apply IH. intros y Hy. apply H. now right.
Qed.

(** X12: when every day of the window has at least the recommended hours,
    every daily debt and the total debt are 0. *)
Theorem X12_target_met_no_debt (tz today : Z) (records : list SleepRecord) (x : Q) :
  (forall key, In key (trailingWeek tz today) ->
     exists h, hoursOn records key = Num h /\ (x <= h)%Q) ->
  let res := calculateSleepDebt tz today records (Num x) in
  (forall d, In d (daily res) -> debt d = nZ 0) /\ totalDebt res = nZ 0.
Proof.
  intros Hmet res.
  assert (Hdays : forall d, In d (daily res) -> debt d = nZ 0).
  { intros d Hd. unfold res in Hd. rewrite calculateSleepDebt_daily in Hd.
    apply in_map_iff in Hd as (i & <- & Hi).
    rewrite dayEntry_hoursOn. cbn [debt].
    destruct (Hmet (dateOfDay (dayNumber tz today - i))) as (h & -> & Hh).
    { unfold trailingWeek. now apply (in_map (fun i => dateOfDay (dayNumber tz today - i))). }
    cbn [nsub]. unfold fin, nmax, nZ.
    destruct (Qle_bool (inject_Z 0) (Qred (x - h))) eqn:E; [|reflexivity].
    apply Qle_bool_iff in E. rewrite Qred_correct in E.
    f_equal. apply (Qred_complete (x - h) 0). apply Qle_antisym; [|exact E].
    unfold Qminus. rewrite <- (Qplus_opp_r h). apply Qplus_le_compat; [exact Hh | apply Qle_refl]. }
  split; [exact Hdays|].
  unfold res. rewrite calculateSleepDebt_totalDebt. fold res.
  unfold nsum. rewrite fold_nadd_zeros; [reflexivity|].
  intros y Hy. apply in_map_iff in Hy as (d & <- & Hd). now apply Hdays.
Qed.

(** X12 on a week of seven nights of 8 and 9 hours with 8 recommended. *)
Lemma X12_target_met_no_debt_witness :
  totalDebt (calculateSleepDebt 0 monday
    [night "2026-10-27" (nZ 8); night "2026-10-28" (nZ 9); night "2026-10-29" (nZ 8);
     night "2026-10-30" (nZ 8); night "2026-10-31" (nZ 9); night "2026-11-01" (nZ 8);
     night "2026-11-02" (nZ 8)] (Num 8)) = nZ 0.
Proof.
  refine (proj2 (X12_target_met_no_debt 0 monday _ 8 _)).
  intros key Hkey. vm_compute in Hkey.
  repeat (destruct Hkey as [<- | Hkey];
          [eexists; split; [vm_compute; reflexivity | discriminate]|]).
  contradiction.
Defined.

Lemma nmax_nZ (a b : Z) : nmax (nZ a) (nZ b) = nZ (Z.max a b).
Proof.
  unfold nmax, nZ, Qle_bool, inject_Z. simpl. rewrite !Z.mul_1_r.
  destruct (Z.leb_spec a b).
  - now rewrite Z.max_r.
  - now rewrite Z.max_l by lia.
Qed.

Lemma Qfloor_half (z : Z) : Qfloor (inject_Z z + (1 # 2)) = z.
Proof.
  unfold Qfloor, Qplus, inject_Z. simpl. Z.div_mod_to_equations. lia.
Qed.

(** Rounding to two decimals leaves an integer alone. *)
Lemma round2_nZ (k : Z) : round2 (nZ k) = nZ k.
Proof.
  unfold round2. rewrite nmul_nZ. unfold nround, nZ at 1. rewrite Qfloor_half.
  unfold nZ at 1. rewrite ndiv_nZ_pos by lia.
  apply fin_inject_Z. rewrite inject_Z_mult. field.
Qed.


End DebtReport.

(* ################################################################# *)
(** * Further properties: the store and its controls *)

Section StoreAndControls.

Local Open Scope string_scope.
Local Open Scope Z_scope.

Lemma filter_all {A : Type} (f : A -> bool) (l : list A) :
  (forall x, In x l -> f x = true) -> filter f l = l.
Proof.
  induction l as [|x l IH]; intros H; simpl; [reflexivity|].
  rewrite (H x (or_introl eq_refl)). f_equal. apply IH. intros y Hy. apply H. now right.
Qed.

(** X14: removing the identifier of a record just added, when no other
    record has it, gives the list back; removing an identifier that no
    record has changes nothing. *)
Theorem X14_add_remove_round_trip (newId : string) (input : SleepRecordInput)
    (prev : list SleepRecord) :
  (forall r, In r prev -> id r <> newId) ->
  removeSleepRecord newId (addSleepRecord newId input prev) = prev /\
  removeSleepRecord newId prev = prev.
Proof.
  intros Hfresh.
  assert (Hkeep : removeSleepRecord newId prev = prev).
  { apply filter_all. intros r Hr. apply negb_true_iff, String.eqb_neq. now apply Hfresh. }
  split; [|exact Hkeep].
  unfold removeSleepRecord, addSleepRecord in *. rewrite filter_app, Hkeep.
  cbn [filter newSleepRecord id]. rewrite String.eqb_refl. cbn [negb]. apply app_nil_r.
Qed.

(** X14 on a store of one record. *)
Lemma X14_add_remove_round_trip_witness :
  removeSleepRecord "b"
    (addSleepRecord "b" {| in_date := "2026-11-02"; in_bedtime := "23:00";
                           in_wakeTime := "07:00" |}
                    [night "2026-11-01" (nZ 8)])
  = [night "2026-11-01" (nZ 8)].
Proof.
  refine (proj1 (X14_add_remove_round_trip "b" _ [night "2026-11-01" (nZ 8)] _)).
  intros r [<- | []]. discriminate.
Defined.

(** X15: removal deletes every record carrying the identifier and only
    those, keeps the order of the others, and removals compose: twice is
    once, and two removals commute. *)
Theorem X15_remove_sleep_record (rid rid' : string) (prev : list SleepRecord) :
  (forall r, In r (removeSleepRecord rid prev) <-> In r prev /\ id r <> rid) /\
  removeSleepRecord rid (removeSleepRecord rid prev) = removeSleepRecord rid prev /\
  removeSleepRecord rid (removeSleepRecord rid' prev)
  = removeSleepRecord rid' (removeSleepRecord rid prev).
Proof.
  split; [|split].
  - intros r. unfold removeSleepRecord. rewrite filter_In, negb_true_iff, String.eqb_neq.
    reflexivity.
  - apply filter_all. intros r Hr. unfold removeSleepRecord in Hr.
    now apply filter_In in Hr.
  - unfold removeSleepRecord. induction prev as [|r prev IH]; [reflexivity|].
    cbn [filter].
    destruct (negb (id r =? rid')%string) eqn:E1, (negb (id r =? rid)%string) eqn:E2;
      cbn [filter]; rewrite ?E1, ?E2, IH; reflexivity.
Qed.

(** X16: [setRecommendedHours] clamps a finite value to [1, 24] and leaves
    a value of that range alone; the infinities go to the two ends, and
    [NaN] passes through; clamping twice is clamping once. *)
Theorem X16_recommended_hours_clamped (x : Q) (h : number) :
  (exists q, setRecommendedHours (Num x) = Num q /\ (1 <= q <= 24)%Q /\
             ((1 <= x <= 24)%Q -> (q == x)%Q) /\
             ((x <= 1)%Q -> (q == 1)%Q) /\ ((24 <= x)%Q -> (q == 24)%Q)) /\
  setRecommendedHours PosInf = nZ 24 /\
  setRecommendedHours NegInf = nZ 1 /\
  setRecommendedHours NaN = NaN /\
  setRecommendedHours (setRecommendedHours h) = setRecommendedHours h.
Proof.
  assert (Hclamp : forall y : Q,
    exists q, setRecommendedHours (Num y) = Num q /\ (1 <= q <= 24)%Q /\
              ((1 <= y <= 24)%Q -> (q == y)%Q) /\
              ((y <= 1)%Q -> (q == 1)%Q) /\ ((24 <= y)%Q -> (q == 24)%Q) /\
              setRecommendedHours (Num q) = Num q).
  { intros y. unfold setRecommendedHours, nmin, nmax, nZ.
    destruct (Qle_bool (inject_Z 24) y) eqn:E24.
    - exists (inject_Z 24). apply Qle_bool_iff in E24.
      change (Qle_bool (inject_Z 1) (inject_Z 24)) with true. cbv iota.
      change (Qle_bool (inject_Z 24) (inject_Z 24)) with true. cbv iota.
      change (Qle_bool (inject_Z 1) (inject_Z 24)) with true. cbv iota.
      repeat split; try discriminate; try reflexivity.
      + intros [_ H]. now apply Qle_antisym.
      + intros H. exfalso. apply (Qle_not_lt _ _ (Qle_trans _ _ _ E24 H)). reflexivity.
    - assert (H24 : (y < 24)%Q).
      { apply Qnot_le_lt. intros H. apply Qle_bool_iff in H.
        change (inject_Z 24) with 24%Q in E24. congruence. }
      destruct (Qle_bool (inject_Z 1) y) eqn:E1.
      + exists y. pose proof (proj1 (Qle_bool_iff _ _) E1) as L1.
        rewrite E24, E1.
        repeat split; try assumption; try reflexivity.
        * now apply Qlt_le_weak.
        * intros H. now apply Qle_antisym.
        * intros H. exfalso. now apply (Qle_not_lt _ _ H).
      + exists (inject_Z 1).
        assert (H1 : (y < 1)%Q).
        { apply Qnot_le_lt. intros H. apply Qle_bool_iff in H.
          change (inject_Z 1) with 1%Q in E1. congruence. }
        change (Qle_bool (inject_Z 24) (inject_Z 1)) with false. cbv iota.
        change (Qle_bool (inject_Z 1) (inject_Z 1)) with true. cbv iota.
        repeat split; try discriminate; try reflexivity.
        * intros [H _]. exfalso. now apply (Qle_not_lt _ _ H).
        * intros H. exfalso. apply (Qle_not_lt _ _ H).
          apply (Qlt_le_trans _ _ _ H1). discriminate. }
  split; [|split; [reflexivity | split; [reflexivity | split; [reflexivity|]]]].
  - destruct (Hclamp x) as (q & H & Hr & Hin & Hlo & Hhi & _). now exists q.
  - destruct h as [| | |y]; try reflexivity.
    destruct (Hclamp y) as (q & -> & _ & _ & _ & _ & H). exact H.
Qed.

(** X17: the control of the recommended hours either leaves the setting as
    it is or sets it to the sum, and then the sum is a finite value of
    [6, 10] which the clamp of the store does not alter. *)
Theorem X17_recommended_change_range (recommendedHours delta : number) :
  handleRecommendedChange recommendedHours delta = recommendedHours \/
  (handleRecommendedChange recommendedHours delta = nadd recommendedHours delta /\
   exists q, nadd recommendedHours delta = Num q /\ (6 <= q <= 10)%Q).
Proof.
  unfold handleRecommendedChange. cbv zeta.
  destruct (nge (nadd recommendedHours delta) (nZ 6) &&
            nle (nadd recommendedHours delta) (nZ 10)) eqn:E; [right | now left].
  apply andb_true_iff in E as [E6 E10].
  destruct (nadd recommendedHours delta) as [| | |q]; try discriminate.
  assert (H6 : (6 <= q)%Q).
  { unfold nge, nle, ncompare, nZ in E6. apply Qle_alt.
    change 6%Q with (inject_Z 6). now destruct (inject_Z 6 ?= q)%Q. }
  assert (H10 : (q <= 10)%Q).
  { unfold nle, ncompare, nZ in E10. apply Qle_alt.
    change 10%Q with (inject_Z 10). now destruct (q ?= inject_Z 10)%Q. }
  split; [|now exists q].
  unfold setRecommendedHours, nmin, nmax, nZ.
  assert (E24 : Qle_bool (inject_Z 24) q = false).
  { apply not_true_is_false. intros H. apply Qle_bool_iff in H.
    apply (Qle_not_lt _ _ (Qle_trans _ _ _ H H10)). reflexivity. }
  assert (E1 : Qle_bool (inject_Z 1) q = true).
  { apply Qle_bool_iff. apply (Qle_trans _ 6); [discriminate | exact H6]. }
  now rewrite E24, E1.
Qed.

(** X18: from a half-hour setting between 6 and 10 the two buttons move by
    half an hour and stop at the ends: the setting stays a half-hour value
    of [6, 10]. *)
Theorem X18_half_hour_steps (k : Z) :
  12 <= k <= 20 ->
  handleRecommendedChange (fin (inject_Z k / 2)) (fin (1 # 2))
  = fin (inject_Z (Z.min 20 (k + 1)) / 2) /\
  handleRecommendedChange (fin (inject_Z k / 2)) (fin (- (1 # 2)))
  = fin (inject_Z (Z.max 12 (k - 1)) / 2).
Proof.
  intros Hk.
  assert (H : k = 12 \/ k = 13 \/ k = 14 \/ k = 15 \/ k = 16 \/ k = 17 \/ k = 18 \/
              k = 19 \/ k = 20) by lia.
  repeat (destruct H as [-> | H]; [split; vm_compute; reflexivity|]).
  subst k. split; vm_compute; reflexivity.
Qed.

(** X18 at the upper end, 10 hours. *)
Lemma X18_half_hour_steps_witness :
  handleRecommendedChange (fin (inject_Z 20 / 2)) (fin (1 # 2)) = fin (inject_Z 20 / 2).
Proof.
  refine (proj1 (X18_half_hour_steps 20 _)). lia.
Defined.

(** The date key of a reading names its local calendar day. *)
Lemma getTodayISO_same_day (tz1 tz2 t1 t2 : Z) :
  getTodayISO tz1 t1 = getTodayISO tz2 t2 <-> dayNumber tz1 t1 = dayNumber tz2 t2.
Proof.
  unfold getTodayISO. rewrite !ymdString_dateOfDay. split.
  - apply dateOfDay_inj.
  - now intros ->.
Qed.

(** X19: the unlock of the analytics resets daily.  After an unlock
    written at [t1], a start of the application at [t2] finds the analytics
    unlocked exactly when [t2] falls on the same local calendar day, each
    instant read with the offset to UTC then in force ([tz1] and [tz2]).
    A start 24 hours after the unlock is locked when the offset has not
    gone down in between; where it has, at the end of daylight saving
    time, that start can fall on the same day still: unlocked on 1 November
    2026 at 00:30 with offset -240, the application starts unlocked 24
    hours later, at 23:30 with offset -300.  When the storage cannot be
    written and holds nothing, the next start is locked. *)
Theorem X19_unlock_resets_daily (tz1 tz2 t1 t2 : Z) (stored : option string) :
  (initialAnalyticsUnlocked tz2 t2 (storeUnlock tz1 t1 true stored) = true
   <-> dayNumber tz1 t1 = dayNumber tz2 t2) /\
  (tz1 <= tz2 ->
   initialAnalyticsUnlocked tz2 (t1 + msPerDay) (storeUnlock tz1 t1 true stored) = false) /\
  (getTodayISO (-240) 1793507400000 = "2026-11-01" /\
   getTodayISO (-300) (1793507400000 + msPerDay) = "2026-11-01" /\
   initialAnalyticsUnlocked (-300) (1793507400000 + msPerDay)
     (storeUnlock (-240) 1793507400000 true stored) = true) /\
  initialAnalyticsUnlocked tz2 t2 (storeUnlock tz1 t1 false None) = false.
Proof.
  assert (Hiff : forall a b s u,
            initialAnalyticsUnlocked b u (storeUnlock a s true stored) = true
            <-> dayNumber a s = dayNumber b u).
  { intros a b s u. unfold initialAnalyticsUnlocked, storeUnlock.
    rewrite String.eqb_eq. apply getTodayISO_same_day. }
  split; [apply Hiff|]. split; [|split; [|reflexivity]].
  - intros Htz. apply not_true_is_false. rewrite Hiff.
    unfold dayNumber, localTime.
    replace (t1 + msPerDay + tz2 * msPerMinute)
      with (t1 + tz1 * msPerMinute + (tz2 - tz1) * msPerMinute + 1 * msPerDay) by ring.
    rewrite Z.div_add by discriminate.
    assert (Hmono : (t1 + tz1 * msPerMinute) / msPerDay
                    <= (t1 + tz1 * msPerMinute + (tz2 - tz1) * msPerMinute) / msPerDay).
    { apply Z.div_le_mono; [reflexivity|].
      assert (0 <= (tz2 - tz1) * msPerMinute) by (apply Z.mul_nonneg_nonneg; [lia | discriminate]).
      lia. }
    lia.
  - split; [vm_compute; reflexivity|]. split; [vm_compute; reflexivity|].
    apply Hiff. vm_compute. reflexivity.
Qed.

End StoreAndControls.

(* ################################################################# *)
(** * Further properties: caffeine *)

Section CaffeineModel.

Local Open Scope Z_scope.
Local Open Scope R_scope.

Lemma ln_half_neg : ln (1 / 2) < 0.
Proof. rewrite <- ln_1. apply ln_increasing; lra. Qed.

(** The decay factor falls as time goes on. *)
Lemma Rpower_half_decreasing (y1 y2 : R) :
  y1 <= y2 -> Rpower (1 / 2) y2 <= Rpower (1 / 2) y1.
Proof.
  intros H. unfold Rpower. pose proof ln_half_neg as Hln.
  destruct (Req_dec (y2 * ln (1 / 2)) (y1 * ln (1 / 2))) as [-> | Hne]; [lra|].
  left. apply exp_increasing. nra.
Qed.

Lemma Rpower_half_le_1 (y : R) : 0 <= y -> Rpower (1 / 2) y <= 1.
Proof.
  intros H. pose proof (Rpower_half_decreasing 0 y H) as H'.
  now rewrite Rpower_O in H' by lra.
Qed.

Lemma round1_monotone (x y : R) : x <= y -> round1 x <= round1 y.
Proof.
  intros H. unfold round1, Rround.
  assert (Hz : (Zfloor (x * 10 + 1 / 2) <= Zfloor (y * 10 + 1 / 2))%Z)
    by (apply Zfloor_le; lra).
  apply IZR_le in Hz. lra.
Qed.

Lemma elapsed_hours_monotone (t1 t2 ts : Z) :
  (t1 <= t2)%Z -> IZR (t1 - ts) / 3600000 / 5 <= IZR (t2 - ts) / 3600000 / 5.
Proof.
  intros H. assert (H' : IZR (t1 - ts) <= IZR (t2 - ts)) by (apply IZR_le; lia). lra.
Qed.

Lemma Rsum_monotone {A : Type} (f g : A -> R) (l : list A) :
  (forall x, In x l -> f x <= g x) -> Rsum (map f l) <= Rsum (map g l).
Proof.
  induction l as [|x l IH]; intros H; simpl; [lra|].
  assert (f x <= g x) by (apply H; now left).
  assert (Rsum (map f l) <= Rsum (map g l)) by (apply IH; intros y Hy; apply H; now right).
  lra.
Qed.

(** X20: without a new intake the level never rises.  With amounts that
    are not negative and every entry taken by [t1], the level at a later
    instant [t2] is at most the level at [t1]. *)
Theorem X20_level_never_rises (entries : list CaffeineEntry) (t1 t2 : Z) :
  Forall (fun e => 0 <= amountMg e) entries ->
  Forall (fun e => (timestamp e <= t1)%Z) entries ->
  (t1 <= t2)%Z ->
  calculateCaffeineLevel entries t2 <= calculateCaffeineLevel entries t1.
Proof.
  intros Hpos Hpast Hle. rewrite !calculateCaffeineLevel_sum.
  apply round1_monotone, Rsum_monotone. intros e He.
  rewrite Forall_forall in Hpos, Hpast.
  specialize (Hpos e He). specialize (Hpast e He).
  rewrite !contribution_past by lia.
  apply Rmult_le_compat_l; [exact Hpos|].
  apply Rpower_half_decreasing. now apply elapsed_hours_monotone.
Qed.

(** X20 on two doses, one and three hours after the second. *)
Lemma X20_level_never_rises_witness :
  calculateCaffeineLevel [dose 100 0; dose 80 7200000] 18000000
  <= calculateCaffeineLevel [dose 100 0; dose 80 7200000] 10800000.
Proof.
  apply X20_level_never_rises.
  - repeat constructor; simpl; lra.
  - repeat constructor; simpl; lia.
  - lia.
Defined.




Lemma Rsum_app (l1 l2 : list R) : Rsum (l1 ++ l2) = Rsum l1 + Rsum l2.
Proof. induction l1 as [|x l1 IH]; simpl; [lra | rewrite IH; lra]. Qed.

(** The loop of [calculateCaffeineLevel] passes over an entry that is not
    taken yet without touching the running total. *)
Lemma fold_addRemaining_taken (atMs : Z) (entries : list CaffeineEntry) (total : R) :
  fold_left (addRemaining atMs) entries total
  = fold_left (addRemaining atMs) (filter (taken atMs) entries) total.
Proof.
  revert total. induction entries as [|e entries IH]; intros total; [reflexivity|].
  cbn [fold_left filter]. unfold taken at 1.
  destruct (Z.leb_spec (timestamp e) atMs) as [Hpast | Hfut].
  - cbn [fold_left]. apply IH.
  - rewrite <- IH. f_equal. unfold addRemaining.
    destruct (Z.ltb_spec (atMs - timestamp e) 0) as [_ | Hge]; [reflexivity | lia].
Qed.

Lemma filter_twice {A : Type} (f : A -> bool) (l : list A) :
  filter f (filter f l) = filter f l.
Proof.
  induction l as [|x l IH]; [reflexivity|]. cbn [filter].
  destruct (f x) eqn:E; cbn [filter]; rewrite ?E, IH; reflexivity.
Qed.

(** X23: only the entries taken by the query instant count, in their
    order.  The entries not taken yet can be left out, wherever they stand
    in the list, and two lists that agree on the entries taken give the
    same level. *)
Theorem X23_untaken_entries_ignored (entries entries' : list CaffeineEntry) (atTime : Z) :
  filter (taken atTime) entries = filter (taken atTime) entries' ->
  calculateCaffeineLevel entries atTime = calculateCaffeineLevel entries' atTime /\
  calculateCaffeineLevel entries atTime
  = calculateCaffeineLevel (filter (taken atTime) entries) atTime.
Proof.
  intros Hsame. unfold calculateCaffeineLevel. cbv zeta.
  rewrite (fold_addRemaining_taken atTime entries),
          (fold_addRemaining_taken atTime entries'),
          (fold_addRemaining_taken atTime (filter (taken atTime) entries)).
  rewrite filter_twice, Hsame. split; reflexivity.
Qed.

(** X23 on a dose taken and two doses to come, read after one hour. *)
Lemma X23_untaken_entries_ignored_witness :
  calculateCaffeineLevel [dose 100 0; dose 80 7200000] 3600000
  = calculateCaffeineLevel [dose 63 9000000; dose 100 0] 3600000.
Proof.
  refine (proj1 (X23_untaken_entries_ignored _ _ 3600000 _)). reflexivity.
Defined.


(** X25: removing the identifier of an entry just added, when no other
    entry has it, gives the list back. *)
Theorem X25_caffeine_add_remove (newId : string) (now : Z) (entry : CaffeineInput)
    (prev : list CaffeineEntry) :
  (forall e, In e prev -> ce_id e <> newId) ->
  removeCaffeineEntry newId (addCaffeineEntry newId now entry prev) = prev.
Proof.
  intros Hfresh. unfold removeCaffeineEntry, addCaffeineEntry.
  rewrite filter_app. cbn [filter ce_id]. rewrite String.eqb_refl. cbn [negb].
  rewrite app_nil_r. apply filter_all. intros e He.
  apply negb_true_iff, String.eqb_neq. now apply Hfresh.
Qed.

(** X25 on a store of one dose. *)
Lemma X25_caffeine_add_remove_witness :
  removeCaffeineEntry "d"
    (addCaffeineEntry "d" 7200000
       {| in_amountMg := 80; in_type := tea; in_label := "tea" |} [dose 100 0])
  = [dose 100 0].
Proof.
  apply X25_caffeine_add_remove. intros e [<- | []]. discriminate.
Defined.

(** X26: when no entry was taken exactly on a local clock hour, the
    timeline starts at level 0: its first point lies before every entry. *)
Theorem X26_timeline_starts_at_zero (tz : Z) (entries : list CaffeineEntry) :
  entries <> [] ->
  (forall e, In e entries -> (localTime tz (timestamp e) mod msPerHour <> 0)%Z) ->
  exists p rest, calculateCaffeineTimeline tz entries = p :: rest /\
                 hour p = 0 /\ level p = 0.
Proof.
  intros Hne Hoff.
  destruct entries as [|e0 entries]; [congruence|].
  rewrite (timeline_unrolled tz (e0 :: entries) (timestamp e0) (map timestamp entries) eq_refl).
  set (earliest := fold_left Z.min (map timestamp entries) (timestamp e0)).
  set (start := startOfHour tz earliest).
  change (zrange 49) with (0%Z :: map Z.of_nat (seq 1 48)). cbn [map].
  eexists. eexists. split; [reflexivity|].
  rewrite timelinePoint_hour, timelinePoint_level. split; [simpl; lra|].
  destruct (fold_min_least (map timestamp entries) (timestamp e0)) as [Hin Hleast].
  fold earliest in Hin, Hleast.
  destruct (startOfHour_spec tz earliest) as [Hmod [Hlo _]]. fold start in Hmod, Hlo.
  assert (Hbefore : forall e, In e (e0 :: entries) -> (start < timestamp e)%Z).
  { intros e He.
    assert (Hle : (earliest <= timestamp e)%Z).
    { apply Hleast. change (timestamp e0 :: map timestamp entries)
        with (map timestamp (e0 :: entries)). now apply in_map. }
    assert (Hneq : start <> timestamp e).
    { intros Heq. apply (Hoff e He). now rewrite <- Heq. }
    lia. }
  rewrite calculateCaffeineLevel_sum.
  assert (Hzero : Rsum (map (contribution (start + 0 * 30 * 60 * 1000)) (e0 :: entries)) = 0).
  { replace (start + 0 * 30 * 60 * 1000)%Z with start by lia.
    generalize (e0 :: entries) Hbefore. intros l Hl.
    induction l as [|e l IH]; [reflexivity|]. cbn [map Rsum fold_right].
    rewrite contribution_future by (apply Hl; now left).
    fold (Rsum (map (contribution start) l)). rewrite IH; [lra|].
    intros e' He'. apply Hl. now right. }
  rewrite Hzero. unfold round1. rewrite Rmult_0_l. change 0 with (IZR 0) at 1.
  rewrite Rround_IZR. lra.
Qed.

(** X26 on two doses taken at 10:35 and 11:10 local time. *)
Lemma X26_timeline_starts_at_zero_witness :
  exists p rest,
    calculateCaffeineTimeline 330 [dose 100 1793611200000; dose 80 1793609100000]
    = p :: rest /\ hour p = 0 /\ level p = 0.
Proof.
  apply X26_timeline_starts_at_zero; [discriminate|].
  intros e [<- | [<- | []]]; vm_compute; discriminate.
Defined.

End CaffeineModel.

(* ################################################################# *)
(** * Further properties: the tips *)

Section TipCount.

Local Open Scope string_scope.
Local Open Scope Z_scope.

(** X27: the tips are at least four and at most eight.  The tips on blue
    light and on room temperature are always among them; those on
    exercise and on meals are dropped only by the cut at eight.  Four is
    reached: a state in which no rule fires gives the four general tips. *)
Theorem X27_tip_count (tz now : Z) (stats : SleepStats) (entries : list CaffeineEntry) :
  let tips := generateSleepTips tz now stats entries in
  (4 <= length tips <= 8)%nat /\
  In blueLightTip tips /\ In roomTemperatureTip tips /\
  ((length tips < 8)%nat -> In exerciseTip tips /\ In mealTip tips) /\
  generateSleepTips tz now
    {| totalRecords := 0; StatsTypes.avgHoursThisWeek := nZ 0; totalDebtHours := nZ 0;
       StatsTypes.longestSleep := nZ 0; StatsTypes.shortestSleep := nZ 0;
       avgBedtime := "00:00"; avgWakeTime := "00:00"; currentCaffeineMg := 0 |} []
  = [blueLightTip; roomTemperatureTip; exerciseTip; mealTip].
Proof.
  intros tips. unfold tips. rewrite !generateSleepTips_cascade.
  split; [|split; [|split; [|split]]].
  - unfold cascade, caffeineRule, debtRule, when.
    split_rules tz now stats entries; cbn [app firstn length]; lia.
  - unfold cascade, caffeineRule, debtRule, when.
    split_rules tz now stats entries; cbn [app firstn]; among.
  - unfold cascade, caffeineRule, debtRule, when.
    split_rules tz now stats entries; cbn [app firstn]; among.
  - unfold cascade, caffeineRule, debtRule, when.
    split_rules tz now stats entries; cbn [app firstn length]; intros Hlen;
      try (exfalso; lia); split; among.
  - unfold cascade, caffeineRule, debtRule, when, lateCaffeineToday.
    cbn [currentCaffeineMg totalDebtHours StatsTypes.avgHoursThisWeek totalRecords
         StatsTypes.longestSleep StatsTypes.shortestSleep existsb].
    destruct (Rlt_dec 200 0) as [H | _]; [lra|].
    destruct (Rlt_dec 100 0) as [H | _]; [lra|].
    reflexivity.
Qed.

End TipCount.

(* ################################################################# *)
(** * Further properties: the statistics *)

Section Statistics.

Local Open Scope string_scope.
Local Open Scope Z_scope.
Local Open Scope R_scope.

Lemma sin_turn (a : R) : sin (a - 2 * PI) = sin a.
Proof. rewrite sin_minus, sin_2PI, cos_2PI. lra. Qed.

Lemma cos_turn (a : R) : cos (a - 2 * PI) = cos a.
Proof. rewrite cos_minus, sin_2PI, cos_2PI. lra. Qed.

Lemma sin_half_turn (a : R) : sin (a - PI) = - sin a.
Proof. rewrite sin_minus, sin_PI, cos_PI. lra. Qed.

Lemma cos_half_turn (a : R) : cos (a - PI) = - cos a.
Proof. rewrite cos_minus, sin_PI, cos_PI. lra. Qed.

(** [atan2] of the sine and cosine of an angle of [0, 2 PI), brought back
    to that range as [averageTimeStr] does, is the angle. *)
Lemma atan2_angle (a : R) :
  0 <= a < 2 * PI ->
  (if Rlt_dec (atan2 (sin a) (cos a)) 0
   then atan2 (sin a) (cos a) + 2 * PI
   else atan2 (sin a) (cos a)) = a.
Proof.
  intros [Hlo Hhi]. pose proof PI_RGT_0 as Hpi.
  destruct (Rtotal_order a (PI / 2)) as [H1 | [H1 | H1]].
  - (* first quadrant *)
    assert (Hc : 0 < cos a) by (apply cos_gt_0; lra).
    unfold atan2. destruct (Rlt_dec 0 (cos a)) as [_ | Hn]; [|contradiction].
    fold (tan a). rewrite atan_tan by lra.
    destruct (Rlt_dec a 0); lra.
  - subst a. unfold atan2. rewrite sin_PI2, cos_PI2.
    destruct (Rlt_dec 0 0) as [H | _]; [lra|].
    destruct (Rlt_dec 0 1) as [_ | H]; [|lra].
    destruct (Rlt_dec (PI / 2) 0); lra.
  - destruct (Rtotal_order a (3 * (PI / 2))) as [H2 | [H2 | H2]].
    + (* second and third quadrants *)
      assert (Hc : cos a < 0) by (apply cos_lt_0; lra).
      assert (Hc' : 0 < cos (a - PI)) by (apply cos_gt_0; lra).
      assert (Ht : sin a / cos a = tan (a - PI)).
      { unfold tan. rewrite sin_half_turn, cos_half_turn. field. lra. }
      unfold atan2. destruct (Rlt_dec 0 (cos a)) as [Hn | _]; [lra|].
      destruct (Rlt_dec (cos a) 0) as [_ | Hn]; [|contradiction].
      rewrite Ht, atan_tan by lra.
      destruct (Rle_dec 0 (sin a)).
      * destruct (Rlt_dec (a - PI + PI) 0); lra.
      * destruct (Rlt_dec (a - PI - PI) 0); lra.
    + subst a. unfold atan2. rewrite sin_3PI2, cos_3PI2.
      destruct (Rlt_dec 0 0) as [H | _]; [lra|].
      destruct (Rlt_dec 0 (-1)) as [H | _]; [lra|].
      destruct (Rlt_dec (-1) 0) as [_ | H]; [|lra].
      destruct (Rlt_dec (- PI / 2) 0); lra.
    + (* fourth quadrant *)
      assert (Hc : 0 < cos a).
      { rewrite <- cos_turn. apply cos_gt_0; lra. }
      assert (Ht : sin a / cos a = tan (a - 2 * PI)).
      { unfold tan. now rewrite sin_turn, cos_turn. }
      unfold atan2. destruct (Rlt_dec 0 (cos a)) as [_ | Hn]; [|contradiction].
      rewrite Ht, atan_tan by lra.
      destruct (Rlt_dec (a - 2 * PI) 0); lra.
Qed.

Lemma fold_olift2_repeat (f : R -> R) (a : R) (n : nat) (acc : R) :
  fold_left (fun sum r => olift2 Rplus sum (omap f r)) (repeat (Some a) n) (Some acc)
  = Some (acc + INR n * f a).
Proof.
  revert acc. induction n as [|n IH]; intros acc.
  - simpl. f_equal. lra.
  - cbn [repeat fold_left omap olift2]. rewrite IH, S_INR. f_equal. lra.
Qed.

(** X28: the mean of one valid clock time, or of the same valid clock time
    several times over, is that clock time. *)
Theorem X28_mean_of_identical_times (t : string) (n : nat) :
  isHHmm t = true -> averageTimeStr (repeat t (S n)) = t.
Proof.
  intros Ht. apply isHHmm_minute in Ht as (w & Hw & ->).
  pose proof PI_RGT_0 as Hpi.
  unfold averageTimeStr. rewrite !repeat_length. cbn [Nat.eqb].
  rewrite map_repeat, timeToMinutes_clock by assumption.
  unfold toReal, nZ. rewrite Q2R_inject_Z. cbn [omap].
  rewrite !fold_olift2_repeat. cbn [omap olift2].
  assert (Hn : 0 < INR (S n)) by apply lt_0_INR, Nat.lt_0_succ.
  set (a := IZR w / 1440 * 2 * PI).
  replace ((0 + INR (S n) * sin a) / INR (S n)) with (sin a) by (field; lra).
  replace ((0 + INR (S n) * cos a) / INR (S n)) with (cos a) by (field; lra).
  assert (Ha : 0 <= a < 2 * PI).
  { assert (H0 : 0 <= IZR w) by (apply IZR_le; lia).
    assert (H1 : IZR w < 1440) by (apply IZR_lt; lia).
    unfold a. split; [|nra].
    apply Rmult_le_pos; [|lra]. apply Rmult_le_pos; lra. }
  rewrite atan2_angle by assumption. cbn [option_map ofZ].
  replace (a / (2 * PI) * 1440) with (IZR w) by (unfold a; field; lra).
  rewrite Rround_IZR, Z.rem_mod_nonneg by lia.
  destruct (clock_parts w Hw) as (Hh & _ & _).
  now rewrite padTime_nZ.
Qed.

(** X28 on three nights with bedtime 23:30. *)
Lemma X28_mean_of_identical_times_witness :
  averageTimeStr (repeat "23:30" 3) = "23:30".
Proof.
  apply (X28_mean_of_identical_times "23:30" 2). vm_compute. reflexivity.
Defined.

Lemma fold_olift2_none_acc (f : R -> R) (l : list onum) :
  fold_left (fun sum r => olift2 Rplus sum (omap f r)) l None = None.
Proof. induction l as [|x l IH]; [reflexivity | exact IH]. Qed.

Lemma fold_olift2_none (f : R -> R) (l : list onum) (acc : onum) :
  In None l -> fold_left (fun sum r => olift2 Rplus sum (omap f r)) l acc = None.
Proof.
  revert acc. induction l as [|x l IH]; intros acc Hin; [destruct Hin|].
  destruct Hin as [-> | Hin].
  - cbn [fold_left omap]. destruct acc; apply fold_olift2_none_acc.
  - cbn [fold_left]. now apply IH.
Qed.

(** X29: one time whose minutes are not a finite number (a string with no
    colon, say) makes the whole mean [NaN:NaN], whatever the other times
    are. *)
Theorem X29_mean_with_unreadable_time (times : list string) (t : string) :
  In t times ->
  (forall q, timeToMinutes t <> Num q) ->
  averageTimeStr times = "NaN:NaN".
Proof.
  intros Hin Hbad. unfold averageTimeStr.
  destruct times as [|t0 times]; [destruct Hin|].
  cbn [length Nat.eqb].
  set (radians := map _ (t0 :: times)).
  assert (Hnone : In None radians).
  { unfold radians. apply in_map_iff. exists t. split; [|exact Hin].
    destruct (timeToMinutes t) as [| | |q]; try reflexivity.
    now destruct (Hbad q). }
  rewrite !fold_olift2_none by assumption. reflexivity.
Qed.

(** X29 on a bedtime entered without a colon. *)
Lemma X29_mean_with_unreadable_time_witness :
  averageTimeStr ["23:00"; "7"] = "NaN:NaN".
Proof.
  apply (X29_mean_with_unreadable_time _ "7").
  - right. now left.
  - intros q. vm_compute. discriminate.
Defined.

Lemma fold_nmax_finite (xs : list number) (a : Q) :
  (forall x, In x xs -> exists h, x = Num h) ->
  exists m, fold_left nmax xs (Num a) = Num m /\ (a <= m)%Q /\
            (forall h, In (Num h) xs -> (h <= m)%Q) /\
            (m = a \/ In (Num m) xs).
Proof.
  revert a. induction xs as [|x xs IH]; intros a Hfin.
  - exists a. repeat split; [apply Qle_refl | intros h [] | now left].
  - destruct (Hfin x (or_introl eq_refl)) as (h & ->).
    assert (Hstep : exists a', nmax (Num a) (Num h) = Num a' /\ (a <= a')%Q /\
                               (h <= a')%Q /\ (a' = a \/ a' = h)).
    { unfold nmax. destruct (Qle_bool a h) eqn:E.
      - exists h. apply Qle_bool_iff in E. repeat split; auto using Qle_refl.
      - exists a. repeat split; auto using Qle_refl.
        apply Qlt_le_weak, Qnot_le_lt. intros H. apply Qle_bool_iff in H. congruence. }
    destruct Hstep as (a' & Hmax & Ha & Hh & Hor).
    destruct (IH a') as (m & Hm & Hle & Hall & Hin).
    { intros y Hy. apply Hfin. now right. }
    exists m. cbn [fold_left]. rewrite Hmax. split; [exact Hm|].
    split; [now apply (Qle_trans _ a')|]. split.
    + intros k [Hk | Hk]; [|now apply Hall].
      injection Hk as <-. now apply (Qle_trans _ a').
    + destruct Hin as [-> | Hin]; [|now right; right].
      destruct Hor as [-> | ->]; [now left | now right; left].
Qed.

Lemma fold_nmin_finite (xs : list number) (a : Q) :
  (forall x, In x xs -> exists h, x = Num h) ->
  exists m, fold_left nmin xs (Num a) = Num m /\ (m <= a)%Q /\
            (forall h, In (Num h) xs -> (m <= h)%Q) /\
            (m = a \/ In (Num m) xs).
Proof.
  revert a. induction xs as [|x xs IH]; intros a Hfin.
  - exists a. repeat split; [apply Qle_refl | intros h [] | now left].
  - destruct (Hfin x (or_introl eq_refl)) as (h & ->).
    assert (Hstep : exists a', nmin (Num a) (Num h) = Num a' /\ (a' <= a)%Q /\
                               (a' <= h)%Q /\ (a' = a \/ a' = h)).
    { unfold nmin. destruct (Qle_bool a h) eqn:E.
      - exists a. apply Qle_bool_iff in E. repeat split; auto using Qle_refl.
      - exists h. repeat split; auto using Qle_refl.
        apply Qlt_le_weak, Qnot_le_lt. intros H. apply Qle_bool_iff in H. congruence. }
    destruct Hstep as (a' & Hmin & Ha & Hh & Hor).
    destruct (IH a') as (m & Hm & Hle & Hall & Hin).
    { intros y Hy. apply Hfin. now right. }
    exists m. cbn [fold_left]. rewrite Hmin. split; [exact Hm|].
    split; [now apply (Qle_trans _ a')|]. split.
    + intros k [Hk | Hk]; [|now apply Hall].
      injection Hk as <-. now apply (Qle_trans _ a').
    + destruct Hin as [-> | Hin]; [|now right; right].
      destruct Hor as [-> | ->]; [now left | now right; left].
Qed.

(** X30: over records with finite hours, at least one, the longest and
    the shortest sleep of the statistics are the hours of some record and
    bound the hours of every record. *)
Theorem X30_longest_shortest (records : list SleepRecord) :
  records <> [] ->
  (forall r, In r records -> exists h, hoursSlept r = Num h) ->
  exists lo hi,
    StatsMemo.shortestSleep records = Num lo /\
    StatsMemo.longestSleep records = Num hi /\
    (forall r h, In r records -> hoursSlept r = Num h -> (lo <= h <= hi)%Q) /\
    (exists r, In r records /\ hoursSlept r = Num lo) /\
    (exists r, In r records /\ hoursSlept r = Num hi).
Proof.
  intros Hne Hfin. destruct records as [|r0 records]; [congruence|].
  destruct (Hfin r0 (or_introl eq_refl)) as (h0 & Hh0).
  assert (Hrest : forall x, In x (map hoursSlept records) -> exists h, x = Num h).
  { intros x Hx. apply in_map_iff in Hx as (r & <- & Hr). apply Hfin. now right. }
  destruct (fold_nmin_finite _ h0 Hrest) as (lo & Hlo & Hlo0 & Hloall & Hloin).
  destruct (fold_nmax_finite _ h0 Hrest) as (hi & Hhi & Hhi0 & Hhiall & Hhiin).
  exists lo, hi.
  assert (Hmember : forall m, m = h0 \/ In (Num m) (map hoursSlept records) ->
                              exists r, In r (r0 :: records) /\ hoursSlept r = Num m).
  { intros m [-> | Hin].
    - exists r0. split; [now left | exact Hh0].
    - apply in_map_iff in Hin as (r & Hr & Hin). exists r. split; [now right | exact Hr]. }
  split; [|split; [|split; [|split]]].
  - unfold StatsMemo.shortestSleep, StatsMemo.minOf. cbn [map length Nat.ltb Nat.leb fold_left].
    rewrite Hh0. exact Hlo.
  - unfold StatsMemo.longestSleep, StatsMemo.maxOf. cbn [map length Nat.ltb Nat.leb fold_left].
    rewrite Hh0. exact Hhi.
  - intros r h [<- | Hr] Hh.
    + rewrite Hh0 in Hh. injection Hh as <-. now split.
    + assert (Hin : In (Num h) (map hoursSlept records)).
      { rewrite <- Hh. now apply in_map. }
      split; [now apply Hloall | now apply Hhiall].
  - now apply Hmember.
  - now apply Hmember.
Qed.

(** X30 on two nights of 6 and 9 hours. *)
Lemma X30_longest_shortest_witness :
  exists lo hi,
    StatsMemo.shortestSleep [night "2026-11-01" (nZ 6); night "2026-11-02" (nZ 9)] = Num lo /\
    StatsMemo.longestSleep [night "2026-11-01" (nZ 6); night "2026-11-02" (nZ 9)] = Num hi.
Proof.
  destruct (X30_longest_shortest [night "2026-11-01" (nZ 6); night "2026-11-02" (nZ 9)])
    as (lo & hi & Hlo & Hhi & _).
  - discriminate.
  - intros r [<- | [<- | []]]; eexists; reflexivity.
  - now exists lo, hi.
Defined.

End Statistics.
